(** * ThunderScope bridge: packet framing, worker loops and lifecycle

    A shallow embedding of [bridge.cpp] (the named-pipe / domain-socket
    bridge between the scope process and the Electron application).

    - integers are [Z]; a [uint16_t] is a [Z] in [0, 65536), a byte a [Z] in
      [0, 256);
    - [tx_buff] and [rxBuff] are lists of bytes of length
      [BRIDGE_BUFFER_SIZE]; the [uint16_t*] casts of the source read and
      write two bytes, least significant first (the hosts the bridge is
      built for are little-endian);
    - the C heap is a finite map from locations to blocks, [malloc] takes a
      fresh location and [free] deletes one;
    - the [std::queue] objects live in a store indexed by their identity, so
      that the reference a [Bridge] was constructed with and the global
      [_gtxQueue] can be told apart;
    - system calls take their return value from the caller of the model;
    - undefined behaviour and [std::terminate] are explicit [Fault]s;
    - the logger ([logger.hpp]) is not among the sources: a log statement
      is an event that carries its text only;
    - a worker is a function of the state it starts in; [join] returns once
      the worker has left its function, and the interleaving of the
      threads is not modelled. *)

From stdpp Require Import base numbers list list_numbers gmap strings.

Open Scope Z_scope.

(** ** Faults and the error monad *)

Inductive fault :=
| BufferOverrun       (* access outside an array or a heap block *)
| FrontOfEmptyQueue   (* std::queue::front / pop on an empty queue *)
| InvalidPointer      (* dereference or free of a pointer that is not live *)
| ThreadTerminate.    (* assignment to a joinable std::thread *)

Inductive result (A : Type) : Type :=
| Ok (a : A)
| Fault (f : fault).
Arguments Ok {A} a.
Arguments Fault {A} f.

#[global] Instance result_ret : MRet result := fun A a => Ok a.
#[global] Instance result_bind : MBind result := fun A B k m =>
  match m with
  | Ok a => k a
  | Fault f => Fault f
  end.

(** ** Byte buffers *)

(** [write_at buf off bs]: the bytes [bs] stored at offset [off]. *)
Definition write_at (buf : list Z) (off : nat) (bs : list Z) : list Z :=
  take off buf ++ bs ++ drop (off + length bs) buf.

(** [read_at buf off n]: [n] bytes from offset [off]. *)
Definition read_at (buf : list Z) (off n : nat) : list Z :=
  take n (drop off buf).

(** The 16-bit value at index [i] of the buffer seen as [uint16_t*]: two
    bytes, least significant first. *)
Definition u16_at (buf : list Z) (i : nat) : Z :=
  little_endian_to_Z 8 (read_at buf (2 * i) 2).

(** [((uint16_t* )buf)[i]]; the two bytes have to lie inside the buffer. *)
Definition load16 (buf : list Z) (i : nat) : result Z :=
  if bool_decide (2 * i + 2 ≤ length buf)%nat
  then Ok (u16_at buf i)
  else Fault BufferOverrun.

(** [((uint16_t* )buf)[i] = v] *)
Definition store16 (buf : list Z) (i : nat) (v : Z) : result (list Z) :=
  if bool_decide (2 * i + 2 ≤ length buf)%nat
  then Ok (write_at buf (2 * i) (Z_to_little_endian 2 8 v))
  else Fault BufferOverrun.

(** [memcpy(dst + off, src, n)]; both ranges have to lie inside their
    objects. *)
Definition memcpy (dst : list Z) (off : nat) (src : list Z) (n : nat)
  : result (list Z) :=
  if bool_decide (off + n ≤ length dst)%nat && bool_decide (n ≤ length src)%nat
  then Ok (write_at dst off (take n src))
  else Fault BufferOverrun.

Definition uint16 (v : Z) : Prop := 0 ≤ v < 65536.
Definition uint8 (v : Z) : Prop := 0 ≤ v < 256.

(** The header of a frame as six bytes. *)
Definition header_bytes (cmd pid size : Z) : list Z :=
  Z_to_little_endian 2 8 cmd ++ Z_to_little_endian 2 8 pid
  ++ Z_to_little_endian 2 8 size.

(** ** Packets, heap and queues *)

Definition loc := positive.

(** [struct EVPacket]: three [uint16_t] fields and a pointer to the payload. *)
Record EVPacket := {
  command : Z;
  packetID : Z;
  dataSize : Z;
  data : loc
}.

Inductive block :=
| BRaw                       (* malloc(sizeof(EVPacket)), fields not yet set *)
| BPacket (p : EVPacket)     (* an EVPacket whose fields are set *)
| BData (bs : list Z).       (* malloc(n): n bytes *)

(** [malloc]: some location that is not live. *)
Definition malloc (h : gmap loc block) (b : block) : loc * gmap loc block :=
  let l := fresh (dom h) in (l, <[l := b]> h).

(** [free(p)] *)
Definition free (h : gmap loc block) (p : loc) : result (gmap loc block) :=
  match h !! p with
  | Some _ => Ok (delete p h)
  | None => Fault InvalidPointer
  end.

Definition load_packet (h : gmap loc block) (p : loc) : result EVPacket :=
  match h !! p with
  | Some (BPacket pk) => Ok pk
  | _ => Fault InvalidPointer
  end.

Definition load_data (h : gmap loc block) (p : loc) : result (list Z) :=
  match h !! p with
  | Some (BData bs) => Ok bs
  | _ => Fault InvalidPointer
  end.

(** [FreePacket]: frees the packet and all data it points to. *)
Definition FreePacket (h : gmap loc block) (packet : loc)
  : result (gmap loc block) :=
  pk ← load_packet h packet;
  h1 ← free h (data pk);
  free h1 packet.

(** Identity of a [std::queue<EVPacket*>] object and of a [std::mutex]. *)
Definition qref := positive.
Definition mref := positive.

(** The two global queues and their mutexes. *)
Definition _gtxQueue : qref := 1%positive.
Definition _grxQueue : qref := 2%positive.
Definition _gtxLock : mref := 1%positive.
Definition _grxLock : mref := 2%positive.

(** What a worker does that is visible from outside. *)
Inductive event :=
| EvLock (m : mref)
| EvUnlock (m : mref)
| EvSleep (us : Z)
| EvSend (fd : Z) (bytes : list Z)          (* send / WriteFile *)
| EvRecv (fd : Z) (capacity : Z)            (* recv(fd, rxBuff, capacity, 0) *)
| EvReadFile (off : Z) (n : Z)              (* ReadFile(rx_hPipe, rxBuff + off, n, ..) *)
| EvLog (msg : string)
| EvPrintBytes (bytes : list Z)             (* the printf loop over rxBuff *)
| EvPrintPacket (pid cmd size : Z) (bytes : list Z).

(** [std::thread]: either it has an associated thread (joinable) or not. *)
Inductive thread := NotJoinable | Joinable.

(** [class Bridge], the members the functions below use. *)
Record Bridge := {
  _txQueue : qref;
  _rxQueue : qref;
  _txLock : mref;
  _rxLock : mref;
  tx_run : bool;
  rx_run : bool;
  tx_sock : Z;
  rx_sock : Z;
  client_tx_sock : Z;
  client_rx_sock : Z;
  tx_worker : thread;
  rx_worker : thread;
  tx_buff : list Z;
  rxBuff : list Z;
  tx_connection_string : string;
  rx_connection_string : string
}.

Definition set_tx_run (v : bool) (b : Bridge) : Bridge :=
  {| _txQueue := _txQueue b; _rxQueue := _rxQueue b; _txLock := _txLock b;
     _rxLock := _rxLock b; tx_run := v; rx_run := rx_run b;
     tx_sock := tx_sock b; rx_sock := rx_sock b;
     client_tx_sock := client_tx_sock b; client_rx_sock := client_rx_sock b;
     tx_worker := tx_worker b; rx_worker := rx_worker b;
     tx_buff := tx_buff b; rxBuff := rxBuff b;
     tx_connection_string := tx_connection_string b;
     rx_connection_string := rx_connection_string b |}.

Definition set_rx_run (v : bool) (b : Bridge) : Bridge :=
  {| _txQueue := _txQueue b; _rxQueue := _rxQueue b; _txLock := _txLock b;
     _rxLock := _rxLock b; tx_run := tx_run b; rx_run := v;
     tx_sock := tx_sock b; rx_sock := rx_sock b;
     client_tx_sock := client_tx_sock b; client_rx_sock := client_rx_sock b;
     tx_worker := tx_worker b; rx_worker := rx_worker b;
     tx_buff := tx_buff b; rxBuff := rxBuff b;
     tx_connection_string := tx_connection_string b;
     rx_connection_string := rx_connection_string b |}.

Definition set_tx_sock (v : Z) (b : Bridge) : Bridge :=
  {| _txQueue := _txQueue b; _rxQueue := _rxQueue b; _txLock := _txLock b;
     _rxLock := _rxLock b; tx_run := tx_run b; rx_run := rx_run b;
     tx_sock := v; rx_sock := rx_sock b;
     client_tx_sock := client_tx_sock b; client_rx_sock := client_rx_sock b;
     tx_worker := tx_worker b; rx_worker := rx_worker b;
     tx_buff := tx_buff b; rxBuff := rxBuff b;
     tx_connection_string := tx_connection_string b;
     rx_connection_string := rx_connection_string b |}.

Definition set_rx_sock (v : Z) (b : Bridge) : Bridge :=
  {| _txQueue := _txQueue b; _rxQueue := _rxQueue b; _txLock := _txLock b;
     _rxLock := _rxLock b; tx_run := tx_run b; rx_run := rx_run b;
     tx_sock := tx_sock b; rx_sock := v;
     client_tx_sock := client_tx_sock b; client_rx_sock := client_rx_sock b;
     tx_worker := tx_worker b; rx_worker := rx_worker b;
     tx_buff := tx_buff b; rxBuff := rxBuff b;
     tx_connection_string := tx_connection_string b;
     rx_connection_string := rx_connection_string b |}.

Definition set_client_tx_sock (v : Z) (b : Bridge) : Bridge :=
  {| _txQueue := _txQueue b; _rxQueue := _rxQueue b; _txLock := _txLock b;
     _rxLock := _rxLock b; tx_run := tx_run b; rx_run := rx_run b;
     tx_sock := tx_sock b; rx_sock := rx_sock b;
     client_tx_sock := v; client_rx_sock := client_rx_sock b;
     tx_worker := tx_worker b; rx_worker := rx_worker b;
     tx_buff := tx_buff b; rxBuff := rxBuff b;
     tx_connection_string := tx_connection_string b;
     rx_connection_string := rx_connection_string b |}.

Definition set_client_rx_sock (v : Z) (b : Bridge) : Bridge :=
  {| _txQueue := _txQueue b; _rxQueue := _rxQueue b; _txLock := _txLock b;
     _rxLock := _rxLock b; tx_run := tx_run b; rx_run := rx_run b;
     tx_sock := tx_sock b; rx_sock := rx_sock b;
     client_tx_sock := client_tx_sock b; client_rx_sock := v;
     tx_worker := tx_worker b; rx_worker := rx_worker b;
     tx_buff := tx_buff b; rxBuff := rxBuff b;
     tx_connection_string := tx_connection_string b;
     rx_connection_string := rx_connection_string b |}.

Definition set_tx_worker (v : thread) (b : Bridge) : Bridge :=
  {| _txQueue := _txQueue b; _rxQueue := _rxQueue b; _txLock := _txLock b;
     _rxLock := _rxLock b; tx_run := tx_run b; rx_run := rx_run b;
     tx_sock := tx_sock b; rx_sock := rx_sock b;
     client_tx_sock := client_tx_sock b; client_rx_sock := client_rx_sock b;
     tx_worker := v; rx_worker := rx_worker b;
     tx_buff := tx_buff b; rxBuff := rxBuff b;
     tx_connection_string := tx_connection_string b;
     rx_connection_string := rx_connection_string b |}.

Definition set_rx_worker (v : thread) (b : Bridge) : Bridge :=
  {| _txQueue := _txQueue b; _rxQueue := _rxQueue b; _txLock := _txLock b;
     _rxLock := _rxLock b; tx_run := tx_run b; rx_run := rx_run b;
     tx_sock := tx_sock b; rx_sock := rx_sock b;
     client_tx_sock := client_tx_sock b; client_rx_sock := client_rx_sock b;
     tx_worker := tx_worker b; rx_worker := v;
     tx_buff := tx_buff b; rxBuff := rxBuff b;
     tx_connection_string := tx_connection_string b;
     rx_connection_string := rx_connection_string b |}.

Definition set_tx_buff (v : list Z) (b : Bridge) : Bridge :=
  {| _txQueue := _txQueue b; _rxQueue := _rxQueue b; _txLock := _txLock b;
     _rxLock := _rxLock b; tx_run := tx_run b; rx_run := rx_run b;
     tx_sock := tx_sock b; rx_sock := rx_sock b;
     client_tx_sock := client_tx_sock b; client_rx_sock := client_rx_sock b;
     tx_worker := tx_worker b; rx_worker := rx_worker b;
     tx_buff := v; rxBuff := rxBuff b;
     tx_connection_string := tx_connection_string b;
     rx_connection_string := rx_connection_string b |}.

Definition set_rxBuff (v : list Z) (b : Bridge) : Bridge :=
  {| _txQueue := _txQueue b; _rxQueue := _rxQueue b; _txLock := _txLock b;
     _rxLock := _rxLock b; tx_run := tx_run b; rx_run := rx_run b;
     tx_sock := tx_sock b; rx_sock := rx_sock b;
     client_tx_sock := client_tx_sock b; client_rx_sock := client_rx_sock b;
     tx_worker := tx_worker b; rx_worker := rx_worker b;
     tx_buff := tx_buff b; rxBuff := v;
     tx_connection_string := tx_connection_string b;
     rx_connection_string := rx_connection_string b |}.

(** What the workers share with the rest of the process: the queue
    objects and the heap. *)
Record World := {
  queues : gmap qref (list loc);
  heap : gmap loc block
}.

Definition queue_of (w : World) (q : qref) : list loc :=
  default [] (queues w !! q).

(** ** The transmit worker *)

(** Lines 166-171 of [TxJob]: header and payload into [tx_buff]; the result
    is the buffer and [packet_size]. *)
Definition tx_serialize (buff : list Z) (pk : EVPacket) (payload : list Z)
  : result (list Z * Z) :=
  let packet_size := 6 + dataSize pk in
  b0 ← store16 buff 0 (command pk);
  b1 ← store16 b0 1 (packetID pk);
  b2 ← store16 b1 2 (dataSize pk);
  b3 ← memcpy b2 6 payload (Z.to_nat (dataSize pk));
  mret (b3, packet_size).

(** One iteration of the [while(tx_run.load())] loop of [TxJob]
    (domain-socket build). The emptiness test reads the queue the bridge
    was constructed with, [front] and [pop] act on the global
    [_gtxQueue]. *)
Definition TxJob_iter (b : Bridge) (w : World)
  : result (Bridge * World * list event) :=
  if bool_decide (queue_of w (_txQueue b) = []) then
    mret (b, w, [EvLock (_txLock b); EvUnlock (_txLock b); EvSleep 500])
  else
    match queue_of w _gtxQueue with
    | [] => Fault FrontOfEmptyQueue
    | txPacket :: rest =>
        let w1 := {| queues := <[_gtxQueue := rest]> (queues w);
                     heap := heap w |} in
        pk ← load_packet (heap w1) txPacket;
        payload ← load_data (heap w1) (data pk);
        '(buff, packet_size) ← tx_serialize (tx_buff b) pk payload;
        let sent := take (Z.to_nat packet_size) buff in
        h ← free (heap w1) txPacket;
        mret (set_tx_buff buff b,
              {| queues := queues w1; heap := h |},
              [EvLock (_txLock b); EvUnlock (_txLock b);
               EvSend (client_tx_sock b) sent])
    end.

(** The loop, for the [n] iterations that happen before another thread
    clears [tx_run]. *)
Fixpoint TxJob_loop (n : nat) (b : Bridge) (w : World)
  : result (Bridge * World * list event) :=
  match n with
  | O => mret (b, w, [])
  | S n' =>
      if tx_run b then
        '(b1, w1, ev1) ← TxJob_iter b w;
        '(b2, w2, ev2) ← TxJob_loop n' b1 w1;
        mret (b2, w2, ev1 ++ ev2)
      else mret (b, w, [])
  end.

(** What [listen] and [accept] return when a worker starts. *)
Record connect_answers := {
  listen_ret : Z;
  accept_ret : Z
}.

(** [Bridge::TxJob] (domain-socket build): wait for the client, then the
    loop. *)
Definition TxJob (env : connect_answers) (n : nat) (b : Bridge) (w : World)
  : result (Bridge * World * list event) :=
  if bool_decide (tx_sock b = -1) then mret (b, w, [])
  else if bool_decide (0 ≠ listen_ret env) then
    mret (b, w, [EvLog "tx_sock::listen(): "])
  else
    let b1 := set_client_tx_sock (accept_ret env) b in
    if bool_decide (client_tx_sock b1 < 0) then
      mret (b1, w, [EvLog "tx_sock: listening for clients";
                    EvLog "tx_sock::accept(): "])
    else
      '(b2, w2, evs) ← TxJob_loop n b1 w;
      mret (b2, w2, EvLog "tx_sock: listening for clients"
                    :: EvLog "tx_sock: client connected" :: evs).

(** ** The receive worker *)

(** [PrintPacket]: the header fields and [data[0 .. dataSize)]. *)
Definition PrintPacket (h : gmap loc block) (packet : loc) : result event :=
  pk ← load_packet h packet;
  bs ← load_data h (data pk);
  if bool_decide (Z.to_nat (dataSize pk) ≤ length bs)%nat then
    mret (EvPrintPacket (packetID pk) (command pk) (dataSize pk)
            (take (Z.to_nat (dataSize pk)) bs))
  else Fault BufferOverrun.

(** How an iteration of a worker loop ends. *)
Inductive ctl := Next | Break.

(** What [recv] on a blocking stream socket reports: some bytes (the
    return value is their number), 0 once the peer has shut the connection
    down, -1 on an error. *)
Inductive recv_result :=
| RecvBytes (bs : list Z)
| RecvShutdown
| RecvError.

(** [recv(fd, buf, capacity, 0)]: the return value and the bytes stored. *)
Definition recv (capacity : Z) (r : recv_result) : Z * list Z :=
  match r with
  | RecvBytes bs =>
      let got := take (Z.to_nat capacity) bs in (Z.of_nat (length got), got)
  | RecvShutdown => (0, [])
  | RecvError => (-1, [])
  end.

(** What [ReadFile] reports: its return value, [GetLastError()], and the
    bytes it stored. *)
Record readfile_result := {
  rf_val : Z;
  rf_err : Z;
  rf_bytes : list Z
}.

Section Receive.

(** The size of [tx_buff] and [rxBuff]; [bridge.hpp], which defines it, is
    not among the sources, so it is a parameter of everything that names
    it. *)
Variable BRIDGE_BUFFER_SIZE : Z.

(** The largest payload a frame can carry: the buffer minus the header. *)
Definition MAX_PAYLOAD : Z := BRIDGE_BUFFER_SIZE - 6.

(** Lines 290-307 of [RxJob]: the packet rebuilt from [rxBuff]. [junk] is
    the content of freshly allocated memory. The result is the pointer to
    the packet and the heap. *)
Definition rx_reconstruct (h : gmap loc block) (buf : list Z) (junk : Z)
  : result (loc * gmap loc block) :=
  let '(rxPacket, h1) := malloc h BRaw in
  cmd ← load16 buf 0;
  pid ← load16 buf 1;
  size ← load16 buf 2;
  if bool_decide (size ≤ BRIDGE_BUFFER_SIZE - 6) then
    let fresh_bytes := replicate (Z.to_nat size) junk in
    let '(d, h2) := malloc h1 (BData fresh_bytes) in
    bs ← memcpy fresh_bytes 0 (drop 6 buf) (Z.to_nat size);
    mret (rxPacket,
          <[rxPacket := BPacket {| command := cmd; packetID := pid;
                                   dataSize := size; data := d |}]>
            (<[d := BData bs]> h2))
  else
    let '(d, h2) := malloc h1 (BData [junk]) in
    mret (rxPacket,
          <[rxPacket := BPacket {| command := cmd; packetID := pid;
                                   dataSize := 1; data := d |}]> h2).

(** Lines 284-314 of [RxJob]: print [rxBuff[0 .. packet_size)], rebuild
    the packet, print it, free it. *)
Definition RxJob_process (packet_size : Z) (junk : Z) (b : Bridge) (w : World)
  : result (World * list event) :=
  dump ← (if bool_decide (Z.to_nat packet_size ≤ length (rxBuff b))%nat
          then Ok (EvPrintBytes (take (Z.to_nat packet_size) (rxBuff b)))
          else Fault BufferOverrun);
  '(rxPacket, h1) ← rx_reconstruct (heap w) (rxBuff b) junk;
  ev ← PrintPacket h1 rxPacket;
  h2 ← FreePacket h1 rxPacket;
  mret ({| queues := queues w; heap := h2 |},
        [dump; ev; EvLock (_rxLock b); EvUnlock (_rxLock b)]).

(** One iteration of [while(rx_run.load())] in [RxJob], domain-socket
    build (lines 271-282, then 284-314). *)
Definition RxJob_iter_sock (r : recv_result) (junk : Z) (b : Bridge) (w : World)
  : result (Bridge * World * list event * ctl) :=
  let '(packet_size, got) := recv BRIDGE_BUFFER_SIZE r in
  let b1 := set_rxBuff (write_at (rxBuff b) 0 got) b in
  let ev0 := EvRecv (client_rx_sock b) BRIDGE_BUFFER_SIZE in
  if bool_decide (0 < packet_size) then
    '(w1, evs) ← RxJob_process packet_size junk b1 w;
    mret (b1, w1, ev0 :: EvLog "rx_sock: Packet Size" :: evs, Next)
  else if bool_decide (packet_size = -1) then
    let b2 := set_rx_run false b1 in
    '(w1, evs) ← RxJob_process packet_size junk b2 w;
    mret (b2, w1,
          ev0 :: EvLog "rx_sock: Client has disconnected...." :: evs, Next)
  else
    mret (b1, w, [ev0; EvSleep 500], Next).

(** One iteration of [while(rx_run.load())] in [RxJob], named-pipe build
    (lines 229-268, then 284-314). [hdr] answers the header read, [pay]
    the payload read when there is one. *)
Definition RxJob_iter_pipe (hdr pay : readfile_result) (junk : Z)
    (b : Bridge) (w : World)
  : result (Bridge * World * list event * ctl) :=
  let ev_h := EvReadFile 0 6 in
  let b1 := set_rxBuff (write_at (rxBuff b) 0 (take 6 (rf_bytes hdr))) b in
  if bool_decide (rf_val hdr = 0) && bool_decide (rf_err hdr = 109) then
    mret (b1, w, [ev_h; EvSleep 500], Next)
  else if bool_decide (rf_val hdr = 0) && negb (bool_decide (rf_err hdr = 234))
  then
    mret (b1, w, [ev_h; EvLog "rx_pipe header_read: Error"], Break)
  else
    size ← load16 (rxBuff b1) 2;
    if bool_decide (size < BRIDGE_BUFFER_SIZE - 6) then
      let ev_p := EvReadFile 6 size in
      let b2 :=
        set_rxBuff (write_at (rxBuff b1) 6
                      (take (Z.to_nat size) (rf_bytes pay))) b1 in
      if bool_decide (rf_val pay = 0) && bool_decide (rf_err pay = 109) then
        mret (b2, w, [ev_h; ev_p; EvSleep 500], Next)
      else if bool_decide (rf_val pay = 0)
              && negb (bool_decide (rf_err pay = 234)) then
        mret (b2, w, [ev_h; ev_p; EvLog "rx_pipe data_read: Error"], Break)
      else
        let pause :=
          if bool_decide (rf_val pay = 0) then [EvSleep 500] else [] in
        let packet_size := 6 + size in
        '(w1, evs) ← RxJob_process packet_size junk b2 w;
        mret (b2, w1, [ev_h; ev_p] ++ pause ++ evs, Next)
    else
      mret (b1, w, [ev_h], Next).

(** The receive loop over the answers of the transport, one per iteration:
    it runs while [rx_run] is set and no iteration ends in [break]. *)
Fixpoint RxJob_loop_sock (rs : list (recv_result * Z)) (b : Bridge) (w : World)
  : result (Bridge * World * list event) :=
  match rs with
  | [] => mret (b, w, [])
  | (r, junk) :: rs' =>
      if rx_run b then
        '(b1, w1, ev1, c) ← RxJob_iter_sock r junk b w;
        match c with
        | Break => mret (b1, w1, ev1)
        | Next =>
            '(b2, w2, ev2) ← RxJob_loop_sock rs' b1 w1;
            mret (b2, w2, ev1 ++ ev2)
        end
      else mret (b, w, [])
  end.

Fixpoint RxJob_loop_pipe
    (rs : list (readfile_result * readfile_result * Z))
    (b : Bridge) (w : World)
  : result (Bridge * World * list event) :=
  match rs with
  | [] => mret (b, w, [])
  | (hdr, pay, junk) :: rs' =>
      if rx_run b then
        '(b1, w1, ev1, c) ← RxJob_iter_pipe hdr pay junk b w;
        match c with
        | Break => mret (b1, w1, ev1)
        | Next =>
            '(b2, w2, ev2) ← RxJob_loop_pipe rs' b1 w1;
            mret (b2, w2, ev1 ++ ev2)
        end
      else mret (b, w, [])
  end.

(** [Bridge::RxJob] (domain-socket build): wait for the client, then the
    loop. *)
Definition RxJob (env : connect_answers) (rs : list (recv_result * Z))
    (b : Bridge) (w : World)
  : result (Bridge * World * list event) :=
  if bool_decide (rx_sock b = -1) then mret (b, w, [])
  else if bool_decide (0 ≠ listen_ret env) then
    mret (b, w, [EvLog "rx_sock::listen(): "])
  else
    let b1 := set_client_rx_sock (accept_ret env) b in
    if bool_decide (client_rx_sock b1 < 0) then
      mret (b1, w, [EvLog "rx_sock: listening for clients";
                    EvLog "rx_sock::accept(): "])
    else
      '(b2, w2, evs) ← RxJob_loop_sock rs b1 w;
      mret (b2, w2, EvLog "rx_sock: listening for clients"
                    :: EvLog "rx_sock: client connected" :: evs).

(** *** Names for the statements below *)

(** What [PrintPacket] shows of the packet rebuilt from [buf]. *)
Definition rx_printed (buf : list Z) (junk : Z) : event :=
  if bool_decide (u16_at buf 2 ≤ BRIDGE_BUFFER_SIZE - 6) then
    EvPrintPacket (u16_at buf 1) (u16_at buf 0) (u16_at buf 2)
      (take (Z.to_nat (u16_at buf 2)) (drop 6 buf))
  else EvPrintPacket (u16_at buf 1) (u16_at buf 0) 1 [junk].

(** The bridge after [recv] stored [bs] in [rxBuff]. *)
Definition after_recv (bs : list Z) (b : Bridge) : Bridge :=
  set_rxBuff (write_at (rxBuff b) 0 (take (Z.to_nat BRIDGE_BUFFER_SIZE) bs)) b.

(** The trace of [n] iterations that found nothing. *)
Definition idle_polls (fd : Z) (n : nat) : list event :=
  concat (replicate n [EvRecv fd BRIDGE_BUFFER_SIZE; EvSleep 500]).

End Receive.

(** The bridge after the header read of the named-pipe path. *)
Definition after_header (hdr : readfile_result) (b : Bridge) : Bridge :=
  set_rxBuff (write_at (rxBuff b) 0 (take 6 (rf_bytes hdr))) b.

(** The bridge after the payload read of [size] bytes. *)
Definition after_payload (size : Z) (pay : readfile_result) (b : Bridge)
  : Bridge :=
  set_rxBuff (write_at (rxBuff b) 6 (take (Z.to_nat size) (rf_bytes pay))) b.

(** [ReadFile] either succeeded or reported error 234 (more data), the one
    error the loop does not treat as a failure. *)
Definition read_accepted (r : readfile_result) : Prop :=
  rf_val r ≠ 0 ∨ rf_err r = 234.

#[global] Instance read_accepted_dec (r : readfile_result) :
  Decision (read_accepted r).
Proof. unfold read_accepted. apply _. Defined.

(** The reads an iteration asked the transport for. *)
Definition is_read (e : event) : bool :=
  match e with
  | EvRecv _ _ | EvReadFile _ _ => true
  | _ => false
  end.

Definition read_requests (evs : list event) : list event :=
  filter (λ e, is_read e = true) evs.

(** An iteration handed a packet to [PrintPacket]. *)
Definition packet_produced (evs : list event) : Prop :=
  ∃ pid cmd size bytes, EvPrintPacket pid cmd size bytes ∈ evs.

(** The two locations [rx_reconstruct] allocates. *)
Definition rx_packet_loc (h : gmap loc block) : loc := fresh (dom h).
Definition rx_data_loc (h : gmap loc block) : loc :=
  fresh (dom (<[rx_packet_loc h := BRaw]> h)).

(** ** Lifecycle (domain-socket build) *)

(** The part of the operating system the lifecycle functions act on: the
    open descriptors of the process and the socket files that exist. *)
Record OS := {
  open_fds : gset Z;
  socket_files : gset string
}.

(** [socket()] returned [ret]: a new descriptor when it is not negative. *)
Definition sys_socket (ret : Z) (os : OS) : OS :=
  if bool_decide (0 ≤ ret)
  then {| open_fds := {[ret]} ∪ open_fds os; socket_files := socket_files os |}
  else os.

Definition sys_close (fd : Z) (os : OS) : OS :=
  {| open_fds := open_fds os ∖ {[fd]}; socket_files := socket_files os |}.

Definition sys_unlink (path : string) (os : OS) : OS :=
  {| open_fds := open_fds os; socket_files := socket_files os ∖ {[path]} |}.

(** [bind()] succeeded: the socket file exists. *)
Definition sys_bind (path : string) (os : OS) : OS :=
  {| open_fds := open_fds os; socket_files := {[path]} ∪ socket_files os |}.

(** What [socket()] and [bind()] return in one call of an Init function. *)
Record init_answers := {
  socket_ret : Z;
  bind_ret : Z
}.

(** [Bridge::Bridge]. [base_path] comes from [bridge.hpp]; [mem] is the
    storage the object is built in, whose content the members that the
    constructor does not assign keep. *)
Definition Bridge_new (base_path : string) (mem : Bridge) (pipeName : string)
    (txQueue rxQueue : qref) (txLock rxLock : mref) : Bridge :=
  {| _txQueue := txQueue; _rxQueue := rxQueue;
     _txLock := txLock; _rxLock := rxLock;
     tx_run := false; rx_run := false;
     tx_sock := -1; rx_sock := -1;
     client_tx_sock := -1; client_rx_sock := client_rx_sock mem;
     tx_worker := NotJoinable; rx_worker := NotJoinable;
     tx_buff := tx_buff mem; rxBuff := rxBuff mem;
     tx_connection_string := base_path +:+ pipeName +:+ "TX";
     rx_connection_string := base_path +:+ pipeName +:+ "RX" |}.

(** [std::thread::join] when joinable: the handle has no thread
    afterwards. The call returns once the worker has left its function. *)
Definition join_if_joinable (t : thread) : thread :=
  match t with
  | Joinable => NotJoinable
  | NotJoinable => NotJoinable
  end.

(** [Bridge::TxStop] *)
Definition TxStop (b : Bridge) (os : OS) : Z * Bridge * OS :=
  let b1 := set_tx_run false b in
  let b2 := set_tx_worker (join_if_joinable (tx_worker b1)) b1 in
  if bool_decide (-1 ≠ tx_sock b2) then
    let os1 := sys_close (tx_sock b2) os in
    let b3 := set_tx_sock (-1) b2 in
    let b4 := set_client_tx_sock (-1) b3 in
    (0, b4, sys_unlink (tx_connection_string b4) os1)
  else (0, b2, os).

(** [Bridge::RxStop] *)
Definition RxStop (b : Bridge) (os : OS) : Z * Bridge * OS :=
  let b1 := set_rx_run false b in
  let b2 := set_rx_worker (join_if_joinable (rx_worker b1)) b1 in
  if bool_decide (-1 ≠ rx_sock b2) then
    let os1 := sys_close (rx_sock b2) os in
    let b3 := set_rx_sock (-1) b2 in
    (0, b3, sys_unlink (rx_connection_string b3) os1)
  else (0, b2, os).

(** [Bridge::InitTxBridge] *)
Definition InitTxBridge (env : init_answers) (b : Bridge) (os : OS)
  : Z * Bridge * OS :=
  let b1 := set_tx_sock (socket_ret env) b in
  let os1 := sys_socket (socket_ret env) os in
  if bool_decide (tx_sock b1 < 0) then (1, b1, os1)
  else
    let os2 := sys_unlink (tx_connection_string b1) os1 in
    if bool_decide (bind_ret env < 0) then (2, b1, os2)
    else (0, b1, sys_bind (tx_connection_string b1) os2).

(** [Bridge::InitRxBridge] *)
Definition InitRxBridge (env : init_answers) (b : Bridge) (os : OS)
  : Z * Bridge * OS :=
  let b1 := set_rx_sock (socket_ret env) b in
  let os1 := sys_socket (socket_ret env) os in
  if bool_decide (rx_sock b1 < 0) then (1, b1, os1)
  else
    let os2 := sys_unlink (rx_connection_string b1) os1 in
    if bool_decide (bind_ret env < 0) then (2, b1, os2)
    else (0, b1, sys_bind (rx_connection_string b1) os2).

(** [t = std::thread(f, this)]: [std::terminate] when [t] is joinable. *)
Definition spawn (t : thread) : result thread :=
  match t with
  | Joinable => Fault ThreadTerminate
  | NotJoinable => Ok Joinable
  end.

(** [Bridge::TxStart] *)
Definition TxStart (env : init_answers) (b : Bridge) (os : OS)
  : result (Z * Bridge * OS) :=
  let '(b1, os1) :=
    if tx_run b then let '(_, b', os') := TxStop b os in (b', os')
    else (b, os) in
  let '(err, b2, os2) := InitTxBridge env b1 os1 in
  if bool_decide (err ≠ 0) then mret (err, b2, os2)
  else
    let b3 := set_tx_run true b2 in
    t ← spawn (tx_worker b3);
    mret (0, set_tx_worker t b3, os2).

(** [Bridge::RxStart] *)
Definition RxStart (env : init_answers) (b : Bridge) (os : OS)
  : result (Z * Bridge * OS) :=
  let '(b1, os1) :=
    if rx_run b then let '(_, b', os') := RxStop b os in (b', os')
    else (b, os) in
  let '(err, b2, os2) := InitRxBridge env b1 os1 in
  if bool_decide (err ≠ 0) then mret (err, b2, os2)
  else
    let b3 := set_rx_run true b2 in
    t ← spawn (rx_worker b3);
    mret (0, set_rx_worker t b3, os2).

(** ** Producers and the test of the source *)

(** What application code does to send a packet, as [runSocketTest] does
    it: allocate the [EVPacket] and its payload, fill them in, push the
    pointer on a queue. *)
Definition enqueue (q : qref) (cmd pid : Z) (payload : list Z) (w : World)
  : loc * World :=
  let '(packet, h1) := malloc (heap w) BRaw in
  let '(d, h2) := malloc h1 (BData payload) in
  let h3 := <[packet := BPacket {| command := cmd; packetID := pid;
                                   dataSize := Z.of_nat (length payload);
                                   data := d |}]> h2 in
  (packet,
   {| queues := <[q := queue_of w q ++ [packet]]> (queues w); heap := h3 |}).

(** The packet [runSocketTest] builds and pushes on [_gtxQueue]:
    command 1, packetID 0x0808, five payload bytes 1..5. *)
Definition runSocketTest_packet (w : World) : loc * World :=
  enqueue _gtxQueue 1 0x0808 [1; 2; 3; 4; 5] w.

Definition empty_world : World := {| queues := ∅; heap := ∅ |}.

(** Storage for a [Bridge] with zeroed buffers of [n] bytes. *)
Definition zeroed (n : nat) : Bridge :=
  {| _txQueue := _gtxQueue; _rxQueue := _grxQueue;
     _txLock := _gtxLock; _rxLock := _grxLock;
     tx_run := false; rx_run := false;
     tx_sock := 0; rx_sock := 0; client_tx_sock := 0; client_rx_sock := 0;
     tx_worker := NotJoinable; rx_worker := NotJoinable;
     tx_buff := replicate n 0; rxBuff := replicate n 0;
     tx_connection_string := EmptyString;
     rx_connection_string := EmptyString |}.

(** The bridge of [runSocketTest]: built over the global queues and locks. *)
Definition testBridge (base_path : string) (n : nat) : Bridge :=
  Bridge_new base_path (zeroed n) "testPipe"
    _gtxQueue _grxQueue _gtxLock _grxLock.


(** [runSocketTest], up to the point where it waits for input: the test
    packet on [_gtxQueue], a bridge over the global queues and locks, both
    engines started. *)
Definition runSocketTest (base_path : string) (mem : Bridge)
    (tx_env rx_env : init_answers) (w : World) (os : OS)
  : result (Bridge * World * OS) :=
  let w1 := (runSocketTest_packet w).2 in
  let b0 := Bridge_new base_path mem "testPipe"
              _gtxQueue _grxQueue _gtxLock _grxLock in
  '(_, b1, os1) ← TxStart tx_env b0 os;
  '(_, b2, os2) ← RxStart rx_env b1 os1;
  mret (b2, w1, os2).

(** ** Well-formed packets and queues *)

(** An [EVPacket] as its type has it: three 16-bit fields, and [data]
    points to [dataSize] bytes. *)
Definition packet_ok (pk : EVPacket) (payload : list Z) : Prop :=
  uint16 (command pk) ∧ uint16 (packetID pk) ∧ uint16 (dataSize pk)
  ∧ dataSize pk = Z.of_nat (length payload).

(** The frame of a packet on the wire. *)
Definition frame_of (it : EVPacket * list Z) : list Z :=
  header_bytes (command it.1) (packetID it.1) (dataSize it.1) ++ it.2.

(** A queue of pointers whose packets are [items], in this order: every
    pointer leads to its own [EVPacket], whose [data] leads to [dataSize]
    bytes that fit behind the header in a buffer of [n] bytes. *)
Fixpoint tx_ready (n : nat) (h : gmap loc block) (q : list loc)
    (items : list (EVPacket * list Z)) : Prop :=
  match q, items with
  | [], [] => True
  | p :: q', it :: items' =>
      h !! p = Some (BPacket it.1)
      ∧ h !! data it.1 = Some (BData it.2)
      ∧ dataSize it.1 = Z.of_nat (length it.2)
      ∧ (6 + length it.2 ≤ n)%nat
      ∧ tx_ready n (delete p h) q' items'
  | _, _ => False
  end.

(** ** Concrete runs *)

(** A producer that was handed queue 3 and enqueues packetIDs 1, 2, 3 on
    it, while some other code has left one packet (packetID 9) on the
    global [_gtxQueue]. *)
Definition own_queue : qref := 3%positive.
Definition own_lock : mref := 3%positive.

Definition own_queue_world : World :=
  let w0 := (enqueue _gtxQueue 7 9 [170] empty_world).2 in
  let w1 := (enqueue own_queue 0 1 [] w0).2 in
  let w2 := (enqueue own_queue 0 2 [] w1).2 in
  (enqueue own_queue 0 3 [] w2).2.

Definition own_queue_bridge : Bridge :=
  set_tx_run true
    (Bridge_new "/tmp/" (zeroed 4096) "testPipe"
       own_queue _grxQueue own_lock _grxLock).

Definition no_resources : OS := {| open_fds := ∅; socket_files := ∅ |}.

(** The frame of the packet of [runSocketTest], and a delivery of three
    bytes. *)
Definition full_frame : list Z := [1; 0; 8; 8; 5; 0; 1; 2; 3; 4; 5].
Definition short_read : list Z := [2; 0; 9].

Definition testPacket : EVPacket :=
  {| command := 1; packetID := 0x0808; dataSize := 5; data := 2%positive |}.

(** ** What a trace shows *)

(** The byte strings handed to [send], in order. *)
Definition sent_frames (evs : list event) : list (list Z) :=
  omap (λ e, match e with EvSend _ bs => Some bs | _ => None end) evs.

(** The packets handed to [PrintPacket], in order. *)
Definition is_print (e : event) : bool :=
  match e with
  | EvPrintPacket _ _ _ _ => true
  | _ => false
  end.

Definition printed_packets (evs : list event) : list event :=
  filter (λ e, is_print e = true) evs.

(** What [PrintPacket] shows of a packet. *)
Definition printed_of (it : EVPacket * list Z) : event :=
  EvPrintPacket (packetID it.1) (command it.1) (dataSize it.1) it.2.

(** ** Sequences of lifecycle calls (domain-socket build) *)

Inductive tx_call :=
| CallTxStart (env : init_answers)
| CallTxStop.

(** The calls one after the other; the return values are dropped, as
    [runSocketTest] and the destructor drop them. *)
Fixpoint run_tx_calls (cs : list tx_call) (b : Bridge) (os : OS)
  : result (Bridge * OS) :=
  match cs with
  | [] => mret (b, os)
  | CallTxStart env :: cs' =>
      '(_, b1, os1) ← TxStart env b os;
      run_tx_calls cs' b1 os1
  | CallTxStop :: cs' =>
      let '(_, b1, os1) := TxStop b os in
      run_tx_calls cs' b1 os1
  end.

(** The thread handle has a thread exactly when the run flag is set. *)
Definition tx_handle_matches_flag (b : Bridge) : Prop :=
  tx_worker b = if tx_run b then Joinable else NotJoinable.

(** ** Lifecycle of the transmit engine (named-pipe build) *)

Module Pipe.

Definition INVALID_HANDLE_VALUE : Z := -1.

(** The members of [Bridge] that the named-pipe [TxStart], [TxStop] and
    [InitTxBridge] use. *)
Record Bridge := {
  tx_run : bool;
  tx_worker : thread;
  tx_hPipe : Z
}.

(** [CloseHandle] on the handles the engine has created and not closed. *)
Definition CloseHandle (h : Z) (handles : gset Z) : gset Z := handles ∖ {[h]}.

(** [CreateNamedPipe] returned [created]: a new handle unless it is
    [INVALID_HANDLE_VALUE]. *)
Definition CreateNamedPipe (created : Z) (handles : gset Z) : gset Z :=
  if bool_decide (created = INVALID_HANDLE_VALUE) then handles
  else {[created]} ∪ handles.

(** [Bridge::TxStop], lines 384-396. *)
Definition TxStop (b : Bridge) (handles : gset Z) : Z * Bridge * gset Z :=
  let b1 := {| tx_run := false;
               tx_worker := join_if_joinable (tx_worker b);
               tx_hPipe := tx_hPipe b |} in
  if bool_decide (INVALID_HANDLE_VALUE ≠ tx_hPipe b1) then
    (0,
     {| tx_run := tx_run b1; tx_worker := tx_worker b1;
        tx_hPipe := INVALID_HANDLE_VALUE |},
     CloseHandle (tx_hPipe b1) handles)
  else (0, b1, handles).

(** [Bridge::InitTxBridge], lines 432-455. *)
Definition InitTxBridge (created : Z) (b : Bridge) (handles : gset Z)
  : Z * Bridge * gset Z :=
  if bool_decide (tx_hPipe b ≠ INVALID_HANDLE_VALUE) then (2, b, handles)
  else
    let b1 := {| tx_run := tx_run b; tx_worker := tx_worker b;
                 tx_hPipe := created |} in
    let handles1 := CreateNamedPipe created handles in
    if bool_decide (tx_hPipe b1 = INVALID_HANDLE_VALUE) then (1, b1, handles1)
    else (0, b1, handles1).

(** [Bridge::TxStart], lines 328-343, over the two functions above. *)
Definition TxStart (created : Z) (b : Bridge) (handles : gset Z)
  : result (Z * Bridge * gset Z) :=
  let '(b1, handles1) :=
    if tx_run b then let '(_, b', hs') := TxStop b handles in (b', hs')
    else (b, handles) in
  let '(err, b2, handles2) := InitTxBridge created b1 handles1 in
  if bool_decide (err ≠ 0) then mret (err, b2, handles2)
  else
    let b3 := {| tx_run := true; tx_worker := tx_worker b2;
                 tx_hPipe := tx_hPipe b2 |} in
    t ← spawn (tx_worker b3);
    mret (0, {| tx_run := tx_run b3; tx_worker := t;
                tx_hPipe := tx_hPipe b3 |}, handles2).



(** The engine as the constructor leaves it. *)
Definition fresh_bridge : Bridge :=
  {| tx_run := false; tx_worker := NotJoinable;
     tx_hPipe := INVALID_HANDLE_VALUE |}.

(** The handles that are open are the one the bridge holds, if any; and
    the thread handle has a thread exactly when the run flag is set. *)
Definition consistent (b : Bridge) (handles : gset Z) : Prop :=
  handles = (if bool_decide (tx_hPipe b = INVALID_HANDLE_VALUE)
             then ∅ else {[tx_hPipe b]})
  ∧ tx_worker b = (if tx_run b then Joinable else NotJoinable)
  ∧ (tx_run b = true ↔ tx_hPipe b ≠ INVALID_HANDLE_VALUE).

End Pipe.

(** ** The test client of the user interface ([TestPoints]) *)

Module TestPoints.

(** An element of [scope_data]: [{x: i, y: v}]. *)
Record point := {
  x : Z;
  y : Z
}.

(** A JavaScript array: a slot holds a value or is empty. [a[i] = v]
    replaces a slot, or grows the array when [i] is not below its length,
    leaving the slots in between empty. *)
Definition array_set {A : Type} (a : list (option A)) (i : nat) (v : A)
  : list (option A) :=
  if bool_decide (i < length a)%nat then <[i := Some v]> a
  else a ++ replicate (i - length a) None ++ [Some v].

(** [for(var i = 0; i < 1024; i++) scope_data[i] = {x: i, y: 0}], from [i]
    for [n] rounds. *)
Fixpoint init_from (n i : nat) (a : list (option point))
  : list (option point) :=
  match n with
  | O => a
  | S n' => init_from n' (S i) (array_set a i {| x := Z.of_nat i; y := 0 |})
  end.

(** [scope_data] once the module is loaded (lines 4-8). *)
Definition scope_data_init : list (option point) := init_from 1024 0 [].

(** [for(var i = 0; i < nestedBytes.length; i++)
       scope_data[i] = {x: i, y: nestedBytes[i]}], from index [i]. *)
Fixpoint fill_from (i : nat) (nestedBytes : list Z) (a : list (option point))
  : list (option point) :=
  match nestedBytes with
  | [] => a
  | v :: rest =>
      fill_from (S i) rest (array_set a i {| x := Z.of_nat i; y := v |})
  end.

(** An element store into a [Uint16Array] over a byte buffer: the value
    modulo 2^16, least significant byte first; a store outside the array
    does nothing. *)
Definition u16_set (buf : list Z) (i : nat) (v : Z) : list Z :=
  if bool_decide (2 * i + 2 ≤ length buf)%nat
  then write_at buf (2 * i) (Z_to_little_endian 2 8 v)
  else buf.

(** An element store into a [Uint8Array]. *)
Definition u8_set (buf : list Z) (i : nat) (v : Z) : list Z :=
  if bool_decide (i < length buf)%nat then <[i := v `mod` 256]> buf else buf.

(** The ten bytes [update] builds (lines 47-55). *)
Definition testPacket : list Z :=
  let b16 := u16_set (u16_set (u16_set (replicate 10 0) 0 0x1F) 1 0x1F2C) 2 4 in
  u8_set (u8_set (u8_set (u8_set b16 6 1) 7 2) 8 3) 9 4.

(** What [update] and its callbacks ask [thunderBridge] for. *)
Inductive request :=
| Write (bytes : list Z)
| Read (n : nat).

(** The object and the module variable [scope_data]. *)
Record state := {
  ready : bool;
  scope_data : list (option point)
}.

(** [update()], lines 44-80, up to the call of [thunderBridge.write]. *)
Definition update (st : state) : state * list request :=
  if negb (ready st) then (st, [])
  else ({| ready := false; scope_data := scope_data st |}, [Write testPacket]).

(** The callback of [write], lines 61-63: a read into a buffer of six
    bytes. *)
Definition on_written (st : state) : state * list request := (st, [Read 6]).

(** What an element read of a typed array gives. *)
Inductive js_value :=
| Undefined
| Number (v : Z).

(** [new Uint16Array(buffer)[i]]: the constructor throws a [RangeError] on
    a buffer of odd length; an index outside the array reads [undefined]. *)
Definition bytes16_at (buffer : list Z) (i : nat) : option js_value :=
  if Nat.even (length buffer) then
    Some (if bool_decide (2 * i + 2 ≤ length buffer)%nat
          then Number (u16_at buffer i) else Undefined)
  else None.

(** The length of [new Uint8Array(v)]: [undefined] gives an empty array. *)
Definition Uint8Array_length (v : js_value) : nat :=
  match v with
  | Undefined => 0
  | Number v => Z.to_nat v
  end.

(** The callback of the header read, lines 63-70, called with [bytes]
    over [buffer]: [bytes16[2]] is the size of the buffer of the next
    read. [None] is the exception. *)
Definition on_header (buffer : list Z) (st : state)
  : option (state * list request) :=
  dataSize ← bytes16_at buffer 2;
  Some (st, [Read (Uint8Array_length dataSize)]).

(** The callback of the payload read, lines 70-77, called with
    [nestedBytes]. *)
Definition on_payload (nestedBytes : list Z) (st : state) : state :=
  {| ready := true; scope_data := fill_from 0 nestedBytes (scope_data st) |}.

(** [getData()] *)
Definition getData (st : state) : list (option point) := scope_data st.

(** The points of a payload. *)
Definition points_of (i : nat) (bytes : list Z) : list (option point) :=
  imap (λ k v, Some {| x := Z.of_nat (i + k); y := v |}) bytes.

End TestPoints.


(** ** Concrete inputs for the workers and the lifecycle *)

(** A client that connects and is given descriptor 5. *)
Definition client_on_5 : connect_answers :=
  {| listen_ret := 0; accept_ret := 5 |}.

(** The world of [runSocketTest]: the test packet on [_gtxQueue]. *)
Definition test_world : World := (runSocketTest_packet empty_world).2.

(** The test packet with its payload. *)
Definition test_item : EVPacket * list Z := (testPacket, [1; 2; 3; 4; 5]).

(** The bridge of [runSocketTest] with its transmit engine started on
    socket 3. *)
Definition started_tx : Bridge :=
  set_tx_worker Joinable
    (set_tx_run true (set_tx_sock 3 (testBridge "/tmp/" 4096))).

(** A bridge with zeroed buffers of 4096 bytes whose receive loop runs. *)
Definition receiving : Bridge := set_rx_run true (zeroed 4096).

(** Answers of [ReadFile] that deliver the header and the payload of the
    test packet, and one that fails with error 5. *)
Definition header_read : readfile_result :=
  {| rf_val := 1; rf_err := 0; rf_bytes := [1; 0; 8; 8; 5; 0] |}.
Definition payload_read : readfile_result :=
  {| rf_val := 1; rf_err := 0; rf_bytes := [1; 2; 3; 4; 5] |}.
Definition failed_read : readfile_result :=
  {| rf_val := 0; rf_err := 5; rf_bytes := [] |}.

(** Sockets 3 and 5 open and the transmit path bound. *)
Definition tx_resources : OS :=
  {| open_fds := {[3; 5]}; socket_files := {["/tmp/testPipeTX"]} |}.

(** * Properties *)

(** ** Buffers *)

Lemma length_write_at (buf : list Z) (off : nat) (bs : list Z) :
  (off + length bs ≤ length buf)%nat →
  length (write_at buf off bs) = length buf.
Proof.
  intros H. unfold write_at.
  rewrite !length_app, length_take, length_drop. lia.
Qed.

Lemma write_at_nil (buf : list Z) : write_at buf 0 [] = buf.
Proof. unfold write_at. simpl. by rewrite drop_0. Qed.

(** The two bytes of a 16-bit store. *)
Lemma le16_bytes (v : Z) :
  Z_to_little_endian 2 8 v
  = [Z.land v (Z.ones 8); Z.land (v ≫ 8) (Z.ones 8)].
Proof.
  change 2 with (Z.succ (Z.succ 0)).
  rewrite !Z_to_little_endian_succ by lia.
  by rewrite Z_to_little_endian_0.
Qed.

Lemma le16_roundtrip (v : Z) :
  uint16 v →
  little_endian_to_Z 8 [Z.land v (Z.ones 8); Z.land (v ≫ 8) (Z.ones 8)] = v.
Proof.
  intros Hv. rewrite <- le16_bytes.
  rewrite little_endian_to_Z_to_little_endian by lia.
  apply Z.mod_small. unfold uint16 in Hv. simpl. lia.
Qed.

(** Two bytes read as a 16-bit value stay below 65536. *)
Lemma le16_range (b0 b1 : Z) :
  uint8 b0 → uint8 b1 → uint16 (little_endian_to_Z 8 [b0; b1]).
Proof.
  intros H0 H1. unfold uint8 in *.
  assert (Hall : Forall (λ b : Z, 0 ≤ b < 2 ^ 8) [b0; b1]).
  { change (2 ^ 8) with 256. repeat constructor; lia. }
  pose proof (little_endian_to_Z_bound 8 [b0; b1] ltac:(lia) Hall) as Hb.
  unfold uint16. change (2 ^ (Z.of_nat (length [b0; b1]) * 8)) with 65536 in Hb.
  exact Hb.
Qed.

Lemma length_header_bytes cmd pid size :
  length (header_bytes cmd pid size) = 6%nat.
Proof. unfold header_bytes. by rewrite !le16_bytes. Qed.

Lemma load16_ok (buf : list Z) (i : nat) :
  (2 * i + 2 ≤ length buf)%nat → load16 buf i = Ok (u16_at buf i).
Proof. intros H. unfold load16. by rewrite bool_decide_true. Qed.

Lemma load16_overrun (buf : list Z) (i : nat) :
  (length buf < 2 * i + 2)%nat → load16 buf i = Fault BufferOverrun.
Proof. intros H. unfold load16. by rewrite bool_decide_false by lia. Qed.

Lemma store16_ok (buf : list Z) (i : nat) (v : Z) :
  (2 * i + 2 ≤ length buf)%nat →
  store16 buf i v = Ok (write_at buf (2 * i) (Z_to_little_endian 2 8 v)).
Proof. intros H. unfold store16. by rewrite bool_decide_true. Qed.

(** The three header fields read back from a buffer that starts with a
    header. *)
Lemma u16_at_header (cmd pid size : Z) (tail : list Z) :
  uint16 cmd → uint16 pid → uint16 size →
  u16_at (header_bytes cmd pid size ++ tail) 0 = cmd
  ∧ u16_at (header_bytes cmd pid size ++ tail) 1 = pid
  ∧ u16_at (header_bytes cmd pid size ++ tail) 2 = size.
Proof.
  intros Hc Hp Hs. unfold header_bytes, u16_at, read_at.
  rewrite !le16_bytes. cbn [app Nat.mul Nat.add drop take].
  by rewrite !le16_roundtrip.
Qed.

(** What lines 166-171 leave in [tx_buff]: header, payload, and the old
    content behind them. *)
Lemma tx_serialize_buffer (buff : list Z) (pk : EVPacket) (payload : list Z) :
  dataSize pk = Z.of_nat (length payload) →
  (6 + length payload ≤ length buff)%nat →
  tx_serialize buff pk payload
  = Ok (header_bytes (command pk) (packetID pk) (dataSize pk) ++ payload
        ++ drop (6 + length payload) buff,
        6 + dataSize pk).
Proof.
  intros Hsz Hlen. unfold tx_serialize, memcpy, store16, header_bytes.
  rewrite !le16_bytes, Hsz, Nat2Z.id.
  do 6 (destruct buff as [|? buff]; [simpl in Hlen; lia|]).
  simpl in Hlen.
  repeat (rewrite bool_decide_true by (simpl; lia);
          cbn [Nat.mul Nat.add write_at take drop length app andb
               mbind result_bind]).
  rewrite !drop_0, firstn_all.
  rewrite bool_decide_true by lia. done.
Qed.



(** [memcpy] of [n] bytes into a fresh block of [n] bytes. *)
Lemma memcpy_fresh (n : nat) (junk : Z) (src : list Z) :
  (n ≤ length src)%nat → memcpy (replicate n junk) 0 src n = Ok (take n src).
Proof.
  intros Hn. unfold memcpy, write_at.
  rewrite length_replicate, !bool_decide_true by lia.
  cbn [andb take app Nat.add]. rewrite length_take, Nat.min_l by done.
  rewrite drop_ge by (rewrite length_replicate; lia).
  by rewrite app_nil_r.
Qed.

(** ** The transmit iteration *)

(** The iteration when the queue the bridge looks at is not empty and the
    packet at the front of [_gtxQueue] is well formed. *)
Lemma TxJob_iter_send (b : Bridge) (w : World) (txPacket : loc)
    (rest : list loc) (pk : EVPacket) (payload : list Z) :
  queue_of w (_txQueue b) ≠ [] →
  queue_of w _gtxQueue = txPacket :: rest →
  heap w !! txPacket = Some (BPacket pk) →
  heap w !! data pk = Some (BData payload) →
  dataSize pk = Z.of_nat (length payload) →
  (6 + length payload ≤ length (tx_buff b))%nat →
  TxJob_iter b w
  = Ok (set_tx_buff
          (header_bytes (command pk) (packetID pk) (dataSize pk) ++ payload
           ++ drop (6 + length payload) (tx_buff b)) b,
        {| queues := <[_gtxQueue := rest]> (queues w);
           heap := delete txPacket (heap w) |},
        [EvLock (_txLock b); EvUnlock (_txLock b);
         EvSend (client_tx_sock b)
           (header_bytes (command pk) (packetID pk) (dataSize pk)
            ++ payload)]).
Proof.
  intros Hne Hq Hpk Hdata Hsz Hlen. unfold TxJob_iter.
  rewrite bool_decide_false by done. rewrite Hq.
  unfold load_packet, load_data, free. cbn [heap queues].
  rewrite Hpk. cbn [mbind result_bind]. rewrite Hdata. cbn [mbind result_bind].
  rewrite (tx_serialize_buffer _ _ _ Hsz Hlen). cbn [mbind result_bind mret result_ret].
  do 3 f_equal.
  replace (Z.to_nat (6 + dataSize pk))
    with (length (header_bytes (command pk) (packetID pk) (dataSize pk)
                  ++ payload))
    by (rewrite length_app, length_header_bytes; lia).
  rewrite app_assoc. by rewrite take_app_length.
Qed.

(** The iteration when the queue the bridge looks at is empty. *)
Lemma TxJob_iter_idle (b : Bridge) (w : World) :
  queue_of w (_txQueue b) = [] →
  TxJob_iter b w
  = Ok (b, w, [EvLock (_txLock b); EvUnlock (_txLock b); EvSleep 500]).
Proof. intros Hq. unfold TxJob_iter. by rewrite bool_decide_true. Qed.

(** C2. The packet of [runSocketTest] (command 1, packetID 0x0808, payload
    1 2 3 4 5) at the front of [_gtxQueue]: one iteration of the transmit
    loop hands [send] exactly 6 + 5 = 11 bytes, the header
    01 00 08 08 05 00 (command, packetID, dataSize, each least significant
    byte first) followed by the payload 01 02 03 04 05. *)
Theorem runSocketTest_frame (b : Bridge) :
  _txQueue b = _gtxQueue →
  (11 ≤ length (tx_buff b))%nat →
  ∃ b' w' sent,
    TxJob_iter b (runSocketTest_packet empty_world).2
    = Ok (b', w', [EvLock (_txLock b); EvUnlock (_txLock b);
                   EvSend (client_tx_sock b) sent])
    ∧ sent = [1; 0; 8; 8; 5; 0; 1; 2; 3; 4; 5]
    ∧ length sent = 11%nat
    ∧ take 6 sent = header_bytes 1 0x0808 5
    ∧ drop 6 sent = [1; 2; 3; 4; 5].
Proof.
  intros Hq Hlen.
  set (w := (runSocketTest_packet empty_world).2).
  set (pk := {| command := 1; packetID := 0x0808; dataSize := 5;
                data := 2%positive |}).
  assert (H1 : queue_of w _gtxQueue = [1%positive]) by reflexivity.
  assert (H2 : heap w !! 1%positive = Some (BPacket pk)) by reflexivity.
  assert (H3 : heap w !! data pk = Some (BData [1; 2; 3; 4; 5]))
    by reflexivity.
  eexists _, _, _. split.
  - apply (TxJob_iter_send b w 1%positive [] pk [1; 2; 3; 4; 5]);
      first [done | by rewrite Hq, H1 | simpl; lia].
  - by vm_compute.
Qed.

(** The payload block of a packet stays in the heap after its iteration:
    the iteration frees the [EVPacket] only. *)
Lemma TxJob_iter_keeps_payload (b : Bridge) (w : World) (txPacket : loc)
    (rest : list loc) (pk : EVPacket) (payload : list Z) :
  queue_of w (_txQueue b) ≠ [] →
  queue_of w _gtxQueue = txPacket :: rest →
  heap w !! txPacket = Some (BPacket pk) →
  heap w !! data pk = Some (BData payload) →
  dataSize pk = Z.of_nat (length payload) →
  (6 + length payload ≤ length (tx_buff b))%nat →
  ∃ b' w' evs,
    TxJob_iter b w = Ok (b', w', evs)
    ∧ heap w' !! txPacket = None
    ∧ heap w' !! data pk = Some (BData payload).
Proof.
  intros Hne Hq Hpk Hdata Hsz Hlen.
  eexists _, _, _. split; [by eapply TxJob_iter_send|]. cbn [heap].
  split; [apply lookup_delete_eq|].
  rewrite lookup_delete_ne; [done|]. intros ->. congruence.
Qed.

(** [FreePacket] on the same packet releases both blocks. *)
Lemma FreePacket_frees_both (h : gmap loc block) (packet : loc)
    (pk : EVPacket) (payload : list Z) :
  h !! packet = Some (BPacket pk) →
  h !! data pk = Some (BData payload) →
  FreePacket h packet = Ok (delete packet (delete (data pk) h)).
Proof.
  intros Hpk Hdata. unfold FreePacket, load_packet, free.
  rewrite Hpk. cbn [mbind result_bind]. rewrite Hdata. cbn [mbind result_bind].
  rewrite lookup_delete_ne, Hpk; [done|]. intros Heq. congruence.
Qed.

(** A bridge that was given a queue of its own, while [_gtxQueue] is
    empty: the iteration calls [front] on the empty global queue. *)
Lemma TxJob_iter_front_of_empty (b : Bridge) (w : World) :
  queue_of w (_txQueue b) ≠ [] →
  queue_of w _gtxQueue = [] →
  TxJob_iter b w = Fault FrontOfEmptyQueue.
Proof.
  intros Hne Hq. unfold TxJob_iter.
  rewrite bool_decide_false by done. by rewrite Hq.
Qed.

(** *** FIFO order when the bridge was given the global queue *)

Lemma length_tx_buff_after (buff : list Z) (pk : EVPacket) (payload : list Z) :
  (6 + length payload ≤ length buff)%nat →
  length (header_bytes (command pk) (packetID pk) (dataSize pk) ++ payload
          ++ drop (6 + length payload) buff)
  = length buff.
Proof.
  intros Hlen. rewrite !length_app, length_header_bytes, length_drop. lia.
Qed.

(** A bridge built over [_gtxQueue] itself, as in [runSocketTest]: the
    loop sends the frames of the queued packets in the order of the queue
    and leaves the queue empty. *)
Lemma TxJob_loop_fifo (items : list (EVPacket * list Z)) (b : Bridge)
    (w : World) :
  _txQueue b = _gtxQueue →
  tx_run b = true →
  tx_ready (length (tx_buff b)) (heap w) (queue_of w _gtxQueue) items →
  ∃ b' w',
    TxJob_loop (length items) b w
    = Ok (b', w',
          concat (map (λ it, [EvLock (_txLock b); EvUnlock (_txLock b);
                              EvSend (client_tx_sock b) (frame_of it)])
                    items))
    ∧ queue_of w' _gtxQueue = [].
Proof.
  revert b w. induction items as [|[pk payload] items IH];
    intros b w Hq Hrun Hready.
  - destruct (queue_of w _gtxQueue) as [|p q] eqn:Eq; [|done].
    exists b, w. by split.
  - destruct (queue_of w _gtxQueue) as [|p q] eqn:Eq; [done|].
    cbn [tx_ready fst snd] in Hready.
    destruct Hready as (Hp & Hd & Hsz & Hfit & Hrest).
    cbn [length TxJob_loop]. rewrite Hrun.
    rewrite (TxJob_iter_send b w p q pk payload)
      by (try done; rewrite Hq, Eq; done).
    cbn [mbind result_bind].
    set (b1 := set_tx_buff _ b).
    set (w1 := {| queues := <[_gtxQueue := q]> (queues w);
                  heap := delete p (heap w) |}).
    assert (Hq1 : queue_of w1 _gtxQueue = q).
    { unfold queue_of, w1. cbn [queues]. by rewrite lookup_insert_eq. }
    destruct (IH b1 w1) as (b' & w' & Hloop & Hempty).
    + done.
    + done.
    + rewrite Hq1. unfold b1. cbn [tx_buff set_tx_buff].
      by rewrite length_tx_buff_after.
    + rewrite Hloop. cbn [mbind result_bind mret result_ret].
      exists b', w'. split; [|done]. done.
Qed.

(** C4. A bridge constructed with a transmit queue that is not the global
    [_gtxQueue]: the emptiness test of [TxJob] looks at the bridge's queue
    (three packets), [front] and [pop] take the packet of [_gtxQueue]. The
    first iteration sends the frame of packetID 9, which was never
    enqueued on the bridge's queue, holding the bridge's lock and not the
    lock of [_gtxQueue], and leaves the bridge's queue as it was; the
    second iteration calls [front] on the now empty [_gtxQueue]. None of
    the packets 1, 2, 3 is transmitted. *)
Theorem TxJob_pops_global_queue :
  _txQueue own_queue_bridge ≠ _gtxQueue
  ∧ _txLock own_queue_bridge ≠ _gtxLock
  ∧ length (queue_of own_queue_world own_queue) = 3%nat
  ∧ (∃ b' w',
       TxJob_iter own_queue_bridge own_queue_world
       = Ok (b', w', [EvLock own_lock; EvUnlock own_lock;
                      EvSend (-1) [7; 0; 9; 0; 1; 0; 170]])
       ∧ queue_of w' own_queue = queue_of own_queue_world own_queue
       ∧ queue_of w' _gtxQueue = []
       ∧ TxJob_iter b' w' = Fault FrontOfEmptyQueue)
  ∧ TxJob_loop 2 own_queue_bridge own_queue_world = Fault FrontOfEmptyQueue.
Proof.
  split; [done|]. split; [done|]. split; [reflexivity|]. split.
  - eexists _, _. split; [by vm_compute|]. by vm_compute.
  - by vm_compute.
Qed.

(** C9. The transmit iteration on the packet of [runSocketTest]: the
    [EVPacket] block is released, the five payload bytes it pointed to are
    still allocated afterwards, so the heap is not what [FreePacket] on the
    same packet leaves (nothing). *)
Theorem TxJob_leaks_payload :
  let b := set_tx_run true (testBridge "/tmp/" 4096) in
  let w := (runSocketTest_packet empty_world).2 in
  heap w !! 1%positive
  = Some (BPacket {| command := 1; packetID := 0x0808; dataSize := 5;
                     data := 2%positive |})
  ∧ heap w !! 2%positive = Some (BData [1; 2; 3; 4; 5])
  ∧ FreePacket (heap w) 1%positive = Ok ∅
  ∧ ∃ b' w',
      TxJob_iter b w
      = Ok (b', w', [EvLock _gtxLock; EvUnlock _gtxLock;
                     EvSend (-1) [1; 0; 8; 8; 5; 0; 1; 2; 3; 4; 5]])
      ∧ heap w' = {[ 2%positive := BData [1; 2; 3; 4; 5] ]}
      ∧ heap w' ≠ ∅.
Proof.
  cbv zeta. split; [reflexivity|]. split; [reflexivity|].
  split; [by vm_compute|].
  eexists _, _. split; [by vm_compute|]. split; [by vm_compute|].
  cbn [heap]. intros Hempty.
  apply (f_equal (λ m : gmap loc block, m !! 2%positive)) in Hempty.
  vm_compute in Hempty. discriminate.
Qed.

(** ** The receive side *)

Lemma world_eta (w : World) : {| queues := queues w; heap := heap w |} = w.
Proof. by destruct w. Qed.

Lemma set_rxBuff_same (b : Bridge) : set_rxBuff (rxBuff b) b = b.
Proof. by destruct b. Qed.

Lemma rx_data_loc_not_in (h : gmap loc block) :
  rx_data_loc h ∉ dom (<[rx_packet_loc h := BRaw]> h).
Proof. unfold rx_data_loc. apply is_fresh. Qed.

Lemma rx_locs_distinct (h : gmap loc block) : rx_data_loc h ≠ rx_packet_loc h.
Proof.
  intros Heq. apply (rx_data_loc_not_in h).
  rewrite Heq, dom_insert_L. set_solver.
Qed.

Lemma rx_packet_loc_fresh (h : gmap loc block) : h !! rx_packet_loc h = None.
Proof. apply not_elem_of_dom. unfold rx_packet_loc. apply is_fresh. Qed.

Lemma rx_data_loc_fresh (h : gmap loc block) : h !! rx_data_loc h = None.
Proof.
  apply not_elem_of_dom. intros Hin. apply (rx_data_loc_not_in h).
  rewrite dom_insert_L. set_solver.
Qed.

(** The blocks of a received packet are gone after [FreePacket]. *)
Lemma heap_restore (h : gmap loc block) (p d : loc) (x y z u : block) :
  h !! p = None → h !! d = None → p ≠ d →
  delete p (delete d (<[p := x]> (<[d := y]> (<[d := z]> (<[p := u]> h))))) = h.
Proof.
  intros Hp Hd Hne. apply map_eq. intros i.
  destruct (decide (i = p)) as [->|]; [by rewrite lookup_delete_eq|].
  rewrite lookup_delete_ne by done.
  destruct (decide (i = d)) as [->|]; [by rewrite lookup_delete_eq|].
  rewrite lookup_delete_ne by done.
  by rewrite !lookup_insert_ne by done.
Qed.

Lemma heap_restore1 (h : gmap loc block) (p d : loc) (x y u : block) :
  h !! p = None → h !! d = None → p ≠ d →
  delete p (delete d (<[p := x]> (<[d := y]> (<[p := u]> h)))) = h.
Proof.
  intros Hp Hd Hne. apply map_eq. intros i.
  destruct (decide (i = p)) as [->|]; [by rewrite lookup_delete_eq|].
  rewrite lookup_delete_ne by done.
  destruct (decide (i = d)) as [->|]; [by rewrite lookup_delete_eq|].
  rewrite lookup_delete_ne by done.
  by rewrite !lookup_insert_ne by done.
Qed.

Lemma read_accepted_tests (r : readfile_result) :
  read_accepted r →
  bool_decide (rf_val r = 0) && bool_decide (rf_err r = 109) = false
  ∧ bool_decide (rf_val r = 0) && negb (bool_decide (rf_err r = 234)) = false.
Proof.
  intros [Hv|He].
  - by rewrite (bool_decide_false (rf_val r = 0)).
  - rewrite (bool_decide_false (rf_err r = 109)) by lia.
    rewrite (bool_decide_true (rf_err r = 234)) by done.
    by rewrite !andb_false_r.
Qed.

Lemma read_rejected_tests (r : readfile_result) :
  ¬ read_accepted r →
  bool_decide (rf_val r = 0) = true ∧ bool_decide (rf_err r = 234) = false.
Proof.
  unfold read_accepted. intros Hr. split.
  - apply bool_decide_true. destruct (decide (rf_val r = 0)); tauto.
  - apply bool_decide_false. tauto.
Qed.

Section ReceiveProperties.

Variable BRIDGE_BUFFER_SIZE : Z.

(** A header that declares a size within the limit: the payload bytes
    behind the header are copied. *)
Lemma rx_reconstruct_valid (h : gmap loc block) (buf : list Z) (junk : Z) :
  6 ≤ BRIDGE_BUFFER_SIZE →
  Z.of_nat (length buf) = BRIDGE_BUFFER_SIZE →
  u16_at buf 2 ≤ BRIDGE_BUFFER_SIZE - 6 →
  rx_reconstruct BRIDGE_BUFFER_SIZE h buf junk
  = Ok (rx_packet_loc h,
        <[rx_packet_loc h :=
            BPacket {| command := u16_at buf 0; packetID := u16_at buf 1;
                       dataSize := u16_at buf 2; data := rx_data_loc h |}]>
          (<[rx_data_loc h :=
               BData (take (Z.to_nat (u16_at buf 2)) (drop 6 buf))]>
             (<[rx_data_loc h :=
                  BData (replicate (Z.to_nat (u16_at buf 2)) junk)]>
                (<[rx_packet_loc h := BRaw]> h)))).
Proof.
  intros H6 Hlen Hsz. unfold rx_reconstruct, malloc.
  rewrite !load16_ok by lia. cbn [mbind result_bind].
  rewrite bool_decide_true by done.
  rewrite memcpy_fresh by (rewrite length_drop; lia). done.
Qed.

(** A header that declares more than the limit: nothing is copied out of
    [rxBuff], the packet gets [dataSize = 1] and one byte of fresh
    memory. *)
Lemma rx_reconstruct_oversize (h : gmap loc block) (buf : list Z) (junk : Z) :
  6 ≤ BRIDGE_BUFFER_SIZE →
  Z.of_nat (length buf) = BRIDGE_BUFFER_SIZE →
  BRIDGE_BUFFER_SIZE - 6 < u16_at buf 2 →
  rx_reconstruct BRIDGE_BUFFER_SIZE h buf junk
  = Ok (rx_packet_loc h,
        <[rx_packet_loc h :=
            BPacket {| command := u16_at buf 0; packetID := u16_at buf 1;
                       dataSize := 1; data := rx_data_loc h |}]>
          (<[rx_data_loc h := BData [junk]]>
             (<[rx_packet_loc h := BRaw]> h))).
Proof.
  intros H6 Hlen Hsz. unfold rx_reconstruct, malloc.
  rewrite !load16_ok by lia. cbn [mbind result_bind].
  rewrite bool_decide_false by lia. done.
Qed.

(** A buffer too short for a header cannot be read as one. *)
Lemma rx_reconstruct_short_buffer (h : gmap loc block) (buf : list Z)
    (junk : Z) :
  (length buf < 2)%nat →
  rx_reconstruct BRIDGE_BUFFER_SIZE h buf junk = Fault BufferOverrun.
Proof.
  intros Hlen. unfold rx_reconstruct, malloc.
  rewrite (load16_overrun buf 0) by lia. reflexivity.
Qed.

(** C1. Round trip of a frame: for every packet whose payload has
    [dataSize] bytes, with [0 <= dataSize <= MAX_PAYLOAD], lines 166-171 of
    [TxJob] put header and payload in [tx_buff], the [6 + dataSize] bytes
    handed to [send] are the six header bytes followed by the payload, and
    once these bytes are in [rxBuff] lines 290-307 of [RxJob] rebuild a
    packet with the same [command], [packetID], [dataSize] and payload
    bytes; whatever the two buffers and the fresh memory held before. *)
Theorem roundtrip_framing (pk : EVPacket) (payload tx rx : list Z) (junk : Z)
    (h : gmap loc block) :
  packet_ok pk payload →
  0 ≤ dataSize pk ≤ MAX_PAYLOAD BRIDGE_BUFFER_SIZE →
  Z.of_nat (length tx) = BRIDGE_BUFFER_SIZE →
  Z.of_nat (length rx) = BRIDGE_BUFFER_SIZE →
  ∃ buff frame,
    tx_serialize tx pk payload = Ok (buff, 6 + dataSize pk)
    ∧ frame = take (Z.to_nat (6 + dataSize pk)) buff
    ∧ frame = header_bytes (command pk) (packetID pk) (dataSize pk) ++ payload
    ∧ ∃ rxPacket d h',
        rx_reconstruct BRIDGE_BUFFER_SIZE h (write_at rx 0 frame) junk
        = Ok (rxPacket, h')
        ∧ h' !! rxPacket
          = Some (BPacket {| command := command pk; packetID := packetID pk;
                             dataSize := dataSize pk; data := d |})
        ∧ h' !! d = Some (BData payload).
Proof.
  intros (Hc & Hp & Hs & Hlen) Hmax Htx Hrx. unfold MAX_PAYLOAD in Hmax.
  remember (header_bytes (command pk) (packetID pk) (dataSize pk)) as hdr
    eqn:Ehdr.
  assert (Hhdr : length hdr = 6%nat)
    by (rewrite Ehdr; apply length_header_bytes).
  eexists _, (hdr ++ payload). split; [|split; [|split]].
  - rewrite Ehdr. apply tx_serialize_buffer; [done | lia].
  - replace (Z.to_nat (6 + dataSize pk))
      with (length (hdr ++ payload)) by (rewrite length_app; lia).
    rewrite <- Ehdr, app_assoc. by rewrite take_app_length.
  - done.
  - set (rxb := write_at rx 0 (hdr ++ payload)).
    assert (Hrxb : rxb = hdr ++ payload ++ drop (6 + length payload) rx).
    { unfold rxb, write_at. cbn [take app Nat.add].
      rewrite length_app, Hhdr, <- app_assoc. done. }
    destruct (u16_at_header (command pk) (packetID pk) (dataSize pk)
                (payload ++ drop (6 + length payload) rx) Hc Hp Hs)
      as (L0 & L1 & L2).
    rewrite <- Ehdr, <- Hrxb in L0, L1, L2.
    assert (Hlrxb : Z.of_nat (length rxb) = BRIDGE_BUFFER_SIZE).
    { unfold rxb. rewrite length_write_at; [done|].
      rewrite length_app, Hhdr. simpl. lia. }
    eexists _, (rx_data_loc h), _. split; [|split].
    + apply rx_reconstruct_valid; [lia | done | rewrite L2; lia].
    + rewrite lookup_insert_eq, L0, L1, L2. done.
    + rewrite lookup_insert_ne by (apply not_eq_sym, rx_locs_distinct).
      rewrite lookup_insert_eq, L2, Hlen, Nat2Z.id. do 2 f_equal.
      rewrite Hrxb, drop_app_length' by done.
      by rewrite take_app_length.
Qed.

(** Lines 284-314 never fault on a buffer of [BRIDGE_BUFFER_SIZE] bytes,
    and give back every block they allocate. *)
Lemma RxJob_process_ok (packet_size junk : Z) (b : Bridge) (w : World) :
  6 ≤ BRIDGE_BUFFER_SIZE →
  Z.of_nat (length (rxBuff b)) = BRIDGE_BUFFER_SIZE →
  packet_size ≤ BRIDGE_BUFFER_SIZE →
  RxJob_process BRIDGE_BUFFER_SIZE packet_size junk b w
  = Ok (w, [EvPrintBytes (take (Z.to_nat packet_size) (rxBuff b));
            rx_printed BRIDGE_BUFFER_SIZE (rxBuff b) junk;
            EvLock (_rxLock b); EvUnlock (_rxLock b)]).
Proof.
  intros H6 Hlen Hps. unfold RxJob_process, rx_printed.
  pose proof (rx_locs_distinct (heap w)) as Hne.
  pose proof (rx_packet_loc_fresh (heap w)) as Hp.
  pose proof (rx_data_loc_fresh (heap w)) as Hd.
  rewrite bool_decide_true by lia. cbn [mbind result_bind].
  case_bool_decide as Hsz.
  - rewrite rx_reconstruct_valid by done. cbn [mbind result_bind].
    unfold PrintPacket, FreePacket, load_packet, load_data, free.
    rewrite lookup_insert_eq. cbn [mbind result_bind data dataSize].
    rewrite lookup_insert_ne, lookup_insert_eq by done.
    cbn [mbind result_bind].
    rewrite bool_decide_true
      by (rewrite length_take, length_drop; lia).
    cbn [mbind result_bind mret result_ret packetID command dataSize].
    rewrite lookup_delete_ne, lookup_insert_eq by done.
    rewrite heap_restore by done. cbn [mbind result_bind mret result_ret].
    by rewrite world_eta, take_take, Nat.min_id.
  - rewrite rx_reconstruct_oversize by (done || lia).
    cbn [mbind result_bind].
    unfold PrintPacket, FreePacket, load_packet, load_data, free.
    rewrite lookup_insert_eq. cbn [mbind result_bind data dataSize].
    rewrite lookup_insert_ne, lookup_insert_eq by done.
    cbn [mbind result_bind].
    rewrite bool_decide_true by (simpl; lia).
    cbn [mbind result_bind mret result_ret packetID command dataSize].
    rewrite lookup_delete_ne, lookup_insert_eq by done.
    rewrite heap_restore1 by done. cbn [mbind result_bind mret result_ret].
    by rewrite world_eta.
Qed.

Lemma rx_printed_is_packet (buf : list Z) (junk : Z) :
  ∃ pid cmd size bytes,
    rx_printed BRIDGE_BUFFER_SIZE buf junk = EvPrintPacket pid cmd size bytes.
Proof. unfold rx_printed. case_bool_decide; by eexists _, _, _, _. Qed.

(** [recv] never stores more than the capacity it was given. *)
Lemma length_after_recv (bs : list Z) (b : Bridge) :
  Z.of_nat (length (rxBuff b)) = BRIDGE_BUFFER_SIZE →
  Z.of_nat (length (rxBuff (after_recv BRIDGE_BUFFER_SIZE bs b)))
  = BRIDGE_BUFFER_SIZE.
Proof.
  intros Hlen. unfold after_recv. cbn [rxBuff set_rxBuff].
  rewrite length_write_at; [done|]. rewrite length_take. lia.
Qed.

(** Bytes arrived: whatever their number, a packet is rebuilt from
    [rxBuff] and printed. *)
Lemma RxJob_iter_sock_bytes (bs : list Z) (junk : Z) (b : Bridge) (w : World) :
  6 ≤ BRIDGE_BUFFER_SIZE →
  Z.of_nat (length (rxBuff b)) = BRIDGE_BUFFER_SIZE →
  bs ≠ [] →
  let b1 := after_recv BRIDGE_BUFFER_SIZE bs b in
  RxJob_iter_sock BRIDGE_BUFFER_SIZE (RecvBytes bs) junk b w
  = Ok (b1, w,
        [EvRecv (client_rx_sock b) BRIDGE_BUFFER_SIZE;
         EvLog "rx_sock: Packet Size";
         EvPrintBytes (take (Z.to_nat BRIDGE_BUFFER_SIZE) bs);
         rx_printed BRIDGE_BUFFER_SIZE (rxBuff b1) junk;
         EvLock (_rxLock b); EvUnlock (_rxLock b)],
        Next).
Proof.
  intros H6 Hlen Hbs b1. unfold RxJob_iter_sock, recv.
  rewrite bool_decide_true.
  - fold (after_recv BRIDGE_BUFFER_SIZE bs b). fold b1.
    rewrite RxJob_process_ok.
    + cbn [mbind result_bind mret result_ret]. do 5 f_equal.
      assert (Hdump : take (Z.to_nat (Z.of_nat
                        (length (take (Z.to_nat BRIDGE_BUFFER_SIZE) bs))))
                        (rxBuff b1)
                      = take (Z.to_nat BRIDGE_BUFFER_SIZE) bs).
      { rewrite Nat2Z.id. unfold b1, after_recv, write_at.
        cbn [rxBuff set_rxBuff]. rewrite take_0, app_nil_l.
        by rewrite take_app_length. }
      by rewrite Hdump.
    + done.
    + by apply length_after_recv.
    + rewrite length_take. lia.
  - rewrite length_take. destruct bs; [done|]. simpl. lia.
Qed.

(** A frame that [recv] delivers whole and alone: the iteration prints the
    packet that was serialized. *)
Lemma RxJob_iter_sock_frame (pk : EVPacket) (payload : list Z) (junk : Z)
    (b : Bridge) (w : World) :
  packet_ok pk payload →
  0 ≤ dataSize pk ≤ MAX_PAYLOAD BRIDGE_BUFFER_SIZE →
  Z.of_nat (length (rxBuff b)) = BRIDGE_BUFFER_SIZE →
  RxJob_iter_sock BRIDGE_BUFFER_SIZE (RecvBytes (frame_of (pk, payload)))
    junk b w
  = Ok (after_recv BRIDGE_BUFFER_SIZE (frame_of (pk, payload)) b, w,
        [EvRecv (client_rx_sock b) BRIDGE_BUFFER_SIZE;
         EvLog "rx_sock: Packet Size";
         EvPrintBytes (frame_of (pk, payload));
         EvPrintPacket (packetID pk) (command pk) (dataSize pk) payload;
         EvLock (_rxLock b); EvUnlock (_rxLock b)],
        Next).
Proof.
  intros (Hc & Hp & Hs & Hsz) Hmax Hlen. unfold MAX_PAYLOAD in Hmax.
  assert (Hfl : length (frame_of (pk, payload)) = (6 + length payload)%nat).
  { unfold frame_of. cbn [fst snd].
    by rewrite length_app, length_header_bytes. }
  assert (Htake : take (Z.to_nat BRIDGE_BUFFER_SIZE) (frame_of (pk, payload))
                  = frame_of (pk, payload)).
  { apply take_ge. lia. }
  assert (Hne : frame_of (pk, payload) ≠ []).
  { intros Hnil. rewrite Hnil in Hfl. simpl in Hfl. lia. }
  pose proof (RxJob_iter_sock_bytes (frame_of (pk, payload)) junk b w
                ltac:(lia) Hlen Hne) as Hit.
  cbv zeta in Hit. rewrite Hit, Htake. do 5 f_equal.
  assert (Hbuf : rxBuff (after_recv BRIDGE_BUFFER_SIZE
                           (frame_of (pk, payload)) b)
                 = header_bytes (command pk) (packetID pk) (dataSize pk)
                   ++ payload ++ drop (6 + length payload) (rxBuff b)).
  { unfold after_recv. cbn [rxBuff set_rxBuff]. rewrite Htake.
    unfold write_at. cbn [take app Nat.add]. rewrite Hfl.
    unfold frame_of. cbn [fst snd]. by rewrite <- app_assoc. }
  destruct (u16_at_header (command pk) (packetID pk) (dataSize pk)
              (payload ++ drop (6 + length payload) (rxBuff b)) Hc Hp Hs)
    as (L0 & L1 & L2).
  rewrite <- Hbuf in L0, L1, L2.
  unfold rx_printed. rewrite L0, L1, L2, bool_decide_true by lia.
  do 2 f_equal. rewrite Hbuf, Hsz, Nat2Z.id.
  rewrite drop_app_length' by (by rewrite length_header_bytes).
  by rewrite take_app_length.
Qed.

(** [recv] returned 0: the iteration sleeps and the loop goes on. *)
Lemma RxJob_iter_sock_shutdown (junk : Z) (b : Bridge) (w : World) :
  RxJob_iter_sock BRIDGE_BUFFER_SIZE RecvShutdown junk b w
  = Ok (b, w, [EvRecv (client_rx_sock b) BRIDGE_BUFFER_SIZE; EvSleep 500],
        Next).
Proof.
  unfold RxJob_iter_sock, recv.
  rewrite bool_decide_false by lia. rewrite bool_decide_false by lia.
  by rewrite write_at_nil, set_rxBuff_same.
Qed.

(** [recv] returned -1: the run flag is cleared, and the rest of the
    iteration still rebuilds and prints a packet from what [rxBuff] held. *)
Lemma RxJob_iter_sock_error (junk : Z) (b : Bridge) (w : World) :
  6 ≤ BRIDGE_BUFFER_SIZE →
  Z.of_nat (length (rxBuff b)) = BRIDGE_BUFFER_SIZE →
  RxJob_iter_sock BRIDGE_BUFFER_SIZE RecvError junk b w
  = Ok (set_rx_run false b, w,
        [EvRecv (client_rx_sock b) BRIDGE_BUFFER_SIZE;
         EvLog "rx_sock: Client has disconnected...."; EvPrintBytes [];
         rx_printed BRIDGE_BUFFER_SIZE (rxBuff b) junk;
         EvLock (_rxLock b); EvUnlock (_rxLock b)],
        Next).
Proof.
  intros H6 Hlen. unfold RxJob_iter_sock, recv.
  rewrite bool_decide_false by lia. rewrite bool_decide_true by lia.
  rewrite write_at_nil, set_rxBuff_same.
  rewrite RxJob_process_ok by (done || lia). done.
Qed.

(** *** The named-pipe iteration *)

Lemma length_after_header (hdr : readfile_result) (b : Bridge) :
  6 ≤ BRIDGE_BUFFER_SIZE →
  Z.of_nat (length (rxBuff b)) = BRIDGE_BUFFER_SIZE →
  Z.of_nat (length (rxBuff (after_header hdr b))) = BRIDGE_BUFFER_SIZE.
Proof.
  intros H6 Hlen. unfold after_header. cbn [rxBuff set_rxBuff].
  rewrite length_write_at; [done|]. rewrite length_take. lia.
Qed.

(** The guard of line 249 fails: no payload read, no packet, next
    iteration. *)
Lemma RxJob_iter_pipe_skip (hdr pay : readfile_result) (junk : Z)
    (b : Bridge) (w : World) :
  6 ≤ BRIDGE_BUFFER_SIZE →
  Z.of_nat (length (rxBuff b)) = BRIDGE_BUFFER_SIZE →
  read_accepted hdr →
  BRIDGE_BUFFER_SIZE - 6 ≤ u16_at (rxBuff (after_header hdr b)) 2 →
  RxJob_iter_pipe BRIDGE_BUFFER_SIZE hdr pay junk b w
  = Ok (after_header hdr b, w, [EvReadFile 0 6], Next).
Proof.
  intros H6 Hlen Hh Hsz. unfold RxJob_iter_pipe.
  destruct (read_accepted_tests hdr Hh) as [-> ->].
  fold (after_header hdr b).
  pose proof (length_after_header hdr b H6 Hlen) as Hl1.
  rewrite load16_ok by lia. cbn [mbind result_bind].
  by rewrite bool_decide_false by lia.
Qed.

(** The guard of line 249 holds and the payload read is accepted: exactly
    [dataSize] bytes are asked for, and a packet is rebuilt. *)
Lemma RxJob_iter_pipe_read (hdr pay : readfile_result) (junk : Z)
    (b : Bridge) (w : World) :
  6 ≤ BRIDGE_BUFFER_SIZE →
  Z.of_nat (length (rxBuff b)) = BRIDGE_BUFFER_SIZE →
  read_accepted hdr → read_accepted pay →
  u16_at (rxBuff (after_header hdr b)) 2 < BRIDGE_BUFFER_SIZE - 6 →
  let size := u16_at (rxBuff (after_header hdr b)) 2 in
  let b2 := after_payload size pay (after_header hdr b) in
  RxJob_iter_pipe BRIDGE_BUFFER_SIZE hdr pay junk b w
  = Ok (b2, w,
        [EvReadFile 0 6; EvReadFile 6 size]
        ++ (if bool_decide (rf_val pay = 0) then [EvSleep 500] else [])
        ++ [EvPrintBytes (take (Z.to_nat (6 + size)) (rxBuff b2));
            rx_printed BRIDGE_BUFFER_SIZE (rxBuff b2) junk;
            EvLock (_rxLock b); EvUnlock (_rxLock b)],
        Next).
Proof.
  intros H6 Hlen Hh Hp Hsz size b2. unfold RxJob_iter_pipe.
  destruct (read_accepted_tests hdr Hh) as [-> ->].
  destruct (read_accepted_tests pay Hp) as [-> ->].
  fold (after_header hdr b).
  pose proof (length_after_header hdr b H6 Hlen) as Hl1.
  rewrite load16_ok by lia. cbn [mbind result_bind]. fold size.
  rewrite bool_decide_true by done.
  fold (after_payload size pay (after_header hdr b)). fold b2.
  assert (Hl2 : Z.of_nat (length (rxBuff b2)) = BRIDGE_BUFFER_SIZE).
  { unfold b2, after_payload. cbn [rxBuff set_rxBuff].
    rewrite length_write_at; [done|]. rewrite length_take. lia. }
  rewrite RxJob_process_ok by (done || lia). done.
Qed.

(** C10. On the named-pipe path, a frame whose header declares
    [dataSize = BRIDGE_BUFFER_SIZE - 6], the largest valid payload: the
    guard before the payload read is strict, so the iteration asks for no
    payload, produces no packet and goes to the next iteration; the check
    of the reconstruction, which is not strict, would have accepted the
    same size and copied [BRIDGE_BUFFER_SIZE - 6] bytes. *)
Theorem max_size_frame_skipped_on_pipe (hdr pay : readfile_result) (junk : Z)
    (b : Bridge) (w : World) (h : gmap loc block) :
  read_accepted hdr →
  Z.of_nat (length (rxBuff b)) = BRIDGE_BUFFER_SIZE →
  6 ≤ BRIDGE_BUFFER_SIZE →
  u16_at (rxBuff (after_header hdr b)) 2 = BRIDGE_BUFFER_SIZE - 6 →
  RxJob_iter_pipe BRIDGE_BUFFER_SIZE hdr pay junk b w
  = Ok (after_header hdr b, w, [EvReadFile 0 6], Next)
  ∧ ∃ rxPacket h' pk bs,
      rx_reconstruct BRIDGE_BUFFER_SIZE h (rxBuff (after_header hdr b)) junk
      = Ok (rxPacket, h')
      ∧ h' !! rxPacket = Some (BPacket pk)
      ∧ dataSize pk = BRIDGE_BUFFER_SIZE - 6
      ∧ h' !! data pk = Some (BData bs)
      ∧ bs = drop 6 (rxBuff (after_header hdr b))
      ∧ Z.of_nat (length bs) = BRIDGE_BUFFER_SIZE - 6.
Proof.
  intros Hh Hlen H6 Hsz.
  pose proof (length_after_header hdr b H6 Hlen) as Hl1. split.
  - apply RxJob_iter_pipe_skip; [done | done | done | lia].
  - eexists _, _, _, _.
    split; [apply rx_reconstruct_valid; [done | done | lia]|].
    split; [apply lookup_insert_eq|]. cbn [dataSize data].
    split; [done|].
    split; [rewrite lookup_insert_ne by (apply not_eq_sym, rx_locs_distinct);
            apply lookup_insert_eq|].
    split.
    + apply take_ge. rewrite length_drop. lia.
    + rewrite length_take, length_drop. lia.
Qed.

(** *** Oversize headers *)

(** C3, as the code has it. A header that declares more than
    [MAX_PAYLOAD]: on the domain-socket path the iteration rebuilds a
    packet with [dataSize = 1] and one byte of fresh memory, copying
    nothing out of [rxBuff]; on the named-pipe path the iteration ends
    before the payload read and produces no packet. On both, nothing
    faults, and every packet the reconstruction produces from a buffer of
    [BRIDGE_BUFFER_SIZE] bytes has [dataSize <= MAX_PAYLOAD] and a payload
    block of at most [MAX_PAYLOAD] bytes. *)
Theorem oversize_header_handling (b : Bridge) :
  Z.of_nat (length (rxBuff b)) = BRIDGE_BUFFER_SIZE →
  7 ≤ BRIDGE_BUFFER_SIZE →
  (∀ bs junk w,
     bs ≠ [] →
     MAX_PAYLOAD BRIDGE_BUFFER_SIZE
     < u16_at (rxBuff (after_recv BRIDGE_BUFFER_SIZE bs b)) 2 →
     RxJob_iter_sock BRIDGE_BUFFER_SIZE (RecvBytes bs) junk b w
     = Ok (after_recv BRIDGE_BUFFER_SIZE bs b, w,
           [EvRecv (client_rx_sock b) BRIDGE_BUFFER_SIZE;
            EvLog "rx_sock: Packet Size";
            EvPrintBytes (take (Z.to_nat BRIDGE_BUFFER_SIZE) bs);
            EvPrintPacket
              (u16_at (rxBuff (after_recv BRIDGE_BUFFER_SIZE bs b)) 1)
              (u16_at (rxBuff (after_recv BRIDGE_BUFFER_SIZE bs b)) 0)
              1 [junk];
            EvLock (_rxLock b); EvUnlock (_rxLock b)],
           Next))
  ∧ (∀ hdr pay junk w,
       read_accepted hdr →
       MAX_PAYLOAD BRIDGE_BUFFER_SIZE
       < u16_at (rxBuff (after_header hdr b)) 2 →
       RxJob_iter_pipe BRIDGE_BUFFER_SIZE hdr pay junk b w
       = Ok (after_header hdr b, w, [EvReadFile 0 6], Next))
  ∧ (∀ buf junk h,
       Z.of_nat (length buf) = BRIDGE_BUFFER_SIZE →
       ∃ rxPacket h' pk bs,
         rx_reconstruct BRIDGE_BUFFER_SIZE h buf junk = Ok (rxPacket, h')
         ∧ h' !! rxPacket = Some (BPacket pk)
         ∧ h' !! data pk = Some (BData bs)
         ∧ dataSize pk ≤ MAX_PAYLOAD BRIDGE_BUFFER_SIZE
         ∧ Z.of_nat (length bs) ≤ MAX_PAYLOAD BRIDGE_BUFFER_SIZE
         ∧ (MAX_PAYLOAD BRIDGE_BUFFER_SIZE < u16_at buf 2 →
            dataSize pk = 1 ∧ bs = [junk])).
Proof.
  intros Hlen H7. unfold MAX_PAYLOAD. split; [|split].
  - intros bs junk w Hbs Hsz.
    pose proof (RxJob_iter_sock_bytes bs junk b w ltac:(lia) Hlen Hbs) as Hit.
    cbv zeta in Hit. rewrite Hit.
    unfold rx_printed. by rewrite bool_decide_false by lia.
  - intros hdr pay junk w Hh Hsz.
    apply RxJob_iter_pipe_skip; [lia | done | done | lia].
  - intros buf junk h Hbuf.
    destruct (decide (u16_at buf 2 ≤ BRIDGE_BUFFER_SIZE - 6)) as [Hsz|Hsz].
    + eexists _, _, _, _.
      split; [apply rx_reconstruct_valid; [lia | done | done]|].
      split; [apply lookup_insert_eq|]. cbn [dataSize data].
      split; [rewrite lookup_insert_ne
                by (apply not_eq_sym, rx_locs_distinct);
              apply lookup_insert_eq|].
      split; [done|]. split; [|lia].
      rewrite length_take, length_drop. lia.
    + eexists _, _, _, _.
      split; [apply rx_reconstruct_oversize; [lia | done | lia]|].
      split; [apply lookup_insert_eq|]. cbn [dataSize data].
      split; [rewrite lookup_insert_ne
                by (apply not_eq_sym, rx_locs_distinct);
              apply lookup_insert_eq|].
      split; [lia|]. split; [simpl; lia|done].
Qed.

(** *** Read requests *)

(** C5, as the code has it. On the domain-socket path an iteration asks
    the transport once, for up to [BRIDGE_BUFFER_SIZE] bytes, and whenever
    at least one byte arrived it rebuilds and prints a packet from
    [rxBuff], whatever the number of bytes. On the named-pipe path it asks
    for exactly 6 header bytes and then, when the header read was accepted
    and the declared size is below [BRIDGE_BUFFER_SIZE - 6], for exactly
    [dataSize] payload bytes; the number of bytes a read delivered is not
    looked at. *)
Theorem read_requests_of_iteration (b : Bridge) :
  Z.of_nat (length (rxBuff b)) = BRIDGE_BUFFER_SIZE →
  6 ≤ BRIDGE_BUFFER_SIZE →
  (∀ r junk w,
     ∃ b' w' evs c,
       RxJob_iter_sock BRIDGE_BUFFER_SIZE r junk b w = Ok (b', w', evs, c)
       ∧ read_requests evs = [EvRecv (client_rx_sock b) BRIDGE_BUFFER_SIZE]
       ∧ ∀ bs, r = RecvBytes bs → bs ≠ [] →
               rx_run b' = rx_run b ∧ c = Next ∧ packet_produced evs)
  ∧ (∀ hdr pay junk w,
       ∃ b' w' evs c,
         RxJob_iter_pipe BRIDGE_BUFFER_SIZE hdr pay junk b w
         = Ok (b', w', evs, c)
         ∧ read_requests evs
           = (if bool_decide (read_accepted hdr)
                 && bool_decide (u16_at (rxBuff (after_header hdr b)) 2
                                 < BRIDGE_BUFFER_SIZE - 6)
              then [EvReadFile 0 6;
                    EvReadFile 6 (u16_at (rxBuff (after_header hdr b)) 2)]
              else [EvReadFile 0 6])
         ∧ (read_accepted hdr → read_accepted pay →
            u16_at (rxBuff (after_header hdr b)) 2 < BRIDGE_BUFFER_SIZE - 6 →
            rx_run b' = rx_run b ∧ c = Next ∧ packet_produced evs)).
Proof.
  intros Hlen H6. split.
  - intros r junk w. destruct r as [bs| |].
    + destruct (decide (bs = [])) as [->|Hbs].
      * eexists _, _, _, _. split; [|split].
        -- unfold RxJob_iter_sock, recv. rewrite take_nil. cbn [length].
           rewrite bool_decide_false by lia.
           rewrite bool_decide_false by lia. done.
        -- done.
        -- intros bs' [= <-] Hbs'. done.
      * eexists _, _, _, _. split; [|split].
        -- by apply RxJob_iter_sock_bytes.
        -- unfold rx_printed. by case_bool_decide.
        -- intros bs' _ _. split; [done|]. split; [done|].
           unfold packet_produced, rx_printed.
           case_bool_decide; eexists _, _, _, _;
             (do 3 apply list_elem_of_further); apply list_elem_of_here.
    + eexists _, _, _, _. split; [apply RxJob_iter_sock_shutdown|]. done.
    + eexists _, _, _, _. split; [by apply RxJob_iter_sock_error|].
      split; [|done]. unfold rx_printed. by case_bool_decide.
  - intros hdr pay junk w.
    pose proof (length_after_header hdr b H6 Hlen) as Hl1.
    destruct (decide (read_accepted hdr)) as [Hh|Hh].
    + rewrite (bool_decide_true _ Hh). cbn [andb].
      case_bool_decide as Hsz.
      * destruct (decide (read_accepted pay)) as [Hp|Hp].
        -- eexists _, _, _, _. split; [by apply RxJob_iter_pipe_read|].
           split; [unfold rx_printed; by repeat case_bool_decide|].
           intros _ _ _. split; [done|]. split; [done|].
           unfold packet_produced.
           destruct (rx_printed_is_packet
                       (rxBuff (after_payload
                                  (u16_at (rxBuff (after_header hdr b)) 2)
                                  pay (after_header hdr b))) junk)
             as (pid & cmd & size & bytes & ->).
           exists pid, cmd, size, bytes. rewrite !elem_of_app.
           right. right. apply list_elem_of_further, list_elem_of_here.
        -- unfold RxJob_iter_pipe.
           destruct (read_accepted_tests hdr Hh) as [-> ->].
           fold (after_header hdr b).
           rewrite load16_ok by lia. cbn [mbind result_bind].
           rewrite bool_decide_true by done.
           destruct (read_rejected_tests pay Hp) as [-> ->]. cbn [andb negb].
           case_bool_decide; eexists _, _, _, _; (split; [done|]);
             (split; [done|]); intros _ Hp'; done.
      * eexists _, _, _, _.
        split; [apply RxJob_iter_pipe_skip; [done|done|done|lia]|].
        split; [done|]. intros _ _ Hlt. lia.
    + rewrite (bool_decide_false _ Hh). cbn [andb].
      unfold RxJob_iter_pipe.
      destruct (read_rejected_tests hdr Hh) as [-> ->]. cbn [andb negb].
      case_bool_decide; eexists _, _, _, _; (split; [done|]);
        (split; [done|]); intros Hh'; done.
Qed.

(** *** The end of the connection *)

(** C6. Once the peer has shut the connection down, [recv] on the stream
    socket returns 0, again at every later call. The loop takes 0 for
    "nothing there yet": each iteration sleeps 500 microseconds and goes
    round again, the run flag stays set, and after any number [n] of
    iterations the worker is still in its loop with the bridge and the
    world unchanged. *)
Theorem RxJob_polls_after_shutdown (n : nat) (junk : Z) (b : Bridge)
    (w : World) :
  rx_run b = true →
  ∃ b',
    RxJob_loop_sock BRIDGE_BUFFER_SIZE (replicate n (RecvShutdown, junk)) b w
    = Ok (b', w, idle_polls BRIDGE_BUFFER_SIZE (client_rx_sock b) n)
    ∧ rx_run b' = true
    ∧ length (idle_polls BRIDGE_BUFFER_SIZE (client_rx_sock b) n)
      = (2 * n)%nat.
Proof.
  intros Hrun. exists b. split; [|split; [done|]].
  - induction n as [|n IH]; [done|].
    cbn [replicate RxJob_loop_sock]. rewrite Hrun.
    rewrite RxJob_iter_sock_shutdown. cbn [mbind result_bind].
    rewrite IH. done.
  - unfold idle_polls. induction n as [|n IH]; [done|].
    cbn [replicate concat]. rewrite length_app, IH. simpl. lia.
Qed.

(** What the loop does leave on: -1 from [recv]. The iteration clears the
    run flag (and still prints a packet rebuilt from the stale buffer);
    no later answer of the transport is looked at. *)
Lemma RxJob_exits_on_error (junk : Z) (rs : list (recv_result * Z))
    (b : Bridge) (w : World) :
  6 ≤ BRIDGE_BUFFER_SIZE →
  Z.of_nat (length (rxBuff b)) = BRIDGE_BUFFER_SIZE →
  rx_run b = true →
  ∃ evs,
    RxJob_loop_sock BRIDGE_BUFFER_SIZE ((RecvError, junk) :: rs) b w
    = Ok (set_rx_run false b, w, evs)
    ∧ EvLog "rx_sock: Client has disconnected...." ∈ evs
    ∧ read_requests evs = [EvRecv (client_rx_sock b) BRIDGE_BUFFER_SIZE].
Proof.
  intros H6 Hlen Hrun. cbn [RxJob_loop_sock]. rewrite Hrun.
  rewrite RxJob_iter_sock_error by done. cbn [mbind result_bind].
  assert (Hrest : RxJob_loop_sock BRIDGE_BUFFER_SIZE rs (set_rx_run false b) w
                  = Ok (set_rx_run false b, w, [])).
  { destruct rs as [|[r j] rs]; done. }
  rewrite Hrest. cbn [mbind result_bind mret result_ret].
  eexists. split; [done|]. split.
  - rewrite app_nil_r. apply list_elem_of_further, list_elem_of_here.
  - rewrite app_nil_r. unfold rx_printed. by case_bool_decide.
Qed.

(** The named-pipe loop has the same shape: error 109 on the header read,
    which is what a pipe whose other end was closed reports, is taken for
    "not enough bytes" and retried after a sleep. *)
Lemma RxJob_iter_pipe_error_109 (hdr pay : readfile_result) (junk : Z)
    (b : Bridge) (w : World) :
  rf_val hdr = 0 → rf_err hdr = 109 →
  RxJob_iter_pipe BRIDGE_BUFFER_SIZE hdr pay junk b w
  = Ok (after_header hdr b, w, [EvReadFile 0 6; EvSleep 500], Next).
Proof.
  intros Hv He. unfold RxJob_iter_pipe.
  by rewrite (bool_decide_true _ Hv), (bool_decide_true _ He).
Qed.

End ReceiveProperties.

(** ** Lifecycle *)

Lemma join_if_joinable_idem (t : thread) :
  join_if_joinable (join_if_joinable t) = join_if_joinable t.
Proof. by destruct t. Qed.

Lemma TxStop_state (b : Bridge) (os : OS) :
  ∃ b' os',
    TxStop b os = (0, b', os')
    ∧ tx_run b' = false ∧ tx_worker b' = NotJoinable ∧ tx_sock b' = -1.
Proof.
  unfold TxStop. cbn [tx_sock set_tx_worker set_tx_run].
  case_bool_decide as Hs; eexists _, _; (split; [done|]);
    destruct b as [? ? ? ? ? ? ? ? ? ? [] ? ? ? ? ?]; cbn in *;
    repeat split; try done; lia.
Qed.

Lemma RxStop_state (b : Bridge) (os : OS) :
  ∃ b' os',
    RxStop b os = (0, b', os')
    ∧ rx_run b' = false ∧ rx_worker b' = NotJoinable ∧ rx_sock b' = -1.
Proof.
  unfold RxStop. cbn [rx_sock set_rx_worker set_rx_run].
  case_bool_decide as Hs; eexists _, _; (split; [done|]);
    destruct b as [? ? ? ? ? ? ? ? ? ? ? [] ? ? ? ?]; cbn in *;
    repeat split; try done; lia.
Qed.




Lemma sys_socket_open (ret : Z) (os : OS) :
  0 ≤ ret → ret ∈ open_fds (sys_socket ret os).
Proof.
  intros Hret. unfold sys_socket. rewrite bool_decide_true by done.
  cbn [open_fds]. apply elem_of_union_l, elem_of_singleton. done.
Qed.

(** [InitTxBridge] by cases on what [socket] and [bind] return. *)
Lemma InitTxBridge_cases (env : init_answers) (b : Bridge) (os : OS) :
  InitTxBridge env b os
  = if bool_decide (socket_ret env < 0) then
      (1, set_tx_sock (socket_ret env) b, os)
    else if bool_decide (bind_ret env < 0) then
      (2, set_tx_sock (socket_ret env) b,
       sys_unlink (tx_connection_string b) (sys_socket (socket_ret env) os))
    else
      (0, set_tx_sock (socket_ret env) b,
       sys_bind (tx_connection_string b)
         (sys_unlink (tx_connection_string b)
            (sys_socket (socket_ret env) os))).
Proof.
  unfold InitTxBridge. cbn [tx_sock set_tx_sock tx_connection_string].
  case_bool_decide as Hs; [|done].
  unfold sys_socket. by rewrite bool_decide_false by lia.
Qed.

(** A start that succeeds: 0 is returned, the run flag is set and the
    handle has one thread, whether the engine was running before or not. *)
Lemma TxStart_success (env : init_answers) (b : Bridge) (os : OS) :
  0 ≤ socket_ret env → 0 ≤ bind_ret env →
  tx_run b = true ∨ tx_worker b = NotJoinable →
  ∃ b' os',
    TxStart env b os = Ok (0, b', os')
    ∧ tx_run b' = true ∧ tx_worker b' = Joinable
    ∧ tx_sock b' = socket_ret env
    ∧ socket_ret env ∈ open_fds os'
    ∧ tx_connection_string b ∈ socket_files os'.
Proof.
  intros Hs Hb Hstate. unfold TxStart.
  destruct (tx_run b) eqn:Hrun.
  - destruct (TxStop_state b os) as (b1 & os1 & Heq & Hr & Hw & Hsock).
    rewrite Heq, InitTxBridge_cases.
    rewrite !bool_decide_false by lia.
    cbn [tx_worker set_tx_run set_tx_sock]. rewrite Hw.
    cbn [spawn mbind result_bind mret result_ret].
    eexists _, _. split; [done|]. cbn.
    assert (Hcs : tx_connection_string b1 = tx_connection_string b).
    { unfold TxStop in Heq. revert Heq. by case_bool_decide; intros [= <- _]. }
    rewrite Hcs. repeat split; try done.
    + by apply sys_socket_open.
    + by apply elem_of_union_l, elem_of_singleton.
  - destruct Hstate as [|Hw]; [done|].
    rewrite InitTxBridge_cases.
    rewrite !bool_decide_false by lia.
    cbn [tx_worker set_tx_run set_tx_sock]. rewrite Hw.
    cbn [spawn mbind result_bind mret result_ret].
    eexists _, _. split; [done|]. cbn.
    repeat split; try done.
    + by apply sys_socket_open.
    + by apply elem_of_union_l, elem_of_singleton.
Qed.

(** A start whose [socket] or [bind] fails returns 1 or 2, with the run
    flag clear and no thread in the handle of an engine that was running
    or had none. *)
Lemma TxStart_failure (env : init_answers) (b : Bridge) (os : OS) :
  socket_ret env < 0 ∨ bind_ret env < 0 →
  tx_run b = true ∨ tx_worker b = NotJoinable →
  ∃ err b' os',
    TxStart env b os = Ok (err, b', os')
    ∧ (err = 1 ∨ err = 2)
    ∧ tx_run b' = false ∧ tx_worker b' = NotJoinable.
Proof.
  intros Hfail Hstate. unfold TxStart.
  destruct (tx_run b) eqn:Hrun.
  - destruct (TxStop_state b os) as (b1 & os1 & Heq & Hr & Hw & Hsock).
    rewrite Heq, InitTxBridge_cases.
    repeat case_bool_decide; try lia;
      eexists _, _, _; (split; [done|]); cbn; auto.
  - destruct Hstate as [|Hw]; [done|].
    rewrite InitTxBridge_cases.
    repeat case_bool_decide; try lia;
      eexists _, _, _; (split; [done|]); cbn; auto.
Qed.

(** [socket] succeeded and [bind] failed: the start returns 2 and the
    descriptor stays open, held in [tx_sock]. *)
Lemma TxStart_bind_failure (env : init_answers) (b : Bridge) (os : OS) :
  0 ≤ socket_ret env → bind_ret env < 0 →
  ∃ b' os',
    TxStart env b os = Ok (2, b', os')
    ∧ tx_sock b' = socket_ret env
    ∧ socket_ret env ∈ open_fds os'.
Proof.
  intros Hs Hb. unfold TxStart.
  destruct (tx_run b) eqn:Hrun.
  - destruct (TxStop_state b os) as (b1 & os1 & Heq & _).
    rewrite Heq, InitTxBridge_cases.
    rewrite bool_decide_false, bool_decide_true by lia.
    rewrite bool_decide_true by done.
    eexists _, _. split; [done|]. cbn.
    split; [done | by apply sys_socket_open].
  - rewrite InitTxBridge_cases.
    rewrite bool_decide_false, bool_decide_true by lia.
    rewrite bool_decide_true by done.
    eexists _, _. split; [done|]. cbn.
    split; [done | by apply sys_socket_open].
Qed.

(** A receive worker that left its loop by itself has cleared [rx_run]
    and is still joinable: [RxStart] then skips [RxStop] and assigns a new
    thread to the joinable handle. *)
Lemma RxStart_after_worker_exit (env : init_answers) (b : Bridge) (os : OS) :
  rx_run b = false → rx_worker b = Joinable →
  0 ≤ socket_ret env → 0 ≤ bind_ret env →
  RxStart env b os = Fault ThreadTerminate.
Proof.
  intros Hrun Hw Hs Hb. unfold RxStart, InitRxBridge. rewrite Hrun.
  cbn [rx_sock set_rx_sock].
  rewrite !bool_decide_false by lia.
  cbn [rx_worker set_rx_run set_rx_sock]. by rewrite Hw.
Qed.

(** ** Concrete runs *)

(** [runSocketTest] with both starts succeeding, then the transmit worker
    with a client on descriptor 5: the first thing the client is sent is
    the frame of the test packet. *)
Lemma runSocketTest_sends_frame :
  ∃ b w os b' w',
    runSocketTest "/tmp/" (zeroed 4096)
      {| socket_ret := 3; bind_ret := 0 |} {| socket_ret := 4; bind_ret := 0 |}
      empty_world no_resources
    = Ok (b, w, os)
    ∧ tx_run b = true ∧ rx_run b = true
    ∧ socket_files os = {[ "/tmp/testPipeTX"; "/tmp/testPipeRX" ]}
    ∧ TxJob {| listen_ret := 0; accept_ret := 5 |} 2 b w
      = Ok (b', w',
            [EvLog "tx_sock: listening for clients";
             EvLog "tx_sock: client connected";
             EvLock _gtxLock; EvUnlock _gtxLock; EvSend 5 full_frame;
             EvLock _gtxLock; EvUnlock _gtxLock; EvSleep 500]).
Proof.
  eexists _, _, _, _, _. split; [by vm_compute|].
  split; [by vm_compute|]. split; [by vm_compute|].
  split; [by vm_compute|]. by vm_compute.
Qed.

(** C8. [TxStart] on a fresh bridge when [socket] returns descriptor 3 and
    [bind] fails: the start returns 2, the run flag is clear and no worker
    was spawned, but descriptor 3 is still open and [tx_sock] holds it. A
    second [TxStart] (descriptor 4, [bind] succeeds) finds [tx_run] clear,
    calls no [TxStop], and overwrites [tx_sock]: descriptor 3 stays open
    with nothing referring to it, also after the [TxStop] that follows.
    [RxStart] keeps the descriptor of a failed [bind] in the same way. *)
Theorem start_bind_failure_keeps_socket :
  let b := testBridge "/tmp/" 4096 in
  (∃ b' os',
     TxStart {| socket_ret := 3; bind_ret := -1 |} b no_resources
     = Ok (2, b', os')
     ∧ tx_run b' = false ∧ tx_worker b' = NotJoinable
     ∧ tx_sock b' = 3 ∧ open_fds os' = {[3]}
     ∧ ∃ b'' os'',
         TxStart {| socket_ret := 4; bind_ret := 0 |} b' os' = Ok (0, b'', os'')
         ∧ tx_run b'' = true ∧ tx_worker b'' = Joinable
         ∧ tx_sock b'' = 4 ∧ open_fds os'' = {[3; 4]}
         ∧ open_fds (TxStop b'' os'').2 = {[3]})
  ∧ (∃ b' os',
       RxStart {| socket_ret := 3; bind_ret := -1 |} b no_resources
       = Ok (2, b', os')
       ∧ rx_run b' = false ∧ rx_worker b' = NotJoinable
       ∧ rx_sock b' = 3 ∧ open_fds os' = {[3]}).
Proof.
  cbv zeta. split.
  - eexists _, _. split; [by vm_compute|].
    do 4 (split; [by vm_compute|]).
    eexists _, _. split; [by vm_compute|].
    do 4 (split; [by vm_compute|]). by vm_compute.
  - eexists _, _. split; [by vm_compute|].
    do 3 (split; [by vm_compute|]). by vm_compute.
Qed.

(** C5 does not hold as stated. After the frame of [runSocketTest], a
    read on the domain-socket path with 4096-byte buffers: it asks for
    4096 bytes, not for the 6 of a header; the transport delivers 3 bytes
    without any disconnect or error; the iteration prints a packet all the
    same (command 2, packetID 0x0809, and the size and payload of the frame
    before), and the loop goes on with the run flag set. *)
Lemma short_read_is_processed :
  let b := after_recv 4096 full_frame (set_rx_run true (testBridge "/tmp/" 4096)) in
  ∃ b' evs,
    RxJob_iter_sock 4096 (RecvBytes short_read) 0 b empty_world
    = Ok (b', empty_world, evs, Next)
    ∧ evs = [EvRecv (client_rx_sock b) 4096;
             EvLog "rx_sock: Packet Size"; EvPrintBytes short_read;
             EvPrintPacket 0x0809 2 5 [1; 2; 3; 4; 5];
             EvLock _grxLock; EvUnlock _grxLock]
    ∧ rx_run b' = true
    ∧ (length short_read < 6)%nat
    ∧ ¬ (∀ e, e ∈ read_requests evs →
              e = EvReadFile 0 6 ∨ ∃ fd, e = EvRecv fd 6).
Proof.
  cbv zeta. eexists _, _. split; [by vm_compute|].
  split; [done|]. split; [by vm_compute|]. split; [simpl; lia|].
  intros Hall.
  destruct (Hall (EvRecv 0 4096)) as [Heq|[fd Heq]]; [|done|done].
  apply list_elem_of_here.
Qed.

(** C3 does not hold as stated on the named-pipe path. A header that
    declares 4091 bytes, one more than [MAX_PAYLOAD] for 4096-byte
    buffers: the iteration ends at the guard before the payload read, no
    packet is rebuilt, so no placeholder payload is substituted. *)
Lemma oversize_frame_dropped_on_pipe :
  let b := set_rx_run true (testBridge "/tmp/" 4096) in
  let hdr := {| rf_val := 1; rf_err := 0; rf_bytes := [1; 0; 8; 8; 251; 15] |} in
  let pay := {| rf_val := 1; rf_err := 0; rf_bytes := [] |} in
  u16_at (rxBuff (after_header hdr b)) 2 = 4091
  ∧ MAX_PAYLOAD 4096 = 4090
  ∧ ∃ b' evs,
      RxJob_iter_pipe 4096 hdr pay 0 b empty_world
      = Ok (b', empty_world, evs, Next)
      ∧ evs = [EvReadFile 0 6]
      ∧ ¬ packet_produced evs.
Proof.
  cbv zeta. split; [by vm_compute|]. split; [done|].
  eexists _, _. split; [by vm_compute|]. split; [done|].
  intros (pid & cmd & size & bytes & Hin).
  apply list_elem_of_singleton in Hin. discriminate.
Qed.

(** ** The theorems at concrete inputs *)

(** The round trip at the packet of [runSocketTest], with 4096-byte
    buffers. *)
Lemma roundtrip_framing_witness :
  packet_ok testPacket [1; 2; 3; 4; 5]
  ∧ 0 ≤ dataSize testPacket ≤ MAX_PAYLOAD 4096
  ∧ Z.of_nat (length (replicate 4096 0)) = 4096
  ∧ ∃ rxPacket d h',
      rx_reconstruct 4096 ∅ (write_at (replicate 4096 0) 0 full_frame) 0
      = Ok (rxPacket, h')
      ∧ h' !! rxPacket
        = Some (BPacket {| command := 1; packetID := 0x0808; dataSize := 5;
                           data := d |})
      ∧ h' !! d = Some (BData [1; 2; 3; 4; 5]).
Proof.
  assert (Hok : packet_ok testPacket [1; 2; 3; 4; 5]).
  { unfold packet_ok, uint16. simpl. lia. }
  assert (Hmax : 0 ≤ dataSize testPacket ≤ MAX_PAYLOAD 4096).
  { unfold MAX_PAYLOAD. simpl. lia. }
  assert (Hlen : Z.of_nat (length (replicate 4096 0)) = 4096).
  { rewrite length_replicate. reflexivity. }
  split; [exact Hok|]. split; [exact Hmax|]. split; [exact Hlen|].
  destruct (roundtrip_framing 4096 testPacket [1; 2; 3; 4; 5]
              (replicate 4096 0) (replicate 4096 0) 0 ∅ Hok Hmax Hlen Hlen)
    as (buff & frame & _ & _ & Hframe & rxPacket & d & h' & Hrx & Hp & Hd).
  exists rxPacket, d, h'. rewrite Hframe in Hrx.
  split; [exact Hrx|]. split; [exact Hp | exact Hd].
Defined.

(** The frame of the test packet, sent by the bridge of [runSocketTest]. *)
Lemma runSocketTest_frame_witness :
  _txQueue (testBridge "/tmp/" 4096) = _gtxQueue
  ∧ (11 ≤ length (tx_buff (testBridge "/tmp/" 4096)))%nat
  ∧ ∃ b' w',
      TxJob_iter (testBridge "/tmp/" 4096) (runSocketTest_packet empty_world).2
      = Ok (b', w', [EvLock _gtxLock; EvUnlock _gtxLock;
                     EvSend (-1) full_frame]).
Proof.
  assert (Hq : _txQueue (testBridge "/tmp/" 4096) = _gtxQueue) by reflexivity.
  assert (Hlen : (11 ≤ length (tx_buff (testBridge "/tmp/" 4096)))%nat).
  { cbn [testBridge Bridge_new tx_buff zeroed]. rewrite length_replicate. lia. }
  split; [exact Hq|]. split; [exact Hlen|].
  destruct (runSocketTest_frame (testBridge "/tmp/" 4096) Hq Hlen)
    as (b' & w' & sent & Hit & -> & _).
  exists b', w'. exact Hit.
Defined.

(** A header that declares 4091 bytes on the domain-socket path, with
    4096-byte buffers: the placeholder packet. *)
Lemma oversize_header_handling_witness :
  Z.of_nat (length (rxBuff (zeroed 4096))) = 4096
  ∧ 7 ≤ 4096
  ∧ MAX_PAYLOAD 4096
    < u16_at (rxBuff (after_recv 4096 [1; 0; 8; 8; 251; 15] (zeroed 4096))) 2
  ∧ RxJob_iter_sock 4096 (RecvBytes [1; 0; 8; 8; 251; 15]) 77 (zeroed 4096)
      empty_world
    = Ok (after_recv 4096 [1; 0; 8; 8; 251; 15] (zeroed 4096), empty_world,
          [EvRecv 0 4096; EvLog "rx_sock: Packet Size";
           EvPrintBytes [1; 0; 8; 8; 251; 15];
           EvPrintPacket 0x0808 1 1 [77];
           EvLock _grxLock; EvUnlock _grxLock],
          Next).
Proof.
  assert (Hlen : Z.of_nat (length (rxBuff (zeroed 4096))) = 4096).
  { cbn [zeroed rxBuff]. rewrite length_replicate. reflexivity. }
  assert (H7 : 7 ≤ 4096) by lia.
  assert (Hsz : MAX_PAYLOAD 4096
                < u16_at (rxBuff (after_recv 4096 [1; 0; 8; 8; 251; 15]
                                    (zeroed 4096))) 2).
  { vm_compute. reflexivity. }
  split; [exact Hlen|]. split; [exact H7|]. split; [exact Hsz|].
  destruct (oversize_header_handling 4096 (zeroed 4096) Hlen H7)
    as (Hsock & _ & _).
  exact (Hsock [1; 0; 8; 8; 251; 15] 77 empty_world ltac:(discriminate) Hsz).
Defined.

(** The two reads of a named-pipe iteration for a header that declares
    5 bytes; the payload read delivers 3. *)
Lemma read_requests_of_iteration_witness :
  Z.of_nat (length (rxBuff (zeroed 4096))) = 4096
  ∧ 6 ≤ 4096
  ∧ ∃ b' w' evs c,
      RxJob_iter_pipe 4096
        {| rf_val := 1; rf_err := 0; rf_bytes := [1; 0; 8; 8; 5; 0] |}
        {| rf_val := 1; rf_err := 0; rf_bytes := [1; 2; 3] |}
        0 (zeroed 4096) empty_world
      = Ok (b', w', evs, c)
      ∧ read_requests evs = [EvReadFile 0 6; EvReadFile 6 5].
Proof.
  assert (Hlen : Z.of_nat (length (rxBuff (zeroed 4096))) = 4096).
  { cbn [zeroed rxBuff]. rewrite length_replicate. reflexivity. }
  assert (H6 : 6 ≤ 4096) by lia.
  split; [exact Hlen|]. split; [exact H6|].
  destruct (read_requests_of_iteration 4096 (zeroed 4096) Hlen H6)
    as (_ & Hpipe).
  destruct (Hpipe {| rf_val := 1; rf_err := 0; rf_bytes := [1; 0; 8; 8; 5; 0] |}
              {| rf_val := 1; rf_err := 0; rf_bytes := [1; 2; 3] |}
              0 empty_world)
    as (b' & w' & evs & c & Hit & Hreads & _).
  exists b', w', evs, c. split; [exact Hit|]. exact Hreads.
Defined.

(** A thousand iterations after the peer has shut the connection down. *)
Lemma RxJob_polls_after_shutdown_witness :
  rx_run (set_rx_run true (testBridge "/tmp/" 4096)) = true
  ∧ ∃ b',
      RxJob_loop_sock 4096 (replicate 1000 (RecvShutdown, 0))
        (set_rx_run true (testBridge "/tmp/" 4096)) empty_world
      = Ok (b', empty_world, idle_polls 4096 0 1000)
      ∧ rx_run b' = true.
Proof.
  assert (Hrun : rx_run (set_rx_run true (testBridge "/tmp/" 4096)) = true)
    by reflexivity.
  split; [exact Hrun|].
  destruct (RxJob_polls_after_shutdown 4096 1000 0
              (set_rx_run true (testBridge "/tmp/" 4096)) empty_world Hrun)
    as (b' & Hloop & Hrun' & _).
  exists b'. split; [exact Hloop | exact Hrun'].
Defined.

(** A header that declares 4090 bytes on the named-pipe path, with
    4096-byte buffers. *)
Lemma max_size_frame_skipped_on_pipe_witness :
  let hdr := {| rf_val := 1; rf_err := 0;
                rf_bytes := [1; 0; 8; 8; 250; 15] |} in
  let pay := {| rf_val := 1; rf_err := 0; rf_bytes := replicate 4090 7 |} in
  read_accepted hdr
  ∧ Z.of_nat (length (rxBuff (zeroed 4096))) = 4096
  ∧ 6 ≤ 4096
  ∧ u16_at (rxBuff (after_header hdr (zeroed 4096))) 2 = 4096 - 6
  ∧ RxJob_iter_pipe 4096 hdr pay 0 (zeroed 4096) empty_world
    = Ok (after_header hdr (zeroed 4096), empty_world, [EvReadFile 0 6], Next).
Proof.
  cbv zeta.
  set (hdr := {| rf_val := 1; rf_err := 0;
                 rf_bytes := [1; 0; 8; 8; 250; 15] |}).
  assert (Hh : read_accepted hdr) by (left; discriminate).
  assert (Hlen : Z.of_nat (length (rxBuff (zeroed 4096))) = 4096).
  { cbn [zeroed rxBuff]. rewrite length_replicate. reflexivity. }
  assert (H6 : 6 ≤ 4096) by lia.
  assert (Hsz : u16_at (rxBuff (after_header hdr (zeroed 4096))) 2 = 4096 - 6).
  { vm_compute. reflexivity. }
  split; [exact Hh|]. split; [exact Hlen|]. split; [exact H6|].
  split; [exact Hsz|].
  exact (proj1 (max_size_frame_skipped_on_pipe 4096 hdr
                  {| rf_val := 1; rf_err := 0; rf_bytes := replicate 4090 7 |}
                  0 (zeroed 4096) empty_world ∅ Hh Hlen H6 Hsz)).
Defined.

(** * Further properties of the bridge *)

(** ** The transmit worker *)

Lemma sent_frames_of_sends (l : mref) (fd : Z)
    (items : list (EVPacket * list Z)) :
  sent_frames (concat (map (λ it, [EvLock l; EvUnlock l;
                                   EvSend fd (frame_of it)]) items))
  = map frame_of items.
Proof.
  induction items as [|it items IH]; [done|].
  cbn [map concat]. unfold sent_frames in *. rewrite omap_app, IH. done.
Qed.

Lemma sends_go_to (l : mref) (fd fd' : Z) (bs : list Z)
    (items : list (EVPacket * list Z)) :
  EvSend fd' bs
  ∈ concat (map (λ it, [EvLock l; EvUnlock l; EvSend fd (frame_of it)]) items) →
  fd' = fd.
Proof.
  induction items as [|it items IH]; cbn [map concat].
  - intros Hin. by apply elem_of_nil in Hin.
  - rewrite elem_of_app. intros [Hin|Hin]; [|by apply IH].
    repeat (apply elem_of_cons in Hin as [Heq|Hin]; [by inversion Heq|]).
    by apply elem_of_nil in Hin.
Qed.

(** X1. The whole transmit worker of a bridge that was given [_gtxQueue]: once
    [listen] and [accept] have succeeded, the frames of the queued packets
    go to the accepted client, one [send] per packet, in the order of the
    queue, and the queue is empty afterwards. *)
Theorem TxJob_sends_queue_in_order (env : connect_answers)
    (items : list (EVPacket * list Z)) (b : Bridge) (w : World) :
  tx_sock b ≠ -1 →
  listen_ret env = 0 →
  0 ≤ accept_ret env →
  _txQueue b = _gtxQueue →
  tx_run b = true →
  tx_ready (length (tx_buff b)) (heap w) (queue_of w _gtxQueue) items →
  ∃ b' w' evs,
    TxJob env (length items) b w = Ok (b', w', evs)
    ∧ sent_frames evs = map frame_of items
    ∧ (∀ fd bs, EvSend fd bs ∈ evs → fd = accept_ret env)
    ∧ queue_of w' _gtxQueue = [].
Proof.
  intros Hsock Hlisten Haccept Hq Hrun Hready. unfold TxJob.
  rewrite bool_decide_false by done.
  rewrite bool_decide_false by (intros Hne; apply Hne; by rewrite Hlisten).
  cbn [client_tx_sock set_client_tx_sock].
  rewrite bool_decide_false by lia.
  destruct (TxJob_loop_fifo items (set_client_tx_sock (accept_ret env) b) w)
    as (b' & w' & Hloop & Hempty); [done | done | done |].
  rewrite Hloop. cbn [mbind result_bind mret result_ret].
  cbn [_txLock client_tx_sock set_client_tx_sock].
  eexists _, _, _. split; [done|]. split; [|split; [|done]].
  - unfold sent_frames. cbn [omap]. apply sent_frames_of_sends.
  - intros fd bs Hin.
    apply elem_of_cons in Hin as [Heq|Hin]; [done|].
    apply elem_of_cons in Hin as [Heq|Hin]; [done|].
    by eapply sends_go_to.
Qed.

(** X2. A transmit iteration that sends touches nothing but the front of
    [_gtxQueue], the [EVPacket] block it frees and [tx_buff]: every other
    queue, every other heap block (the payload of the packet among them),
    the flags and sockets of the bridge and the bytes of [tx_buff] behind
    the frame are as before. *)
Theorem TxJob_iter_touches_front_only (b : Bridge) (w : World) (txPacket : loc)
    (rest : list loc) (pk : EVPacket) (payload : list Z) :
  queue_of w (_txQueue b) ≠ [] →
  queue_of w _gtxQueue = txPacket :: rest →
  heap w !! txPacket = Some (BPacket pk) →
  heap w !! data pk = Some (BData payload) →
  dataSize pk = Z.of_nat (length payload) →
  (6 + length payload ≤ length (tx_buff b))%nat →
  ∃ b' w' evs,
    TxJob_iter b w = Ok (b', w', evs)
    ∧ queue_of w' _gtxQueue = rest
    ∧ (∀ q, q ≠ _gtxQueue → queue_of w' q = queue_of w q)
    ∧ heap w' !! txPacket = None
    ∧ (∀ l, l ≠ txPacket → heap w' !! l = heap w !! l)
    ∧ set_tx_buff (tx_buff b) b' = b
    ∧ length (tx_buff b') = length (tx_buff b)
    ∧ drop (6 + length payload) (tx_buff b')
      = drop (6 + length payload) (tx_buff b).
Proof.
  intros Hne Hq Hpk Hdata Hsz Hlen.
  eexists _, _, _. split; [by eapply TxJob_iter_send|].
  split; [|split; [|split; [|split; [|split; [|split]]]]].
  - unfold queue_of. cbn [queues]. by rewrite lookup_insert_eq.
  - intros q Hneq. unfold queue_of. cbn [queues].
    by rewrite lookup_insert_ne.
  - cbn [heap]. apply lookup_delete_eq.
  - intros l Hl. cbn [heap]. by rewrite lookup_delete_ne.
  - by destruct b.
  - cbn [tx_buff set_tx_buff]. by apply length_tx_buff_after.
  - cbn [tx_buff set_tx_buff].
    rewrite app_assoc, drop_app_length'
      by (rewrite length_app, length_header_bytes; lia).
    done.
Qed.


(** X4. A transmit worker that gets no client (no socket, [listen] fails, or
    [accept] fails) returns at once: the queues and the heap are as they
    were, whatever is queued, and nothing is sent; the run flag stays as
    it was. *)
Theorem TxJob_without_client (env : connect_answers) (n : nat) (b : Bridge)
    (w : World) :
  tx_sock b = -1 ∨ listen_ret env ≠ 0 ∨ accept_ret env < 0 →
  ∃ b' evs,
    TxJob env n b w = Ok (b', w, evs)
    ∧ sent_frames evs = []
    ∧ tx_run b' = tx_run b
    ∧ tx_buff b' = tx_buff b.
Proof.
  intros Hcase. unfold TxJob.
  case_bool_decide as Hs; [by eexists _, _|].
  case_bool_decide as Hl; [by eexists _, _|].
  cbn [client_tx_sock set_client_tx_sock].
  case_bool_decide as Ha; [by eexists _, _|].
  exfalso. destruct Hcase as [?|[?|?]]; [done|lia|lia].
Qed.

(** X5. [FreePacket] releases the packet and its payload and nothing else, and
    a second [FreePacket] on the same pointer finds no live block. *)
Theorem FreePacket_releases_exactly_two (h : gmap loc block) (packet : loc)
    (pk : EVPacket) (payload : list Z) :
  h !! packet = Some (BPacket pk) →
  h !! data pk = Some (BData payload) →
  ∃ h',
    FreePacket h packet = Ok h'
    ∧ h' !! packet = None
    ∧ h' !! data pk = None
    ∧ (∀ l, l ≠ packet → l ≠ data pk → h' !! l = h !! l)
    ∧ FreePacket h' packet = Fault InvalidPointer.
Proof.
  intros Hpk Hdata. eexists. split; [by eapply FreePacket_frees_both|].
  split; [apply lookup_delete_eq|].
  assert (Hne : data pk ≠ packet) by (intros Heq; congruence).
  split; [by rewrite lookup_delete_ne, lookup_delete_eq|].
  split.
  - intros l Hl1 Hl2. by rewrite !lookup_delete_ne.
  - unfold FreePacket, load_packet. by rewrite lookup_delete_eq.
Qed.

(** ** The receive worker *)

Lemma printed_packets_app (evs1 evs2 : list event) :
  printed_packets (evs1 ++ evs2) = printed_packets evs1 ++ printed_packets evs2.
Proof. unfold printed_packets. apply filter_app. Qed.

Section MoreReceive.

Variable BRIDGE_BUFFER_SIZE : Z.

(** What the reconstruction shows of a buffer that starts with a frame. *)
Lemma rx_printed_of_frame (it : EVPacket * list Z) (tail : list Z)
    (junk : Z) :
  packet_ok it.1 it.2 →
  dataSize it.1 ≤ BRIDGE_BUFFER_SIZE - 6 →
  rx_printed BRIDGE_BUFFER_SIZE (frame_of it ++ tail) junk = printed_of it.
Proof.
  destruct it as [pk payload]. cbn [fst snd].
  intros (Hc & Hp & Hs & Hsz) Hmax. unfold frame_of. cbn [fst snd].
  rewrite <- app_assoc.
  destruct (u16_at_header (command pk) (packetID pk) (dataSize pk)
              (payload ++ tail) Hc Hp Hs) as (L0 & L1 & L2).
  unfold rx_printed, printed_of. cbn [fst snd].
  rewrite L0, L1, L2, bool_decide_true by lia.
  do 2 f_equal. rewrite Hsz, Nat2Z.id.
  rewrite drop_app_length' by (by rewrite length_header_bytes).
  by rewrite take_app_length.
Qed.

Lemma length_frame_of (it : EVPacket * list Z) :
  length (frame_of it) = (6 + length it.2)%nat.
Proof. unfold frame_of. by rewrite length_app, length_header_bytes. Qed.

(** [rxBuff] after [recv] stored a frame and whatever followed it. *)
Lemma rxBuff_after_frame (it : EVPacket * list Z) (more : list Z)
    (b : Bridge) :
  Z.of_nat (length (rxBuff b)) = BRIDGE_BUFFER_SIZE →
  Z.of_nat (6 + length it.2) ≤ BRIDGE_BUFFER_SIZE →
  ∃ tail,
    rxBuff (after_recv BRIDGE_BUFFER_SIZE (frame_of it ++ more) b)
    = frame_of it ++ tail.
Proof.
  intros Hlen Hfit. unfold after_recv, write_at. cbn [rxBuff set_rxBuff].
  rewrite take_0, app_nil_l, take_app.
  rewrite take_ge by (rewrite length_frame_of; lia).
  rewrite <- app_assoc. by eexists.
Qed.

(** X6. A frame at the start of what [recv] delivered is the packet of the
    iteration, and the only one: bytes that arrived behind it in the same
    call, a second frame among them, are never parsed. *)
Theorem RxJob_iter_sock_first_frame_only (it : EVPacket * list Z)
    (more : list Z) (junk : Z) (b : Bridge) (w : World) :
  packet_ok it.1 it.2 →
  dataSize it.1 ≤ MAX_PAYLOAD BRIDGE_BUFFER_SIZE →
  Z.of_nat (length (rxBuff b)) = BRIDGE_BUFFER_SIZE →
  ∃ b' evs,
    RxJob_iter_sock BRIDGE_BUFFER_SIZE (RecvBytes (frame_of it ++ more))
      junk b w
    = Ok (b', w, evs, Next)
    ∧ printed_packets evs = [printed_of it]
    ∧ read_requests evs = [EvRecv (client_rx_sock b) BRIDGE_BUFFER_SIZE].
Proof.
  intros Hok Hmax Hlen. unfold MAX_PAYLOAD in Hmax.
  pose proof Hok as (_ & _ & Hs & Hsz). unfold uint16 in Hs.
  assert (Hne : frame_of it ++ more ≠ []).
  { intros Hnil. apply (f_equal length) in Hnil.
    rewrite length_app, length_frame_of in Hnil. simpl in Hnil. lia. }
  pose proof (RxJob_iter_sock_bytes BRIDGE_BUFFER_SIZE (frame_of it ++ more)
                junk b w ltac:(lia) Hlen Hne) as Hit.
  cbv zeta in Hit.
  destruct (rxBuff_after_frame it more b Hlen ltac:(lia)) as [tail Htail].
  rewrite Htail, rx_printed_of_frame in Hit by (done || lia).
  eexists _, _. split; [exact Hit|]. by split.
Qed.

(** Frames that [recv] delivers whole, one per call: the loop prints their
    packets in the order of arrival. *)
Lemma RxJob_loop_sock_frames (items : list (EVPacket * list Z)) (junk : Z)
    (b : Bridge) (w : World) :
  Forall (λ it, packet_ok it.1 it.2
                ∧ dataSize it.1 ≤ MAX_PAYLOAD BRIDGE_BUFFER_SIZE) items →
  rx_run b = true →
  Z.of_nat (length (rxBuff b)) = BRIDGE_BUFFER_SIZE →
  6 ≤ BRIDGE_BUFFER_SIZE →
  ∃ b' evs,
    RxJob_loop_sock BRIDGE_BUFFER_SIZE
      (map (λ f, (RecvBytes f, junk)) (map frame_of items)) b w
    = Ok (b', w, evs)
    ∧ printed_packets evs = map printed_of items
    ∧ rx_run b' = true.
Proof.
  intros Hall. revert b.
  induction Hall as [|it items [Hok Hmax] Hall IH]; intros b Hrun Hlen H6.
  - exists b, []. by split.
  - cbn [map RxJob_loop_sock]. rewrite Hrun.
    destruct it as [pk payload]. cbn [fst snd] in Hok, Hmax.
    pose proof Hok as (_ & _ & Hs & _). unfold uint16 in Hs.
    rewrite RxJob_iter_sock_frame by (done || lia).
    cbn [mbind result_bind].
    destruct (IH (after_recv BRIDGE_BUFFER_SIZE (frame_of (pk, payload)) b))
      as (b' & evs & Hloop & Hprs & Hrun').
    + unfold after_recv. by destruct b.
    + by apply length_after_recv.
    + done.
    + rewrite Hloop. cbn [mbind result_bind mret result_ret].
      eexists b', _. split; [done|]. split; [|done].
      by rewrite printed_packets_app, Hprs.
Qed.

(** X7. Loopback. Packets queued on [_gtxQueue] and sent by the transmit loop;
    the frames it handed to [send], delivered whole and one per [recv] to
    the receive loop of a bridge with buffers of [BRIDGE_BUFFER_SIZE]
    bytes: the receive loop prints the queued packets, with their fields
    and payloads, in the order they were queued. *)
Theorem loopback_in_order (items : list (EVPacket * list Z)) (junk : Z)
    (tb : Bridge) (tw : World) (rb : Bridge) (rw : World) :
  _txQueue tb = _gtxQueue →
  tx_run tb = true →
  tx_ready (length (tx_buff tb)) (heap tw) (queue_of tw _gtxQueue) items →
  Forall (λ it, packet_ok it.1 it.2
                ∧ dataSize it.1 ≤ MAX_PAYLOAD BRIDGE_BUFFER_SIZE) items →
  rx_run rb = true →
  Z.of_nat (length (rxBuff rb)) = BRIDGE_BUFFER_SIZE →
  6 ≤ BRIDGE_BUFFER_SIZE →
  ∃ tb' tw' evs_tx rb' evs_rx,
    TxJob_loop (length items) tb tw = Ok (tb', tw', evs_tx)
    ∧ RxJob_loop_sock BRIDGE_BUFFER_SIZE
        (map (λ f, (RecvBytes f, junk)) (sent_frames evs_tx)) rb rw
      = Ok (rb', rw, evs_rx)
    ∧ printed_packets evs_rx = map printed_of items.
Proof.
  intros Hq Hrun Hready Hall Hrrun Hlen H6.
  destruct (TxJob_loop_fifo items tb tw Hq Hrun Hready)
    as (tb' & tw' & Hloop & _).
  destruct (RxJob_loop_sock_frames items junk rb rw Hall Hrrun Hlen H6)
    as (rb' & evs_rx & Hrx & Hpr & _).
  eexists _, _, _, _, _. split; [exact Hloop|].
  rewrite sent_frames_of_sends. by split.
Qed.

(** X8. Whatever the transport answers, for as long as it answers: the
    receive loop never faults on a buffer of [BRIDGE_BUFFER_SIZE] bytes,
    keeps the length of [rxBuff], and leaves the heap and every queue as
    they were. Every block it allocates it frees, and no received packet
    reaches [_rxQueue] or any other queue. *)
Theorem RxJob_loop_sock_keeps_world (rs : list (recv_result * Z))
    (b : Bridge) (w : World) :
  Z.of_nat (length (rxBuff b)) = BRIDGE_BUFFER_SIZE →
  6 ≤ BRIDGE_BUFFER_SIZE →
  ∃ b' evs,
    RxJob_loop_sock BRIDGE_BUFFER_SIZE rs b w = Ok (b', w, evs)
    ∧ Z.of_nat (length (rxBuff b')) = BRIDGE_BUFFER_SIZE
    ∧ sent_frames evs = []
    ∧ set_rx_run (rx_run b) (set_rxBuff (rxBuff b) b') = b.
Proof.
  revert b. induction rs as [|[r junk] rs IH]; intros b Hlen H6.
  - exists b, []. repeat split; try done. by destruct b.
  - cbn [RxJob_loop_sock]. destruct (rx_run b) eqn:Hrun.
    2:{ exists b, []. repeat split; try done. destruct b; cbn in *.
        by subst. }
    assert (Hiter : ∃ b1 evs1,
               RxJob_iter_sock BRIDGE_BUFFER_SIZE r junk b w
               = Ok (b1, w, evs1, Next)
               ∧ Z.of_nat (length (rxBuff b1)) = BRIDGE_BUFFER_SIZE
               ∧ sent_frames evs1 = []
               ∧ set_rx_run (rx_run b) (set_rxBuff (rxBuff b) b1) = b).
    { destruct r as [bs| |].
      - destruct (decide (bs = [])) as [->|Hbs].
        + exists b, [EvRecv (client_rx_sock b) BRIDGE_BUFFER_SIZE; EvSleep 500].
          split; [|repeat split; try done; destruct b; cbn in *; by subst].
          unfold RxJob_iter_sock, recv. rewrite take_nil. cbn [length].
          rewrite bool_decide_false by lia.
          rewrite bool_decide_false by lia.
          by rewrite write_at_nil, set_rxBuff_same.
        + eexists _, _. split; [by apply RxJob_iter_sock_bytes|].
          split; [by apply length_after_recv|].
          split; [unfold rx_printed; by case_bool_decide|].
          unfold after_recv. destruct b; cbn in *. by subst.
      - eexists _, _. split; [apply RxJob_iter_sock_shutdown|].
        repeat split; try done. destruct b; cbn in *. by subst.
      - eexists _, _. split; [by apply RxJob_iter_sock_error|].
        split; [done|]. split; [unfold rx_printed; by case_bool_decide|].
        destruct b; cbn in *. by subst. }
    destruct Hiter as (b1 & evs1 & Hit & Hl1 & Hs1 & Hb1).
    rewrite Hit. cbn [mbind result_bind].
    destruct (IH b1 Hl1 H6) as (b' & evs & Hloop & Hl' & Hs' & Hb').
    rewrite Hloop. cbn [mbind result_bind mret result_ret].
    exists b', (evs1 ++ evs). split; [done|]. split; [done|].
    split.
    + unfold sent_frames in *. by rewrite omap_app, Hs1, Hs'.
    + destruct b', b1, b; cbn in *.
      inversion Hb1; inversion Hb'; by subst.
Qed.

(** X9. A frame, then -1 from [recv]: the iteration that clears the run flag
    still goes through the reconstruction, on the bytes the frame left in
    [rxBuff], so the packet is printed a second time before the loop
    ends. *)
Theorem RxJob_error_reprints_last_packet (it : EVPacket * list Z)
    (junk1 junk2 : Z) (rs : list (recv_result * Z)) (b : Bridge) (w : World) :
  packet_ok it.1 it.2 →
  dataSize it.1 ≤ MAX_PAYLOAD BRIDGE_BUFFER_SIZE →
  Z.of_nat (length (rxBuff b)) = BRIDGE_BUFFER_SIZE →
  rx_run b = true →
  ∃ b' evs,
    RxJob_loop_sock BRIDGE_BUFFER_SIZE
      ((RecvBytes (frame_of it), junk1) :: (RecvError, junk2) :: rs) b w
    = Ok (b', w, evs)
    ∧ printed_packets evs = [printed_of it; printed_of it]
    ∧ rx_run b' = false.
Proof.
  intros Hok Hmax Hlen Hrun.
  pose proof Hok as (_ & _ & Hs & Hsz). unfold uint16 in Hs.
  assert (H6 : 6 ≤ BRIDGE_BUFFER_SIZE) by (unfold MAX_PAYLOAD in Hmax; lia).
  cbn [RxJob_loop_sock]. rewrite Hrun.
  assert (Hne : frame_of it ≠ []).
  { intros Hnil. apply (f_equal length) in Hnil.
    rewrite length_frame_of in Hnil. simpl in Hnil. lia. }
  pose proof (RxJob_iter_sock_bytes BRIDGE_BUFFER_SIZE (frame_of it)
                junk1 b w H6 Hlen Hne) as Hit.
  cbv zeta in Hit. rewrite Hit. cbn [mbind result_bind].
  set (b1 := after_recv BRIDGE_BUFFER_SIZE (frame_of it) b).
  assert (Hrun1 : rx_run b1 = true) by (unfold b1, after_recv; by destruct b).
  assert (Hlen1 : Z.of_nat (length (rxBuff b1)) = BRIDGE_BUFFER_SIZE)
    by (by apply length_after_recv).
  destruct (rxBuff_after_frame it [] b Hlen) as [tail Htail].
  { unfold MAX_PAYLOAD in Hmax. lia. }
  rewrite app_nil_r in Htail. fold b1 in Htail.
  rewrite Hrun1.
  rewrite RxJob_iter_sock_error by done. cbn [mbind result_bind].
  assert (Hrest : RxJob_loop_sock BRIDGE_BUFFER_SIZE rs (set_rx_run false b1) w
                  = Ok (set_rx_run false b1, w, [])).
  { destruct rs as [|[r j] rs]; done. }
  rewrite Hrest. cbn [mbind result_bind mret result_ret].
  eexists _, _. split; [done|]. split; [|done].
  rewrite Htail, !rx_printed_of_frame
    by (done || unfold MAX_PAYLOAD in Hmax; lia).
  done.
Qed.

(** X10. The named-pipe iteration on a frame: the header read delivers the six
    header bytes, the payload read the payload, and the declared size is
    below [BRIDGE_BUFFER_SIZE - 6]. The iteration asks for six bytes, then
    for [dataSize] bytes at offset 6, prints the packet that was framed,
    and leaves heap and queues as they were. *)
Theorem RxJob_iter_pipe_frame (it : EVPacket * list Z)
    (hdr pay : readfile_result) (junk : Z) (b : Bridge) (w : World) :
  packet_ok it.1 it.2 →
  dataSize it.1 < BRIDGE_BUFFER_SIZE - 6 →
  Z.of_nat (length (rxBuff b)) = BRIDGE_BUFFER_SIZE →
  read_accepted hdr →
  rf_bytes hdr = header_bytes (command it.1) (packetID it.1) (dataSize it.1) →
  read_accepted pay →
  rf_bytes pay = it.2 →
  ∃ b' evs,
    RxJob_iter_pipe BRIDGE_BUFFER_SIZE hdr pay junk b w
    = Ok (b', w, evs, Next)
    ∧ printed_packets evs = [printed_of it]
    ∧ read_requests evs = [EvReadFile 0 6; EvReadFile 6 (dataSize it.1)]
    ∧ take (6 + length it.2) (rxBuff b') = frame_of it.
Proof.
  intros Hok Hmax Hlen Hh Hhb Hp Hpb.
  pose proof Hok as (Hc & Hpi & Hs & Hsz).
  assert (H6 : 6 ≤ BRIDGE_BUFFER_SIZE) by (unfold uint16 in Hs; lia).
  assert (Hb1 : rxBuff (after_header hdr b)
                = header_bytes (command it.1) (packetID it.1) (dataSize it.1)
                  ++ drop 6 (rxBuff b)).
  { unfold after_header, write_at. cbn [rxBuff set_rxBuff].
    rewrite Hhb, take_0, app_nil_l.
    rewrite take_ge by (by rewrite length_header_bytes).
    by rewrite length_header_bytes. }
  destruct (u16_at_header (command it.1) (packetID it.1) (dataSize it.1)
              (drop 6 (rxBuff b)) Hc Hpi Hs) as (_ & _ & L2).
  rewrite <- Hb1 in L2.
  pose proof (RxJob_iter_pipe_read BRIDGE_BUFFER_SIZE hdr pay junk b w
                H6 Hlen Hh Hp ltac:(lia)) as Hit.
  cbv zeta in Hit. rewrite L2 in Hit.
  assert (Hb2 : rxBuff (after_payload (dataSize it.1) pay (after_header hdr b))
                = frame_of it ++ drop (6 + length it.2) (rxBuff b)).
  { unfold after_payload, write_at. cbn [rxBuff set_rxBuff].
    rewrite Hb1, Hpb, Hsz, Nat2Z.id.
    rewrite take_app_length' by (by rewrite length_header_bytes).
    rewrite take_ge by done.
    rewrite drop_app_ge by (rewrite length_header_bytes; lia).
    rewrite length_header_bytes, drop_drop. unfold frame_of.
    rewrite <- app_assoc. do 3 f_equal; lia. }
  rewrite Hb2 in Hit.
  rewrite rx_printed_of_frame in Hit by (done || lia).
  eexists _, _. split; [exact Hit|].
  split; [by destruct (bool_decide (rf_val pay = 0))|].
  split; [by destruct (bool_decide (rf_val pay = 0))|].
  cbn [rxBuff]. rewrite Hb2.
  rewrite <- length_frame_of. by rewrite take_app_length.
Qed.

(** X11. A failed header read with an error other than 109 and 234 ends the
    named-pipe loop at once: no payload is asked for, nothing is printed,
    no later answer is looked at. Unlike the socket loop on -1, the loop
    ends by [break] and the run flag stays set. *)
Theorem RxJob_loop_pipe_breaks_on_error (hdr pay : readfile_result)
    (junk : Z) (rs : list (readfile_result * readfile_result * Z))
    (b : Bridge) (w : World) :
  rx_run b = true →
  rf_val hdr = 0 → rf_err hdr ≠ 109 → rf_err hdr ≠ 234 →
  ∃ b' evs,
    RxJob_loop_pipe BRIDGE_BUFFER_SIZE ((hdr, pay, junk) :: rs) b w
    = Ok (b', w, evs)
    ∧ read_requests evs = [EvReadFile 0 6]
    ∧ printed_packets evs = []
    ∧ rx_run b' = true.
Proof.
  intros Hrun Hv H109 H234. cbn [RxJob_loop_pipe]. rewrite Hrun.
  unfold RxJob_iter_pipe.
  rewrite (bool_decide_true _ Hv), (bool_decide_false _ H109),
    (bool_decide_false _ H234).
  cbn [andb negb mbind result_bind mret result_ret].
  eexists _, _. split; [done|]. repeat split; done.
Qed.

(** X12. The named-pipe loop, whatever the pipe answers: it never faults on a
    buffer of [BRIDGE_BUFFER_SIZE] bytes, and heap and queues are at the
    end what they were at the start. *)
Theorem RxJob_loop_pipe_keeps_world
    (rs : list (readfile_result * readfile_result * Z))
    (b : Bridge) (w : World) :
  Z.of_nat (length (rxBuff b)) = BRIDGE_BUFFER_SIZE →
  6 ≤ BRIDGE_BUFFER_SIZE →
  ∃ b' evs,
    RxJob_loop_pipe BRIDGE_BUFFER_SIZE rs b w = Ok (b', w, evs)
    ∧ Z.of_nat (length (rxBuff b')) = BRIDGE_BUFFER_SIZE
    ∧ set_rxBuff (rxBuff b) b' = b.
Proof.
  revert b. induction rs as [|[[hdr pay] junk] rs IH]; intros b Hlen H6.
  - exists b, []. repeat split; try done. by destruct b.
  - cbn [RxJob_loop_pipe]. destruct (rx_run b) eqn:Hrun.
    2:{ exists b, []. repeat split; try done. by destruct b. }
    pose proof (length_after_header BRIDGE_BUFFER_SIZE hdr b H6 Hlen) as Hl1.
    assert (Hl2 : ∀ size,
               size < BRIDGE_BUFFER_SIZE - 6 →
               Z.of_nat (length (rxBuff (after_payload size pay
                                           (after_header hdr b))))
               = BRIDGE_BUFFER_SIZE).
    { intros size Hsize. unfold after_payload. cbn [rxBuff set_rxBuff].
      rewrite length_write_at; [done|]. rewrite length_take. lia. }
    assert (Hiter : ∃ b1 evs1 c,
               RxJob_iter_pipe BRIDGE_BUFFER_SIZE hdr pay junk b w
               = Ok (b1, w, evs1, c)
               ∧ Z.of_nat (length (rxBuff b1)) = BRIDGE_BUFFER_SIZE
               ∧ rx_run b1 = rx_run b
               ∧ set_rxBuff (rxBuff b) b1 = b).
    { assert (Hback1 : set_rxBuff (rxBuff b) (after_header hdr b) = b)
        by (unfold after_header; by destruct b).
      assert (Hback2 : ∀ size,
                 set_rxBuff (rxBuff b)
                   (after_payload size pay (after_header hdr b)) = b)
        by (intros size; unfold after_payload, after_header; by destruct b).
      assert (Hrun1 : rx_run (after_header hdr b) = rx_run b)
        by (unfold after_header; by destruct b).
      assert (Hrun2 : ∀ size,
                 rx_run (after_payload size pay (after_header hdr b))
                 = rx_run b)
        by (intros size; unfold after_payload, after_header; by destruct b).
      unfold RxJob_iter_pipe. fold (after_header hdr b).
      destruct (bool_decide (rf_val hdr = 0) && bool_decide (rf_err hdr = 109));
        [by eexists _, _, _|].
      destruct (bool_decide (rf_val hdr = 0)
                && negb (bool_decide (rf_err hdr = 234)));
        [by eexists _, _, _|].
      rewrite load16_ok by lia. cbn [mbind result_bind].
      case_bool_decide as Hsz; [|by eexists _, _, _].
      fold (after_payload (u16_at (rxBuff (after_header hdr b)) 2) pay
              (after_header hdr b)).
      destruct (bool_decide (rf_val pay = 0) && bool_decide (rf_err pay = 109));
        [eexists _, _, _; split; [done|]; by rewrite Hl2, Hrun2, Hback2|].
      destruct (bool_decide (rf_val pay = 0)
                && negb (bool_decide (rf_err pay = 234)));
        [eexists _, _, _; split; [done|]; by rewrite Hl2, Hrun2, Hback2|].
      rewrite RxJob_process_ok by (done || (by apply Hl2) || lia).
      cbn [mbind result_bind mret result_ret].
      eexists _, _, _; split; [done|]. by rewrite Hl2, Hrun2, Hback2. }
    destruct Hiter as (b1 & evs1 & c & Hit & Hl1' & Hr1 & Hb1).
    rewrite Hit. cbn [mbind result_bind]. destruct c.
    + destruct (IH b1 Hl1' H6) as (b' & evs & Hloop & Hl' & Hb').
      rewrite Hloop. cbn [mbind result_bind mret result_ret].
      exists b', (evs1 ++ evs). split; [done|]. split; [done|].
      destruct b', b1, b; cbn in *.
      inversion Hb1; inversion Hb'; by subst.
    + exists b1, evs1. by split.
Qed.

End MoreReceive.

(** ** Lifecycle of the engines *)

Lemma TxStop_handle (b : Bridge) (os : OS) :
  ∃ b' os', TxStop b os = (0, b', os') ∧ tx_handle_matches_flag b'.
Proof.
  destruct (TxStop_state b os) as (b' & os' & Heq & Hr & Hw & _).
  exists b', os'. split; [done|]. unfold tx_handle_matches_flag.
  by rewrite Hr, Hw.
Qed.

Lemma TxStart_handle (env : init_answers) (b : Bridge) (os : OS) :
  tx_handle_matches_flag b →
  ∃ err b' os',
    TxStart env b os = Ok (err, b', os') ∧ tx_handle_matches_flag b'.
Proof.
  intros Hinv.
  assert (Hstate : tx_run b = true ∨ tx_worker b = NotJoinable).
  { unfold tx_handle_matches_flag in Hinv. destruct (tx_run b); auto. }
  destruct (decide (socket_ret env < 0 ∨ bind_ret env < 0)) as [Hfail|Hok].
  - destruct (TxStart_failure env b os Hfail Hstate)
      as (err & b' & os' & Heq & _ & Hr & Hw).
    exists err, b', os'. split; [done|]. unfold tx_handle_matches_flag.
    by rewrite Hr, Hw.
  - destruct (TxStart_success env b os) as (b' & os' & Heq & Hr & Hw & _);
      [lia | lia | done |].
    exists 0, b', os'. split; [done|]. unfold tx_handle_matches_flag.
    by rewrite Hr, Hw.
Qed.

(** X13. Calls of [TxStart] and [TxStop] in any order and with any answers of
    [socket] and [bind], on a bridge whose transmit handle has a thread
    exactly when [tx_run] is set (a bridge just constructed is one): no
    call assigns a thread to a handle that has one, and the handle and the
    flag agree again after the last call. *)
Theorem run_tx_calls_keeps_handle (cs : list tx_call) (b : Bridge) (os : OS) :
  tx_handle_matches_flag b →
  ∃ b' os',
    run_tx_calls cs b os = Ok (b', os') ∧ tx_handle_matches_flag b'.
Proof.
  revert b os. induction cs as [|c cs IH]; intros b os Hinv.
  - by exists b, os.
  - destruct c as [env|]; cbn [run_tx_calls].
    + destruct (TxStart_handle env b os Hinv) as (err & b1 & os1 & Heq & Hinv1).
      rewrite Heq. cbn [mbind result_bind]. by apply IH.
    + destruct (TxStop_handle b os) as (b1 & os1 & Heq & Hinv1).
      rewrite Heq. by apply IH.
Qed.

Lemma RxStart_fresh (env : init_answers) (b : Bridge) (os : OS) :
  rx_run b = false → rx_worker b = NotJoinable →
  0 ≤ socket_ret env → 0 ≤ bind_ret env →
  ∃ os',
    RxStart env b os
    = Ok (0, set_rx_worker Joinable
               (set_rx_run true (set_rx_sock (socket_ret env) b)), os').
Proof.
  intros Hrun Hw Hs Hb. unfold RxStart, InitRxBridge. rewrite Hrun.
  cbn [rx_sock set_rx_sock].
  rewrite !bool_decide_false by lia.
  cbn [rx_worker set_rx_run set_rx_sock]. rewrite Hw.
  cbn [spawn mbind result_bind mret result_ret]. by eexists.
Qed.

(** X14. The receive engine does not have that property. Started, its worker
    meets -1 from [recv] and leaves [RxJob] with [rx_run] cleared; the
    handle still has the finished thread. A second [RxStart] then skips
    [RxStop] and assigns to the handle, which ends the process; with
    [RxStop] called in between the second start succeeds. *)
Theorem RxStart_after_disconnect (BRIDGE_BUFFER_SIZE : Z)
    (env env' : init_answers) (cenv : connect_answers) (junk : Z)
    (rs : list (recv_result * Z)) (b : Bridge) (w : World) (os : OS) :
  rx_run b = false → rx_worker b = NotJoinable →
  0 ≤ socket_ret env → 0 ≤ bind_ret env →
  listen_ret cenv = 0 → 0 ≤ accept_ret cenv →
  Z.of_nat (length (rxBuff b)) = BRIDGE_BUFFER_SIZE →
  6 ≤ BRIDGE_BUFFER_SIZE →
  0 ≤ socket_ret env' → 0 ≤ bind_ret env' →
  ∃ b1 os1 b2 evs,
    RxStart env b os = Ok (0, b1, os1)
    ∧ RxJob BRIDGE_BUFFER_SIZE cenv ((RecvError, junk) :: rs) b1 w
      = Ok (b2, w, evs)
    ∧ rx_run b2 = false
    ∧ RxStart env' b2 os1 = Fault ThreadTerminate
    ∧ ∃ b3 os3 b4 os4,
        RxStop b2 os1 = (0, b3, os3)
        ∧ RxStart env' b3 os3 = Ok (0, b4, os4)
        ∧ rx_run b4 = true.
Proof.
  intros Hrun Hw Hs Hb Hl Ha Hlen H6 Hs' Hb'.
  destruct (RxStart_fresh env b os Hrun Hw Hs Hb) as [os1 Hstart].
  set (b1 := set_rx_worker Joinable
               (set_rx_run true (set_rx_sock (socket_ret env) b))) in *.
  set (b1' := set_client_rx_sock (accept_ret cenv) b1).
  destruct (RxJob_exits_on_error BRIDGE_BUFFER_SIZE junk rs b1' w)
    as (evs & Hloop & _); [done | by destruct b | by destruct b |].
  assert (Hjob : RxJob BRIDGE_BUFFER_SIZE cenv ((RecvError, junk) :: rs) b1 w
                 = Ok (set_rx_run false b1', w,
                       EvLog "rx_sock: listening for clients"
                       :: EvLog "rx_sock: client connected" :: evs)).
  { unfold RxJob.
    replace (rx_sock b1) with (socket_ret env) by (by destruct b).
    rewrite bool_decide_false by lia.
    rewrite bool_decide_false by (intros Hne; apply Hne; by rewrite Hl).
    cbn [client_rx_sock set_client_rx_sock].
    rewrite bool_decide_false by lia.
    fold b1'. by rewrite Hloop. }
  destruct (RxStop_state (set_rx_run false b1') os1)
    as (b3 & os3 & Heq & Hr3 & Hw3 & Hs3).
  destruct (RxStart_fresh env' b3 os3 Hr3 Hw3 Hs' Hb') as [os4 Hstart'].
  eexists b1, os1, (set_rx_run false b1'), _.
  split; [done|]. split; [exact Hjob|]. split; [by destruct b|].
  split.
  - apply RxStart_after_worker_exit; (done || by destruct b).
  - eexists _, _, _, _. split; [exact Heq|]. split; [exact Hstart'|].
    by destruct b3.
Qed.

(** X15. [TxStop] on an engine with a listening socket closes that socket and
    removes its path, and forgets the descriptor of the accepted client
    without closing it: [client_tx_sock] is -1 afterwards and the
    descriptor is still open. *)
Theorem TxStop_leaves_client_open (b : Bridge) (os : OS) :
  tx_sock b ≠ -1 →
  client_tx_sock b ∈ open_fds os →
  client_tx_sock b ≠ tx_sock b →
  ∃ b' os',
    TxStop b os = (0, b', os')
    ∧ tx_sock b' = -1 ∧ client_tx_sock b' = -1
    ∧ open_fds os' = open_fds os ∖ {[tx_sock b]}
    ∧ client_tx_sock b ∈ open_fds os'
    ∧ socket_files os' = socket_files os ∖ {[tx_connection_string b]}.
Proof.
  intros Hs Hin Hne. unfold TxStop.
  cbn [tx_sock set_tx_worker set_tx_run].
  rewrite bool_decide_true by done.
  eexists _, _. split; [done|].
  cbn [tx_sock client_tx_sock set_client_tx_sock set_tx_sock
       tx_connection_string set_tx_worker set_tx_run].
  split; [done|]. split; [done|].
  unfold sys_unlink, sys_close. cbn [open_fds socket_files].
  split; [done|]. split; [set_solver|done].
Qed.





(** ** Lifecycle of the transmit engine, named-pipe build *)

Lemma Pipe_TxStop_consistent (b : Pipe.Bridge) (handles : gset Z) :
  Pipe.consistent b handles →
  ∃ b',
    Pipe.TxStop b handles = (0, b', ∅)
    ∧ Pipe.consistent b' ∅
    ∧ Pipe.tx_run b' = false.
Proof.
  intros (Hh & Hw & Hr). unfold Pipe.TxStop. cbn [Pipe.tx_hPipe].
  destruct b as [r t h].
  cbn [Pipe.tx_hPipe Pipe.tx_run Pipe.tx_worker] in *.
  assert (Hstopped : ∀ t',
             Pipe.consistent
               {| Pipe.tx_run := false; Pipe.tx_worker := join_if_joinable t';
                  Pipe.tx_hPipe := Pipe.INVALID_HANDLE_VALUE |} ∅).
  { intros t'. unfold Pipe.consistent.
    cbn [Pipe.tx_hPipe Pipe.tx_run Pipe.tx_worker].
    rewrite bool_decide_true by done.
    split; [done|]. split; [by destruct t'|]. split; [done|].
    intros Hx. by destruct Hx. }
  destruct (decide (h = Pipe.INVALID_HANDLE_VALUE)) as [Hv|Hv].
  - rewrite bool_decide_true in Hh by done. subst handles h.
    rewrite bool_decide_false by (intros Hx; by apply Hx).
    eexists. split; [done|]. split; [apply Hstopped | done].
  - rewrite bool_decide_false in Hh by done. subst handles.
    rewrite bool_decide_true by (intros Hx; by apply Hv).
    eexists. split; [|split; [apply Hstopped | done]].
    do 2 f_equal. unfold Pipe.CloseHandle. apply difference_diag_L.
Qed.

Lemma Pipe_TxStart_consistent (created : Z) (b : Pipe.Bridge)
    (handles : gset Z) :
  Pipe.consistent b handles →
  ∃ b' handles',
    Pipe.TxStart created b handles
    = Ok (if bool_decide (created = Pipe.INVALID_HANDLE_VALUE) then 1 else 0,
          b', handles')
    ∧ Pipe.consistent b' handles'
    ∧ Pipe.tx_hPipe b' = created.
Proof.
  intros Hc.
  assert (Hpre : ∃ b1,
             (if Pipe.tx_run b
              then let '(_, b', hs') := Pipe.TxStop b handles in (b', hs')
              else (b, handles)) = (b1, ∅)
             ∧ Pipe.consistent b1 ∅ ∧ Pipe.tx_run b1 = false).
  { destruct (Pipe.tx_run b) eqn:Hrun.
    - destruct (Pipe_TxStop_consistent b handles Hc) as (b1 & Heq & Hc1 & Hr1).
      exists b1. by rewrite Heq.
    - exists b. destruct Hc as (Hh & Hw & Hr).
      assert (Hinv : Pipe.tx_hPipe b = Pipe.INVALID_HANDLE_VALUE).
      { destruct (decide (Pipe.tx_hPipe b = Pipe.INVALID_HANDLE_VALUE));
          [done|]. destruct Hr as [_ Hr]. rewrite Hrun in Hr.
        by specialize (Hr ltac:(done)). }
      rewrite bool_decide_true in Hh by done. subst handles.
      split; [done|]. split; [|done].
      unfold Pipe.consistent. rewrite bool_decide_true by done.
      by rewrite Hrun in *. }
  destruct Hpre as (b1 & Heq & (Hh1 & Hw1 & Hr1) & Hrun1).
  unfold Pipe.TxStart. rewrite Heq.
  assert (Hinv : Pipe.tx_hPipe b1 = Pipe.INVALID_HANDLE_VALUE).
  { destruct (decide (Pipe.tx_hPipe b1 = Pipe.INVALID_HANDLE_VALUE));
      [done|]. destruct Hr1 as [_ Hr1]. rewrite Hrun1 in Hr1.
    by specialize (Hr1 ltac:(done)). }
  unfold Pipe.InitTxBridge.
  rewrite bool_decide_false by (intros Hx; by apply Hx).
  cbn [Pipe.tx_hPipe Pipe.tx_run Pipe.tx_worker].
  rewrite Hrun1 in Hw1. rewrite Hw1.
  unfold Pipe.CreateNamedPipe. clear Hh1.
  destruct (decide (created = Pipe.INVALID_HANDLE_VALUE)) as [Hcr|Hcr].
  - rewrite !(bool_decide_true (created = _)) by done.
    rewrite bool_decide_true by done.
    eexists _, _. split; [done|]. split; [|done].
    unfold Pipe.consistent. cbn [Pipe.tx_hPipe Pipe.tx_run Pipe.tx_worker].
    rewrite bool_decide_true by done.
    rewrite Hrun1. split; [done|]. split; [done|]. split; [done|].
    intros Hx. by destruct Hx.
  - rewrite !(bool_decide_false (created = _)) by done.
    rewrite bool_decide_false by (intros Hx; by apply Hx).
    cbn [Pipe.tx_hPipe Pipe.tx_run Pipe.tx_worker
         spawn mbind result_bind mret result_ret].
    eexists _, _. split; [done|]. split; [|done].
    unfold Pipe.consistent. cbn [Pipe.tx_hPipe Pipe.tx_run Pipe.tx_worker].
    rewrite bool_decide_false by done.
    split; [by rewrite union_empty_r_L|]. done.
Qed.


(** X19. Named-pipe build: [TxStart] on a consistent engine returns 1 when
    [CreateNamedPipe] fails and 0 otherwise; the code 2 of [InitTxBridge],
    for a handle that is already held, is never returned by a start. *)
Theorem Pipe_TxStart_never_2 (created : Z) (b : Pipe.Bridge)
    (handles : gset Z) :
  Pipe.consistent b handles →
  ∃ b' handles',
    Pipe.TxStart created b handles
    = Ok (if bool_decide (created = Pipe.INVALID_HANDLE_VALUE) then 1 else 0,
          b', handles')
    ∧ (Pipe.tx_run b' = true ↔ created ≠ Pipe.INVALID_HANDLE_VALUE)
    ∧ handles' = (if bool_decide (created = Pipe.INVALID_HANDLE_VALUE)
                  then ∅ else {[created]}).
Proof.
  intros Hc.
  destruct (Pipe_TxStart_consistent created b handles Hc)
    as (b' & hs' & Heq & (Hh & Hw & Hr) & Hp).
  exists b', hs'. split; [done|].
  rewrite Hp in *. done.
Qed.

(** ** The test client of the user interface *)

Lemma points_of_cons (i : nat) (v : Z) (bytes : list Z) :
  TestPoints.points_of i (v :: bytes)
  = Some {| TestPoints.x := Z.of_nat i; TestPoints.y := v |}
    :: TestPoints.points_of (S i) bytes.
Proof.
  unfold TestPoints.points_of. cbn [imap]. rewrite Nat.add_0_r. f_equal.
  apply imap_ext. intros k z _. cbn. do 3 f_equal. lia.
Qed.

Lemma length_points_of (i : nat) (bytes : list Z) :
  length (TestPoints.points_of i bytes) = length bytes.
Proof. unfold TestPoints.points_of. apply length_imap. Qed.

Lemma points_of_app (i : nat) (bs1 bs2 : list Z) :
  TestPoints.points_of i (bs1 ++ bs2)
  = TestPoints.points_of i bs1 ++ TestPoints.points_of (i + length bs1) bs2.
Proof.
  revert i. induction bs1 as [|v bs1 IH]; intros i.
  - cbn [app length]. by rewrite Nat.add_0_r.
  - cbn [app length]. rewrite !points_of_cons, IH. cbn [app].
    do 3 f_equal. lia.
Qed.

Lemma drop_points_of (k i : nat) (bytes : list Z) :
  drop k (TestPoints.points_of i bytes)
  = TestPoints.points_of (i + k) (drop k bytes).
Proof.
  revert i bytes. induction k as [|k IH]; intros i bytes.
  - by rewrite !drop_0, Nat.add_0_r.
  - destruct bytes as [|v bytes]; [done|].
    rewrite points_of_cons. cbn [drop]. rewrite IH. f_equal. lia.
Qed.

(** The array after one store at an index up to its length: no hole. *)
Lemma array_set_inside {A : Type} (a : list (option A)) (i : nat) (v : A) :
  (i ≤ length a)%nat →
  TestPoints.array_set a i v = take i a ++ Some v :: drop (S i) a.
Proof.
  intros Hi. unfold TestPoints.array_set. case_bool_decide as Hlt.
  - by apply insert_take_drop.
  - assert (i = length a) as -> by lia.
    rewrite Nat.sub_diag, firstn_all, drop_ge by lia. done.
Qed.

(** The loop of lines 72-74 from index [i]. *)
Lemma fill_from_spec (bytes : list Z) (i : nat)
    (a : list (option TestPoints.point)) :
  (i ≤ length a)%nat →
  TestPoints.fill_from i bytes a
  = take i a ++ TestPoints.points_of i bytes ++ drop (i + length bytes) a.
Proof.
  revert i a. induction bytes as [|v bytes IH]; intros i a Hi.
  - cbn [TestPoints.fill_from length]. unfold TestPoints.points_of.
    cbn [imap app]. by rewrite Nat.add_0_r, take_drop.
  - cbn [TestPoints.fill_from length].
    rewrite array_set_inside by done.
    rewrite IH by (rewrite length_app, length_take; cbn [length]; lia).
    rewrite points_of_cons.
    assert (Hpre : length (take i a ++ [Some {| TestPoints.x := Z.of_nat i;
                                                 TestPoints.y := v |}])
                   = S i)
      by (rewrite length_app, length_take; cbn [length]; lia).
    replace (take i a
             ++ Some {| TestPoints.x := Z.of_nat i; TestPoints.y := v |}
                :: drop (S i) a)
      with ((take i a ++ [Some {| TestPoints.x := Z.of_nat i;
                                  TestPoints.y := v |}])
            ++ drop (S i) a)
      by (by rewrite <- app_assoc).
    rewrite take_app_length' by done.
    rewrite drop_app_add' by done.
    rewrite drop_drop, <- !app_assoc. cbn [app].
    by replace (S i + length bytes)%nat with (i + S (length bytes))%nat by lia.
Qed.

Lemma init_from_spec (n : nat) (a : list (option TestPoints.point)) :
  TestPoints.init_from n (length a) a
  = a ++ TestPoints.points_of (length a) (replicate n 0).
Proof.
  revert a. induction n as [|n IH]; intros a.
  - cbn [TestPoints.init_from replicate]. unfold TestPoints.points_of.
    cbn [imap]. by rewrite app_nil_r.
  - cbn [TestPoints.init_from replicate].
    rewrite array_set_inside by done.
    rewrite firstn_all, drop_ge by lia.
    replace (S (length a))
      with (length (a ++ [Some {| TestPoints.x := Z.of_nat (length a);
                                  TestPoints.y := 0 |}]))
      by (rewrite length_app; cbn [length]; lia).
    rewrite IH, points_of_cons, <- app_assoc. cbn [app].
    do 3 f_equal. rewrite length_app. cbn [length]. lia.
Qed.

Lemma scope_data_init_points :
  TestPoints.scope_data_init = TestPoints.points_of 0 (replicate 1024 0).
Proof. apply (init_from_spec 1024 []). Qed.

(** X20. The payload callback overwrites the points at the indexes of the
    payload and no other: a payload shorter than [scope_data] leaves the
    points behind it as they were, a longer one makes the array longer;
    and the client is ready for the next [update]. *)
Theorem on_payload_overwrites_prefix (nestedBytes : list Z)
    (st : TestPoints.state) :
  TestPoints.ready (TestPoints.on_payload nestedBytes st) = true
  ∧ TestPoints.getData (TestPoints.on_payload nestedBytes st)
    = TestPoints.points_of 0 nestedBytes
      ++ drop (length nestedBytes) (TestPoints.scope_data st)
  ∧ length (TestPoints.getData (TestPoints.on_payload nestedBytes st))
    = (length nestedBytes `max` length (TestPoints.scope_data st))%nat.
Proof.
  unfold TestPoints.on_payload, TestPoints.getData.
  cbn [TestPoints.ready TestPoints.scope_data].
  rewrite fill_from_spec by lia. rewrite take_0. cbn [app Nat.add].
  split; [done|]. split; [done|].
  rewrite length_app, length_points_of, length_drop. lia.
Qed.

(** X21. [scope_data] from the load of the module on, through any payloads:
    every slot holds a point, the point of slot [i] has [x = i], and there
    are never fewer than the 1024 points of lines 4-8. *)
Theorem scope_data_stays_indexed (payloads : list (list Z)) (r : bool) :
  ∃ ys,
    TestPoints.getData
      (foldl (λ st p, TestPoints.on_payload p st)
         {| TestPoints.ready := r;
            TestPoints.scope_data := TestPoints.scope_data_init |}
         payloads)
    = TestPoints.points_of 0 ys
    ∧ (1024 ≤ length ys)%nat.
Proof.
  assert (Hgen : ∀ st ys,
             TestPoints.scope_data st = TestPoints.points_of 0 ys →
             (1024 ≤ length ys)%nat →
             ∃ ys',
               TestPoints.getData
                 (foldl (λ st p, TestPoints.on_payload p st) st payloads)
               = TestPoints.points_of 0 ys'
               ∧ (1024 ≤ length ys')%nat).
  { induction payloads as [|p payloads IH]; intros st ys Hst Hlen.
    - by exists ys.
    - cbn [foldl].
      apply (IH _ (p ++ drop (length p) ys)).
      + unfold TestPoints.on_payload. cbn [TestPoints.scope_data].
        rewrite fill_from_spec by lia. rewrite take_0. cbn [app Nat.add].
        by rewrite Hst, points_of_app, drop_points_of.
      + rewrite length_app, length_drop. lia. }
  apply (Hgen _ (replicate 1024 0)).
  - apply scope_data_init_points.
  - by rewrite length_replicate.
Qed.

Lemma update_not_ready (st : TestPoints.state) :
  TestPoints.ready st = false → TestPoints.update st = (st, []).
Proof. intros Hr. unfold TestPoints.update. by rewrite Hr. Qed.

(** X22. One exchange at a time: after an [update], further calls of [update]
    write nothing and change nothing, however many there are, until the
    payload callback has run; the [update] after that writes the test
    packet again. *)
Theorem update_writes_once_per_payload (st : TestPoints.state) (n : nat)
    (nestedBytes : list Z) :
  TestPoints.update
    (Nat.iter n (λ s, (TestPoints.update s).1) (TestPoints.update st).1)
  = ((TestPoints.update st).1, [])
  ∧ (TestPoints.update
       (TestPoints.on_payload nestedBytes (TestPoints.update st).1)).2
    = [TestPoints.Write TestPoints.testPacket].
Proof.
  assert (Hr : TestPoints.ready (TestPoints.update st).1 = false).
  { unfold TestPoints.update. by destruct (TestPoints.ready st) eqn:Hr. }
  split; [|done].
  induction n as [|n IH].
  - by apply update_not_ready.
  - rewrite Nat.iter_succ, IH. cbn [fst]. by apply update_not_ready.
Qed.

(** X23. The client against the frames of the bridge. Given the six header
    bytes of a frame, the header callback asks for exactly [dataSize]
    bytes; given the payload, the payload callback shows it: point [i] of
    [scope_data] is [{x: i, y: payload[i]}]. *)
Theorem TestPoints_reads_frame (it : EVPacket * list Z)
    (st : TestPoints.state) :
  packet_ok it.1 it.2 →
  TestPoints.on_header (take 6 (frame_of it)) st
  = Some (st, [TestPoints.Read (length it.2)])
  ∧ take (length it.2)
      (TestPoints.getData (TestPoints.on_payload (drop 6 (frame_of it)) st))
    = TestPoints.points_of 0 it.2.
Proof.
  intros (Hc & Hp & Hs & Hsz). unfold frame_of.
  rewrite take_app_length' by (by rewrite length_header_bytes).
  rewrite drop_app_length' by (by rewrite length_header_bytes).
  split.
  - unfold TestPoints.on_header, TestPoints.bytes16_at.
    rewrite length_header_bytes. cbn [Nat.even].
    rewrite bool_decide_true by lia. cbn [mbind option_bind].
    destruct (u16_at_header (command it.1) (packetID it.1) (dataSize it.1) []
                Hc Hp Hs) as (_ & _ & L2).
    rewrite app_nil_r in L2. rewrite L2. cbn [TestPoints.Uint8Array_length].
    by rewrite Hsz, Nat2Z.id.
  - unfold TestPoints.on_payload, TestPoints.getData.
    cbn [TestPoints.scope_data].
    rewrite fill_from_spec by lia. rewrite take_0. cbn [app Nat.add].
    by rewrite take_app_length' by (by rewrite length_points_of).
Qed.

(** X24. A buffer of fewer than six bytes in the header callback: index 2 of
    the 16-bit view is outside it and reads [undefined], and the payload
    read is given an empty buffer; a buffer of odd length is refused by
    the constructor of the view, and the callback throws. *)
Theorem on_header_short_buffer (buffer : list Z) (st : TestPoints.state) :
  (length buffer < 6)%nat →
  TestPoints.on_header buffer st
  = if Nat.even (length buffer) then Some (st, [TestPoints.Read 0]) else None.
Proof.
  intros Hlen. unfold TestPoints.on_header, TestPoints.bytes16_at.
  destruct (Nat.even (length buffer)); [|done].
  by rewrite bool_decide_false by lia.
Qed.

(** X25. The packet the test client writes is a frame of the bridge: a receive
    iteration that [recv] hands these ten bytes prints command 0x1F,
    packetID 0x1F2C and the payload 1, 2, 3, 4, and leaves no block on the
    heap. *)
Theorem TestPoints_packet_received (BRIDGE_BUFFER_SIZE junk : Z) (b : Bridge)
    (w : World) :
  Z.of_nat (length (rxBuff b)) = BRIDGE_BUFFER_SIZE →
  10 ≤ BRIDGE_BUFFER_SIZE →
  ∃ b' evs,
    RxJob_iter_sock BRIDGE_BUFFER_SIZE (RecvBytes TestPoints.testPacket)
      junk b w
    = Ok (b', w, evs, Next)
    ∧ printed_packets evs = [EvPrintPacket 0x1F2C 0x1F 4 [1; 2; 3; 4]].
Proof.
  intros Hlen H10.
  assert (Hframe : TestPoints.testPacket
                   = frame_of ({| command := 0x1F; packetID := 0x1F2C;
                                  dataSize := 4; data := 1%positive |},
                               [1; 2; 3; 4])) by (by vm_compute).
  rewrite Hframe.
  rewrite RxJob_iter_sock_frame.
  - eexists _, _. split; [done|]. done.
  - unfold packet_ok, uint16. cbn. lia.
  - unfold MAX_PAYLOAD. cbn. lia.
  - done.
Qed.

(** ** The further properties at concrete inputs *)

Lemma test_item_ok : packet_ok test_item.1 test_item.2.
Proof. unfold packet_ok, uint16. simpl. lia. Defined.

Lemma test_world_ready :
  tx_ready (length (tx_buff started_tx)) (heap test_world)
    (queue_of test_world _gtxQueue) [test_item].
Proof.
  change (queue_of test_world _gtxQueue) with [1%positive].
  cbn [tx_ready]. split; [reflexivity|]. split; [reflexivity|].
  split; [reflexivity|]. split; [|exact I].
  cbn [started_tx testBridge Bridge_new tx_buff zeroed set_tx_worker
       set_tx_run set_tx_sock test_item snd].
  rewrite length_replicate. simpl. lia.
Defined.

Lemma zeroed_4096_rxBuff : Z.of_nat (length (rxBuff (zeroed 4096))) = 4096.
Proof. cbn [zeroed rxBuff]. rewrite length_replicate. reflexivity. Defined.

Lemma receiving_rxBuff : Z.of_nat (length (rxBuff receiving)) = 4096.
Proof. exact zeroed_4096_rxBuff. Defined.

Lemma TxJob_sends_queue_in_order_witness :
  tx_sock started_tx ≠ -1
  ∧ listen_ret client_on_5 = 0
  ∧ 0 ≤ accept_ret client_on_5
  ∧ _txQueue started_tx = _gtxQueue
  ∧ tx_run started_tx = true
  ∧ ∃ b' w' evs,
      TxJob client_on_5 1 started_tx test_world = Ok (b', w', evs)
      ∧ sent_frames evs = [full_frame]
      ∧ queue_of w' _gtxQueue = [].
Proof.
  assert (H1 : tx_sock started_tx ≠ -1) by discriminate.
  assert (H2 : listen_ret client_on_5 = 0) by reflexivity.
  assert (H3 : 0 ≤ accept_ret client_on_5) by (simpl; lia).
  assert (H4 : _txQueue started_tx = _gtxQueue) by reflexivity.
  assert (H5 : tx_run started_tx = true) by reflexivity.
  do 5 (split; [assumption|]).
  destruct (TxJob_sends_queue_in_order client_on_5 [test_item] started_tx
              test_world H1 H2 H3 H4 H5 test_world_ready)
    as (b' & w' & evs & Hrun & Hsent & _ & Hq).
  exists b', w', evs. split; [exact Hrun|]. split; [exact Hsent | exact Hq].
Defined.

Lemma TxJob_iter_touches_front_only_witness :
  queue_of test_world (_txQueue started_tx) ≠ []
  ∧ queue_of test_world _gtxQueue = [1%positive]
  ∧ heap test_world !! 1%positive = Some (BPacket testPacket)
  ∧ heap test_world !! data testPacket = Some (BData [1; 2; 3; 4; 5])
  ∧ ∃ b' w' evs,
      TxJob_iter started_tx test_world = Ok (b', w', evs)
      ∧ queue_of w' _gtxQueue = []
      ∧ heap w' !! 1%positive = None
      ∧ heap w' !! 2%positive = Some (BData [1; 2; 3; 4; 5])
      ∧ set_tx_buff (tx_buff started_tx) b' = started_tx.
Proof.
  assert (H1 : queue_of test_world (_txQueue started_tx) ≠ []) by discriminate.
  assert (H2 : queue_of test_world _gtxQueue = [1%positive]) by reflexivity.
  assert (H3 : heap test_world !! 1%positive = Some (BPacket testPacket))
    by reflexivity.
  assert (H4 : heap test_world !! data testPacket
               = Some (BData [1; 2; 3; 4; 5])) by reflexivity.
  assert (H5 : dataSize testPacket = Z.of_nat (length [1; 2; 3; 4; 5]))
    by reflexivity.
  assert (H6 : (6 + length [1; 2; 3; 4; 5] ≤ length (tx_buff started_tx))%nat).
  { cbn [started_tx testBridge Bridge_new tx_buff zeroed set_tx_worker
         set_tx_run set_tx_sock].
    rewrite length_replicate. simpl. lia. }
  do 4 (split; [assumption|]).
  destruct (TxJob_iter_touches_front_only started_tx test_world 1%positive []
              testPacket [1; 2; 3; 4; 5] H1 H2 H3 H4 H5 H6)
    as (b' & w' & evs & Hit & Hq & _ & Hfreed & Hkept & Hb & _).
  exists b', w', evs. split; [exact Hit|]. split; [exact Hq|].
  split; [exact Hfreed|]. split; [|exact Hb].
  exact (eq_trans (Hkept 2%positive ltac:(discriminate)) H4).
Defined.


Lemma TxJob_without_client_witness :
  tx_sock (testBridge "/tmp/" 4096) = -1
  ∧ ∃ b' evs,
      TxJob client_on_5 1 (testBridge "/tmp/" 4096) test_world
      = Ok (b', test_world, evs)
      ∧ sent_frames evs = []
      ∧ tx_run b' = tx_run (testBridge "/tmp/" 4096)
      ∧ tx_buff b' = tx_buff (testBridge "/tmp/" 4096).
Proof.
  split; [reflexivity|].
  exact (TxJob_without_client client_on_5 1 (testBridge "/tmp/" 4096)
           test_world (or_introl eq_refl)).
Defined.

Lemma FreePacket_releases_exactly_two_witness :
  heap test_world !! 1%positive = Some (BPacket testPacket)
  ∧ heap test_world !! data testPacket = Some (BData [1; 2; 3; 4; 5])
  ∧ ∃ h',
      FreePacket (heap test_world) 1%positive = Ok h'
      ∧ h' !! 1%positive = None
      ∧ h' !! data testPacket = None
      ∧ FreePacket h' 1%positive = Fault InvalidPointer.
Proof.
  split; [reflexivity|]. split; [reflexivity|].
  destruct (FreePacket_releases_exactly_two (heap test_world) 1%positive
              testPacket [1; 2; 3; 4; 5] eq_refl eq_refl)
    as (h' & Hfree & Hp & Hd & _ & Hagain).
  exists h'. split; [exact Hfree|]. split; [exact Hp|].
  split; [exact Hd | exact Hagain].
Defined.

Lemma RxJob_iter_sock_first_frame_only_witness :
  packet_ok test_item.1 test_item.2
  ∧ dataSize test_item.1 ≤ MAX_PAYLOAD 4096
  ∧ Z.of_nat (length (rxBuff (zeroed 4096))) = 4096
  ∧ ∃ b' evs,
      RxJob_iter_sock 4096 (RecvBytes (frame_of test_item ++ full_frame)) 0
        (zeroed 4096) empty_world
      = Ok (b', empty_world, evs, Next)
      ∧ printed_packets evs = [printed_of test_item]
      ∧ read_requests evs = [EvRecv (client_rx_sock (zeroed 4096)) 4096].
Proof.
  assert (Hmax : dataSize test_item.1 ≤ MAX_PAYLOAD 4096)
    by (unfold MAX_PAYLOAD; simpl; lia).
  split; [exact test_item_ok|]. split; [exact Hmax|].
  split; [exact zeroed_4096_rxBuff|].
  exact (RxJob_iter_sock_first_frame_only 4096 test_item full_frame 0
           (zeroed 4096) empty_world test_item_ok Hmax zeroed_4096_rxBuff).
Defined.

Lemma loopback_in_order_witness :
  _txQueue started_tx = _gtxQueue
  ∧ tx_run started_tx = true
  ∧ rx_run receiving = true
  ∧ Z.of_nat (length (rxBuff receiving)) = 4096
  ∧ ∃ tb' tw' evs_tx rb' evs_rx,
      TxJob_loop 1 started_tx test_world = Ok (tb', tw', evs_tx)
      ∧ RxJob_loop_sock 4096
          (map (λ f, (RecvBytes f, 0)) (sent_frames evs_tx)) receiving
          empty_world
        = Ok (rb', empty_world, evs_rx)
      ∧ printed_packets evs_rx = [EvPrintPacket 0x0808 1 5 [1; 2; 3; 4; 5]].
Proof.
  assert (Hall : Forall (λ it, packet_ok it.1 it.2
                               ∧ dataSize it.1 ≤ MAX_PAYLOAD 4096)
                   [test_item]).
  { constructor; [|constructor].
    split; [exact test_item_ok|]. unfold MAX_PAYLOAD. simpl. lia. }
  split; [reflexivity|]. split; [reflexivity|]. split; [reflexivity|].
  split; [exact receiving_rxBuff|].
  exact (loopback_in_order 4096 [test_item] 0 started_tx test_world receiving
           empty_world eq_refl eq_refl test_world_ready Hall eq_refl
           receiving_rxBuff ltac:(lia)).
Defined.

Lemma RxJob_loop_sock_keeps_world_witness :
  Z.of_nat (length (rxBuff receiving)) = 4096
  ∧ 6 ≤ 4096
  ∧ ∃ b' evs,
      RxJob_loop_sock 4096
        [(RecvBytes full_frame, 0); (RecvShutdown, 0); (RecvError, 0)]
        receiving test_world
      = Ok (b', test_world, evs)
      ∧ Z.of_nat (length (rxBuff b')) = 4096
      ∧ sent_frames evs = []
      ∧ set_rx_run (rx_run receiving) (set_rxBuff (rxBuff receiving) b')
        = receiving.
Proof.
  assert (H6 : 6 ≤ 4096) by lia.
  split; [exact receiving_rxBuff|]. split; [exact H6|].
  exact (RxJob_loop_sock_keeps_world 4096
           [(RecvBytes full_frame, 0); (RecvShutdown, 0); (RecvError, 0)]
           receiving test_world receiving_rxBuff H6).
Defined.

Lemma RxJob_error_reprints_last_packet_witness :
  packet_ok test_item.1 test_item.2
  ∧ dataSize test_item.1 ≤ MAX_PAYLOAD 4096
  ∧ rx_run receiving = true
  ∧ ∃ b' evs,
      RxJob_loop_sock 4096
        [(RecvBytes (frame_of test_item), 0); (RecvError, 0)]
        receiving empty_world
      = Ok (b', empty_world, evs)
      ∧ printed_packets evs = [printed_of test_item; printed_of test_item]
      ∧ rx_run b' = false.
Proof.
  assert (Hmax : dataSize test_item.1 ≤ MAX_PAYLOAD 4096)
    by (unfold MAX_PAYLOAD; simpl; lia).
  split; [exact test_item_ok|]. split; [exact Hmax|]. split; [reflexivity|].
  exact (RxJob_error_reprints_last_packet 4096 test_item 0 0 [] receiving
           empty_world test_item_ok Hmax receiving_rxBuff eq_refl).
Defined.

Lemma RxJob_iter_pipe_frame_witness :
  dataSize test_item.1 < 4096 - 6
  ∧ read_accepted header_read
  ∧ rf_bytes header_read
    = header_bytes (command test_item.1) (packetID test_item.1)
        (dataSize test_item.1)
  ∧ read_accepted payload_read
  ∧ ∃ b' evs,
      RxJob_iter_pipe 4096 header_read payload_read 0 (zeroed 4096)
        empty_world
      = Ok (b', empty_world, evs, Next)
      ∧ printed_packets evs = [printed_of test_item]
      ∧ read_requests evs
        = [EvReadFile 0 6; EvReadFile 6 (dataSize test_item.1)]
      ∧ take (6 + length test_item.2) (rxBuff b') = frame_of test_item.
Proof.
  assert (Hmax : dataSize test_item.1 < 4096 - 6) by (simpl; lia).
  assert (Hh : read_accepted header_read) by (left; discriminate).
  assert (Hp : read_accepted payload_read) by (left; discriminate).
  split; [exact Hmax|]. split; [exact Hh|]. split; [reflexivity|].
  split; [exact Hp|].
  exact (RxJob_iter_pipe_frame 4096 test_item header_read payload_read 0
           (zeroed 4096) empty_world test_item_ok Hmax zeroed_4096_rxBuff
           Hh eq_refl Hp eq_refl).
Defined.

Lemma RxJob_loop_pipe_breaks_on_error_witness :
  rx_run receiving = true
  ∧ rf_val failed_read = 0
  ∧ rf_err failed_read ≠ 109
  ∧ rf_err failed_read ≠ 234
  ∧ ∃ b' evs,
      RxJob_loop_pipe 4096
        [(failed_read, payload_read, 0); (header_read, payload_read, 0)]
        receiving empty_world
      = Ok (b', empty_world, evs)
      ∧ read_requests evs = [EvReadFile 0 6]
      ∧ printed_packets evs = []
      ∧ rx_run b' = true.
Proof.
  assert (H109 : rf_err failed_read ≠ 109) by discriminate.
  assert (H234 : rf_err failed_read ≠ 234) by discriminate.
  split; [reflexivity|]. split; [reflexivity|]. split; [exact H109|].
  split; [exact H234|].
  exact (RxJob_loop_pipe_breaks_on_error 4096 failed_read payload_read 0
           [(header_read, payload_read, 0)] receiving empty_world
           eq_refl eq_refl H109 H234).
Defined.

Lemma RxJob_loop_pipe_keeps_world_witness :
  Z.of_nat (length (rxBuff receiving)) = 4096
  ∧ 6 ≤ 4096
  ∧ ∃ b' evs,
      RxJob_loop_pipe 4096
        [(header_read, payload_read, 0); (failed_read, payload_read, 0)]
        receiving test_world
      = Ok (b', test_world, evs)
      ∧ Z.of_nat (length (rxBuff b')) = 4096
      ∧ set_rxBuff (rxBuff receiving) b' = receiving.
Proof.
  assert (H6 : 6 ≤ 4096) by lia.
  split; [exact receiving_rxBuff|]. split; [exact H6|].
  exact (RxJob_loop_pipe_keeps_world 4096
           [(header_read, payload_read, 0); (failed_read, payload_read, 0)]
           receiving test_world receiving_rxBuff H6).
Defined.

Lemma run_tx_calls_keeps_handle_witness :
  tx_handle_matches_flag (testBridge "/tmp/" 4096)
  ∧ ∃ b' os',
      run_tx_calls
        [CallTxStart {| socket_ret := 3; bind_ret := 0 |};
         CallTxStart {| socket_ret := 4; bind_ret := -1 |};
         CallTxStart {| socket_ret := 6; bind_ret := 0 |};
         CallTxStop]
        (testBridge "/tmp/" 4096) no_resources
      = Ok (b', os')
      ∧ tx_handle_matches_flag b'.
Proof.
  assert (H : tx_handle_matches_flag (testBridge "/tmp/" 4096))
    by reflexivity.
  split; [exact H|].
  exact (run_tx_calls_keeps_handle _ (testBridge "/tmp/" 4096) no_resources H).
Defined.

Lemma RxStart_after_disconnect_witness :
  rx_run (testBridge "/tmp/" 4096) = false
  ∧ rx_worker (testBridge "/tmp/" 4096) = NotJoinable
  ∧ Z.of_nat (length (rxBuff (testBridge "/tmp/" 4096))) = 4096
  ∧ ∃ b1 os1 b2 evs,
      RxStart {| socket_ret := 4; bind_ret := 0 |} (testBridge "/tmp/" 4096)
        no_resources
      = Ok (0, b1, os1)
      ∧ RxJob 4096 client_on_5 [(RecvError, 0)] b1 empty_world
        = Ok (b2, empty_world, evs)
      ∧ RxStart {| socket_ret := 6; bind_ret := 0 |} b2 os1
        = Fault ThreadTerminate.
Proof.
  assert (Hlen : Z.of_nat (length (rxBuff (testBridge "/tmp/" 4096))) = 4096)
    by exact zeroed_4096_rxBuff.
  split; [reflexivity|]. split; [reflexivity|]. split; [exact Hlen|].
  destruct (RxStart_after_disconnect 4096
              {| socket_ret := 4; bind_ret := 0 |}
              {| socket_ret := 6; bind_ret := 0 |}
              client_on_5 0 [] (testBridge "/tmp/" 4096) empty_world
              no_resources eq_refl eq_refl
              ltac:(simpl; lia) ltac:(simpl; lia) eq_refl ltac:(simpl; lia)
              Hlen ltac:(lia) ltac:(simpl; lia) ltac:(simpl; lia))
    as (b1 & os1 & b2 & evs & Hs & Hj & _ & Hfault & _).
  exists b1, os1, b2, evs. split; [exact Hs|]. split; [exact Hj | exact Hfault].
Defined.

Lemma TxStop_leaves_client_open_witness :
  tx_sock (set_client_tx_sock 5 started_tx) ≠ -1
  ∧ client_tx_sock (set_client_tx_sock 5 started_tx) ∈ open_fds tx_resources
  ∧ client_tx_sock (set_client_tx_sock 5 started_tx)
    ≠ tx_sock (set_client_tx_sock 5 started_tx)
  ∧ ∃ b' os',
      TxStop (set_client_tx_sock 5 started_tx) tx_resources = (0, b', os')
      ∧ client_tx_sock b' = -1
      ∧ 5 ∈ open_fds os'.
Proof.
  assert (H1 : tx_sock (set_client_tx_sock 5 started_tx) ≠ -1) by discriminate.
  assert (H2 : client_tx_sock (set_client_tx_sock 5 started_tx)
               ∈ open_fds tx_resources).
  { apply elem_of_union_r, elem_of_singleton. reflexivity. }
  assert (H3 : client_tx_sock (set_client_tx_sock 5 started_tx)
               ≠ tx_sock (set_client_tx_sock 5 started_tx)) by discriminate.
  split; [exact H1|]. split; [exact H2|]. split; [exact H3|].
  destruct (TxStop_leaves_client_open (set_client_tx_sock 5 started_tx)
              tx_resources H1 H2 H3)
    as (b' & os' & Hstop & _ & Hc & _ & Hopen & _).
  exists b', os'. split; [exact Hstop|]. split; [exact Hc | exact Hopen].
Defined.


Lemma fresh_bridge_consistent : Pipe.consistent Pipe.fresh_bridge ∅.
Proof.
  unfold Pipe.consistent. split; [reflexivity|]. split; [reflexivity|].
  split; [discriminate|]. intros H. exfalso. apply H. reflexivity.
Defined.


Lemma Pipe_TxStart_never_2_witness :
  Pipe.consistent Pipe.fresh_bridge ∅
  ∧ ∃ b' handles',
      Pipe.TxStart 7 Pipe.fresh_bridge ∅ = Ok (0, b', handles')
      ∧ handles' = {[7]}.
Proof.
  split; [exact fresh_bridge_consistent|].
  destruct (Pipe_TxStart_never_2 7 Pipe.fresh_bridge ∅
              fresh_bridge_consistent)
    as (b' & hs' & Hs & _ & Hh).
  exists b', hs'. split; [exact Hs | exact Hh].
Defined.

Lemma TestPoints_reads_frame_witness :
  packet_ok test_item.1 test_item.2
  ∧ TestPoints.on_header [1; 0; 8; 8; 5; 0]
      {| TestPoints.ready := false; TestPoints.scope_data := [] |}
    = Some ({| TestPoints.ready := false; TestPoints.scope_data := [] |},
            [TestPoints.Read 5]).
Proof.
  split; [exact test_item_ok|].
  exact (proj1 (TestPoints_reads_frame test_item
                  {| TestPoints.ready := false; TestPoints.scope_data := [] |}
                  test_item_ok)).
Defined.

Lemma on_header_short_buffer_witness :
  (length [1; 0; 8; 8] < 6)%nat
  ∧ TestPoints.on_header [1; 0; 8; 8]
      {| TestPoints.ready := false; TestPoints.scope_data := [] |}
    = Some ({| TestPoints.ready := false; TestPoints.scope_data := [] |},
            [TestPoints.Read 0]).
Proof.
  assert (H : (length [1; 0; 8; 8] < 6)%nat) by (simpl; lia).
  split; [exact H|].
  exact (on_header_short_buffer [1; 0; 8; 8]
           {| TestPoints.ready := false; TestPoints.scope_data := [] |} H).
Defined.

Lemma TestPoints_packet_received_witness :
  Z.of_nat (length (rxBuff (zeroed 4096))) = 4096
  ∧ 10 ≤ 4096
  ∧ ∃ b' evs,
      RxJob_iter_sock 4096 (RecvBytes TestPoints.testPacket) 0 (zeroed 4096)
        empty_world
      = Ok (b', empty_world, evs, Next)
      ∧ printed_packets evs = [EvPrintPacket 0x1F2C 0x1F 4 [1; 2; 3; 4]].
Proof.
  assert (H10 : 10 ≤ 4096) by lia.
  split; [exact zeroed_4096_rxBuff|]. split; [exact H10|].
  exact (TestPoints_packet_received 4096 0 (zeroed 4096) empty_world
           zeroed_4096_rxBuff H10).
Defined.
